(** * qq-farm-bot: the farm patrol engine (farm.js, utils.js)

    A shallow embedding of the decision engine of the bot: the clock
    estimate and time normalisation of src/src/utils.js, and of the farm
    module (its text follows the test script in
    src/tools/test-land-features.js) the phase resolver [getCurrentPhase],
    the plot classifier [analyzeLands], the retry cooldown maps, the seed
    selector [findBestSeed], the replant pipeline [autoPlantEmptyLands] and
    the patrol cycle [checkFarm].

    Conventions.
    - JS numbers that hold protobuf int64 fields, ids, prices and
      millisecond clocks are integers [Z]; [Math.floor (a / b)] is [a / b]
      on [Z] (floor division).
    - Module-level variables of farm.js and utils.js, the shared user state
      object of network.js and the remote game server are fields of one
      explicit state record [Sys], threaded by a small state monad.
    - A remote call is a method of the interface [Remote]; a rejected
      promise is the answer [None] (or [false]).  Every call appends an
      [Issue] and a [Settle] event to a ghost trace, so that the order of
      calls can be stated.
    - Console logging ([log], [logWarn], the [actions] summary line) has no
      influence on control flow and is left out. *)

From Stdlib Require Import ZArith List Bool Lia String Permutation Sorted.
From stdpp Require Import gmap.
Import ListNotations.
Local Open Scope Z_scope.

(** ** Data model (protobuf replies as farm.js reads them) *)

(** One entry of [plant.phases]. *)
Record Phase : Type := mkPhase {
  phase : Z;
  begin_time : Z;
  dry_time : Z;
  weeds_time : Z;
  insect_time : Z
}.

(** [land.plant]; [phases] may be absent. *)
Record Plant : Type := mkPlant {
  plant_id : Z;
  plant_name : string;
  phases : option (list Phase);
  dry_num : Z;
  weed_owners : list Z;
  insect_owners : list Z
}.

Record Land : Type := mkLand {
  land_id : Z;
  unlocked : bool;
  could_unlock : bool;
  could_upgrade : bool;
  land_level : Z;
  plant : option Plant
}.

(** A purchase condition of a shop entry; [cond_type = 1] is a level gate. *)
Record Cond : Type := mkCond { cond_type : Z; cond_param : Z }.

Record Goods : Type := mkGoods {
  goods_id : Z;
  item_id : Z;
  goods_price : Z;
  goods_unlocked : bool;
  conds : option (list Cond);
  limit_count : Z;
  bought_num : Z
}.

Record Item : Type := mkItem { it_id : Z; it_count : Z }.

Record BuyGoodsReply : Type := mkBuyReply {
  get_items : option (list Item);
  cost_items : option (list Item)
}.

(** The object returned by [getUserState ()]: shared and mutable. *)
Record UserState : Type := mkUser { gid : Z; level : Z; gold : Z }.

(** The part of CONFIG that farm.js reads.  [preferredSeedId = 0] is the
    falsy "not configured" value. *)
Record Config : Type := mkConfig {
  autoExpandLand : bool;
  autoUpgradeRedLand : bool;
  preferredSeedId : Z;
  forceLowestLevelCrop : bool;
  farmCheckInterval : Z
}.

(** ** utils.js *)

(** [toNum]: a Long becomes a number, a missing value becomes 0; integer
    fields are already [Z] here. *)
Definition toNum (val : Z) : Z := val.

(** Sync state of utils.js: [serverTimeMs] and [localTimeAtSync]. *)
Record Clock : Type := mkClock { serverTimeMs : Z; localTimeAtSync : Z }.

(** [getServerTimeSec ()], with the reading of [Date.now ()] made explicit. *)
Definition getServerTimeSec (c : Clock) (dateNow : Z) : Z :=
  if serverTimeMs c =? 0 then dateNow / 1000
  else
    let elapsed := dateNow - localTimeAtSync c in
    (serverTimeMs c + elapsed) / 1000.

Definition syncServerTime (ms : Z) (dateNow : Z) : Clock :=
  {| serverTimeMs := ms; localTimeAtSync := dateNow |}.

(** [toTimeSec]: normalise a timestamp to seconds. *)
Definition toTimeSec (val : Z) : Z :=
  let n := toNum val in
  if n <=? 0 then 0
  else if n >? 10 ^ 12 then n / 1000
  else n.

(** ** farm.js: phase resolver *)

(** The condition of the scan loop: [beginTime > 0 && beginTime <= nowSec]. *)
Definition phaseStarted (nowSec : Z) (p : Phase) : bool :=
  let beginTime := toTimeSec (begin_time p) in
  (beginTime >? 0) && (beginTime <=? nowSec).

(** [for (let i = phases.length - 1; i >= 0; i--)]: [scanPhases ps now n]
    runs the loop from index [n - 1] down to 0. *)
Fixpoint scanPhases (ps : list Phase) (nowSec : Z) (n : nat) : option Phase :=
  match n with
  | O => None
  | S i =>
      match ps !! i with
      | Some p => if phaseStarted nowSec p then Some p else scanPhases ps nowSec i
      | None => scanPhases ps nowSec i
      end
  end.

(** [getCurrentPhase (phases, debug, landLabel)].  The time is read from the
    clock of utils.js; [debug] and [landLabel] only drive console output. *)
Definition getCurrentPhase (phases : option (list Phase)) (debug : bool)
    (landLabel : string) (c : Clock) (dateNow : Z) : option Phase :=
  match phases with
  | None => None
  | Some ps =>
      if (length ps =? 0)%nat then None
      else
        let nowSec := getServerTimeSec c dateNow in
        match scanPhases ps nowSec (length ps) with
        | Some p => Some p
        | None => ps !! 0%nat
        end
  end.

(** The result of the scan in closed form: null on an empty list,
    otherwise the last phase that passes the test of the loop, and the
    first phase when there is none. *)
Definition resolveCurrentPhase (phases : list Phase) (nowSeconds : Z) : option Phase :=
  match phases with
  | [] => None
  | first :: _ => Some (List.last (List.filter (phaseStarted nowSeconds) phases) first)
  end.

(** ** farm.js: plot classifier *)

(** The [result] object of [analyzeLands]: arrays of land ids in push
    order.  [harvestableInfo] keeps the land id and the plant id of each
    harvestable plot (the name and experience looked up in gameConfig.js
    are for the log only). *)
Record Status : Type := mkStatus {
  harvestable : list Z;
  needWater : list Z;
  needWeed : list Z;
  needBug : list Z;
  growing : list Z;
  empty_ : list Z;
  dead : list Z;
  harvestableInfo : list (Z * Z);
  eligibleForUnlock : list Z;
  eligibleForUpgrade : list Z
}.

Definition emptyStatus : Status :=
  mkStatus [] [] [] [] [] [] [] [] [] [].

(** [result.<field>.push (id)], one function per array. *)
Definition push_harvestable (id pid : Z) (r : Status) : Status :=
  mkStatus (harvestable r ++ [id]) (needWater r) (needWeed r) (needBug r) (growing r)
           (empty_ r) (dead r) (harvestableInfo r ++ [(id, pid)])
           (eligibleForUnlock r) (eligibleForUpgrade r).
Definition push_needWater (id : Z) (r : Status) : Status :=
  mkStatus (harvestable r) (needWater r ++ [id]) (needWeed r) (needBug r) (growing r)
           (empty_ r) (dead r) (harvestableInfo r)
           (eligibleForUnlock r) (eligibleForUpgrade r).
Definition push_needWeed (id : Z) (r : Status) : Status :=
  mkStatus (harvestable r) (needWater r) (needWeed r ++ [id]) (needBug r) (growing r)
           (empty_ r) (dead r) (harvestableInfo r)
           (eligibleForUnlock r) (eligibleForUpgrade r).
Definition push_needBug (id : Z) (r : Status) : Status :=
  mkStatus (harvestable r) (needWater r) (needWeed r) (needBug r ++ [id]) (growing r)
           (empty_ r) (dead r) (harvestableInfo r)
           (eligibleForUnlock r) (eligibleForUpgrade r).
Definition push_growing (id : Z) (r : Status) : Status :=
  mkStatus (harvestable r) (needWater r) (needWeed r) (needBug r) (growing r ++ [id])
           (empty_ r) (dead r) (harvestableInfo r)
           (eligibleForUnlock r) (eligibleForUpgrade r).
Definition push_empty (id : Z) (r : Status) : Status :=
  mkStatus (harvestable r) (needWater r) (needWeed r) (needBug r) (growing r)
           (empty_ r ++ [id]) (dead r) (harvestableInfo r)
           (eligibleForUnlock r) (eligibleForUpgrade r).
Definition push_dead (id : Z) (r : Status) : Status :=
  mkStatus (harvestable r) (needWater r) (needWeed r) (needBug r) (growing r)
           (empty_ r) (dead r ++ [id]) (harvestableInfo r)
           (eligibleForUnlock r) (eligibleForUpgrade r).
Definition push_eligibleForUnlock (id : Z) (r : Status) : Status :=
  mkStatus (harvestable r) (needWater r) (needWeed r) (needBug r) (growing r)
           (empty_ r) (dead r) (harvestableInfo r)
           (eligibleForUnlock r ++ [id]) (eligibleForUpgrade r).
Definition push_eligibleForUpgrade (id : Z) (r : Status) : Status :=
  mkStatus (harvestable r) (needWater r) (needWeed r) (needBug r) (growing r)
           (empty_ r) (dead r) (harvestableInfo r)
           (eligibleForUnlock r) (eligibleForUpgrade r ++ [id]).

(** [!plant || !plant.phases || plant.phases.length === 0] *)
Definition isEmptyLand (land : Land) : bool :=
  match plant land with
  | None => true
  | Some pl =>
      match phases pl with
      | None => true
      | Some ps => (length ps =? 0)%nat
      end
  end.

(** A sub-timer of the current phase has run out:
    [t > 0 && t <= nowSec] on the normalised value. *)
Definition timerElapsed (nowSec : Z) (raw : Z) : bool :=
  let t := toTimeSec raw in (t >? 0) && (t <=? nowSec).

(** [plant.weed_owners && plant.weed_owners.length > 0] *)
Definition hasOwners (owners : list Z) : bool := (0 <? length owners)%nat.

(** The counters of [getLandTypeCounts]. *)
Record LandStats : Type := mkStats {
  total : Z; red : Z; black : Z; gold_ : Z; upgradeCount : Z; unlockCount : Z
}.

Definition countLand (acc : LandStats) (land : Land) : LandStats :=
  let acc := mkStats (total acc + 1) (red acc) (black acc) (gold_ acc) (upgradeCount acc)
               (if could_unlock land && negb (unlocked land)
                then unlockCount acc + 1 else unlockCount acc) in
  if negb (unlocked land) then acc
  else
    let lv := toNum (land_level land) in
    let acc :=
      if lv =? 2 then mkStats (total acc) (red acc + 1) (black acc) (gold_ acc)
                        (upgradeCount acc) (unlockCount acc)
      else if lv =? 3 then mkStats (total acc) (red acc) (black acc + 1) (gold_ acc)
                             (upgradeCount acc) (unlockCount acc)
      else if lv =? 4 then mkStats (total acc) (red acc) (black acc) (gold_ acc + 1)
                             (upgradeCount acc) (unlockCount acc)
      else acc in
    if could_upgrade land
    then mkStats (total acc) (red acc) (black acc) (gold_ acc)
           (upgradeCount acc + 1) (unlockCount acc)
    else acc.

Definition getLandTypeCounts (lands : list Land) : LandStats :=
  fold_left countLand lands (mkStats 0 0 0 0 0 0).

(** The two members of the [PlantPhase] enumeration of config.js that the
    classifier compares against; config.js fixes their numbers. *)
Record PlantPhaseEnum : Type := mkPlantPhase { DEAD : Z; MATURE : Z }.

Section Classifier.
Variable PlantPhase : PlantPhaseEnum.

(** The body of the [for (const land of lands)] loop of [analyzeLands].
    [nowSec] is the reading taken before the loop; [getCurrentPhase]
    takes its own reading from the same clock. *)
Definition analyzeLand (c : Clock) (dateNow : Z) (nowSec : Z)
    (result : Status) (land : Land) : Status :=
  let id := toNum (land_id land) in
  let result :=
    if could_unlock land && negb (unlocked land)
    then push_eligibleForUnlock id result else result in
  if negb (unlocked land) then result
  else
    let isEmpty := isEmptyLand land in
    let result :=
      if could_upgrade land && unlocked land
      then push_eligibleForUpgrade id result else result in
    if isEmpty then push_empty id result
    else
      match plant land with
      | None => push_empty id result
      | Some pl =>
          match getCurrentPhase (phases pl) false (plant_name pl) c dateNow with
          | None => push_empty id result
          | Some currentPhase =>
              let phaseVal := phase currentPhase in
              if phaseVal =? DEAD PlantPhase then push_dead id result
              else if phaseVal =? MATURE PlantPhase
              then push_harvestable id (toNum (plant_id pl)) result
              else
                let dryNum := toNum (dry_num pl) in
                let result :=
                  if (dryNum >? 0) || timerElapsed nowSec (dry_time currentPhase)
                  then push_needWater id result else result in
                let hasWeeds :=
                  hasOwners (weed_owners pl)
                  || timerElapsed nowSec (weeds_time currentPhase) in
                let result := if hasWeeds then push_needWeed id result else result in
                let hasBugs :=
                  hasOwners (insect_owners pl)
                  || timerElapsed nowSec (insect_time currentPhase) in
                let result := if hasBugs then push_needBug id result else result in
                push_growing id result
          end
      end.

Definition analyzeLands (c : Clock) (dateNow : Z) (lands : list Land) : Status :=
  let nowSec := getServerTimeSec c dateNow in
  fold_left (analyzeLand c dateNow nowSec) lands emptyStatus.
End Classifier.

(** ** farm.js: seed selector *)

(** An element of the [available] array of [findBestSeed]. *)
Record Available : Type := mkAvailable {
  goods : Goods;
  goodsId : Z;
  seedId : Z;
  price : Z;
  requiredLevel : Z
}.

(** The inner loop over [goods.conds]: returns [meetsConditions] and the
    value of [requiredLevel] when the loop ends or breaks. *)
Fixpoint checkConds (lvl : Z) (cs : list Cond) (requiredLevel : Z) : bool * Z :=
  match cs with
  | [] => (true, requiredLevel)
  | cond :: rest =>
      if toNum (cond_type cond) =? 1 then
        let requiredLevel := toNum (cond_param cond) in
        if lvl <? requiredLevel then (false, requiredLevel)
        else checkConds lvl rest requiredLevel
      else checkConds lvl rest requiredLevel
  end.

(** One iteration of the loop over [shopReply.goods_list]: [Some] entry
    when the goods are pushed to [available], [None] on [continue]. *)
Definition availableEntry (lvl : Z) (g : Goods) : option Available :=
  if negb (goods_unlocked g) then None
  else
    let '(meetsConditions, requiredLevel) :=
      checkConds lvl (match conds g with Some cs => cs | None => [] end) 0 in
    if negb meetsConditions then None
    else
      let limitCount := toNum (limit_count g) in
      let boughtNum := toNum (bought_num g) in
      if (limitCount >? 0) && (boughtNum >=? limitCount) then None
      else Some (mkAvailable g (toNum (goods_id g)) (toNum (item_id g))
                             (toNum (goods_price g)) requiredLevel).

Fixpoint filterAvailable (lvl : Z) (goods_list : list Goods) : list Available :=
  match goods_list with
  | [] => []
  | g :: rest =>
      match availableEntry lvl g with
      | Some x => x :: filterAvailable lvl rest
      | None => filterAvailable lvl rest
      end
  end.

(** [Array.prototype.sort (compareFn)]: a stable sort; an element [a] goes
    before [b] when [compareFn (a, b) <= 0] and [a] came first. *)
Fixpoint insertSorted {A : Type} (compareFn : A -> A -> Z) (a : A) (l : list A) : list A :=
  match l with
  | [] => [a]
  | b :: l' =>
      if compareFn a b <=? 0 then a :: b :: l'
      else b :: insertSorted compareFn a l'
  end.

Definition Array_sort {A : Type} (compareFn : A -> A -> Z) (l : list A) : list A :=
  fold_right (insertSorted compareFn) [] l.

(** [a.requiredLevel - b.requiredLevel || a.price - b.price] *)
Definition byLevelThenPrice (a b : Available) : Z :=
  let d := requiredLevel a - requiredLevel b in
  if d =? 0 then price a - price b else d.

Definition byLevelAsc (a b : Available) : Z := requiredLevel a - requiredLevel b.
Definition byLevelDesc (a b : Available) : Z := requiredLevel b - requiredLevel a.

(** [available.find (x => x.seedId === id)] *)
Definition findBySeedId (available : list Available) (id : Z) : option Available :=
  List.find (fun x => seedId x =? id) available.

(** The loop over [rankedSeedIds]: the first ranked id that is available. *)
Fixpoint firstRankedHit (available : list Available) (rankedSeedIds : list Z)
    : option Available :=
  match rankedSeedIds with
  | [] => None
  | sid :: rest =>
      match findBySeedId available sid with
      | Some hit => Some hit
      | None => firstRankedHit available rest
      end
  end.

Section Selector.
Variable CONFIG : Config.
(** [getPlantingRecommendation (level, lands, { top: 50 })] of
    tools/calc-exp-yield.js, reduced to the ranked seed ids
    [rec.candidatesNormalFert.map (x => x.seedId)]; [None] when it throws. *)
Variable getPlantingRecommendation : Z -> Z -> option (list Z).

(** [CONFIG.preferredSeedId && available.find (...)]: the pinned entry,
    when one is configured and available. *)
Definition pinnedSeed (available : list Available) : option Available :=
  if preferredSeedId CONFIG =? 0 then None
  else findBySeedId available (preferredSeedId CONFIG).

(** The [try] block around the recommendation: the first available
    ranked seed; [None] when nothing matches or the service throws. *)
Definition rankedSeed (available : list Available) (lvl : Z)
    (landsCount : option Z) : option Available :=
  match getPlantingRecommendation lvl
          (match landsCount with None => 18 | Some n => n end) with
  | Some rankedSeedIds => firstRankedHit available rankedSeedIds
  | None => None
  end.

(** The static fallback at the end of [findBestSeed]:
    [if (state.level && state.level <= 28)] sort ascending, else
    descending, and take [available[0]]. *)
Definition fallbackSeed (available : list Available) (lvl : Z) : option Available :=
  if negb (lvl =? 0) && (lvl <=? 28)
  then head (Array_sort byLevelAsc available)
  else head (Array_sort byLevelDesc available).

(** [findBestSeed (landsCount)] after the shop reply has arrived:
    [goods_list] is [shopReply.goods_list], [state] the user state. *)
Definition findBestSeed (goods_list : option (list Goods)) (state : UserState)
    (landsCount : option Z) : option Available :=
  match goods_list with
  | None => None
  | Some gl =>
      if (length gl =? 0)%nat then None
      else
        let available := filterAvailable (level state) gl in
        if (length available =? 0)%nat then None
        else
          match pinnedSeed available with
          | Some preferred => Some preferred
          | None =>
              if forceLowestLevelCrop CONFIG
              then head (Array_sort byLevelThenPrice available)
              else
                match rankedSeed available (level state) landsCount with
                | Some hit => Some hit
                | None => fallbackSeed available (level state)
                end
          end
  end.
End Selector.

(** ** farm.js: retry cooldown *)

Definition EXPAND_RETRY_INTERVAL_MS : Z := 10 * 60 * 1000.

Inductive Kind : Type := KUnlock | KUpgrade.

(** The filter predicate of both expansion steps:
    [const t = cooldown.get (id); return !t || now - t >= EXPAND_RETRY_INTERVAL_MS]. *)
Definition cooldownReady (cooldown : gmap Z Z) (now : Z) (id : Z) : bool :=
  match cooldown !! id with
  | None => true
  | Some t => (t =? 0) || (now - t >=? EXPAND_RETRY_INTERVAL_MS)
  end.

(** [for (const id of failedIds) cooldown.set (id, failedTime)] *)
Definition setAll (failedTime : Z) (ids : list Z) (cooldown : gmap Z Z) : gmap Z Z :=
  fold_left (fun m id => <[id := failedTime]> m) ids cooldown.

(** [for (const id of ids) cooldown.delete (id)] *)
Definition deleteAll (ids : list Z) (cooldown : gmap Z Z) : gmap Z Z :=
  fold_left (fun m id => delete id m) ids cooldown.

(** [new Set (ids).has (id)] *)
Definition setHas (ids : list Z) (id : Z) : bool := existsb (Z.eqb id) ids.

(** ** The remote service and the engine state *)

(** The requests farm.js sends through [sendMsgAsync], with the arguments
    that identify them. *)
Inductive Call : Type :=
  | CAllLands
  | CWeedOut (land_ids : list Z)
  | CInsecticide (land_ids : list Z)
  | CWaterLand (land_ids : list Z)
  | CHarvest (land_ids : list Z)
  | CUnlockLand (landId : Z)
  | CUpgradeLand (landId : Z)
  | CRemovePlant (land_ids : list Z)
  | CShopInfo (shop_id : Z)
  | CBuyGoods (goods_id num price : Z)
  | CPlant (seed_id landId : Z)
  | CFertilize (landId fertilizer_id : Z).

(** Ghost trace: a request leaves the client ([Issue]), its promise
    settles ([Settle], with [false] for a rejection), or the login box
    callback of network.js is invoked. *)
Inductive Event : Type :=
  | Issue (c : Call)
  | Settle (c : Call) (ok : bool)
  | LoginBox (stats : option LandStats).

(** What the engine needs from its environment: the wall clock
    [Date.now ()], the passing of time in [sleep (ms)], and the answers of
    the game server.  [None] and [false] stand for a rejected promise.
    [rpcPlain] serves the requests whose reply content is not used. *)
Class Remote (W : Type) : Type := {
  dateNow : W -> Z;
  sleep : Z -> W -> W;
  rpcAllLands : W -> option (option (list Land)) * W;
  rpcShopInfo : Z -> W -> option (option (list Goods)) * W;
  rpcBuyGoods : Z -> Z -> Z -> W -> option BuyGoodsReply * W;
  rpcPlain : Call -> W -> bool * W
}.

(** Everything a patrol cycle reads or writes. *)
Record Sys (W : Type) : Type := mkSys {
  world : W;
  trace : list Event;
  userState : UserState;
  clock : Clock;
  isCheckingFarm : bool;
  lastLandStats : option LandStats;
  upgradeRetryCooldown : gmap Z Z;
  unlockRetryCooldown : gmap Z Z;
  lastPushTime : Z
}.
Arguments mkSys {W}.
Arguments world {W}.
Arguments trace {W}.
Arguments userState {W}.
Arguments clock {W}.
Arguments isCheckingFarm {W}.
Arguments lastLandStats {W}.
Arguments upgradeRetryCooldown {W}.
Arguments unlockRetryCooldown {W}.
Arguments lastPushTime {W}.

Section SysUpdate.
Context {W : Type}.

Definition step_world (w : W) (evs : list Event) (s : Sys W) : Sys W :=
  mkSys w (trace s ++ evs) (userState s) (clock s) (isCheckingFarm s)
        (lastLandStats s) (upgradeRetryCooldown s) (unlockRetryCooldown s)
        (lastPushTime s).
Definition set_userState (u : UserState) (s : Sys W) : Sys W :=
  mkSys (world s) (trace s) u (clock s) (isCheckingFarm s)
        (lastLandStats s) (upgradeRetryCooldown s) (unlockRetryCooldown s)
        (lastPushTime s).
Definition set_isCheckingFarm (b : bool) (s : Sys W) : Sys W :=
  mkSys (world s) (trace s) (userState s) (clock s) b
        (lastLandStats s) (upgradeRetryCooldown s) (unlockRetryCooldown s)
        (lastPushTime s).
Definition set_lastLandStats (st : option LandStats) (s : Sys W) : Sys W :=
  mkSys (world s) (trace s) (userState s) (clock s) (isCheckingFarm s)
        st (upgradeRetryCooldown s) (unlockRetryCooldown s)
        (lastPushTime s).
Definition set_upgradeRetryCooldown (m : gmap Z Z) (s : Sys W) : Sys W :=
  mkSys (world s) (trace s) (userState s) (clock s) (isCheckingFarm s)
        (lastLandStats s) m (unlockRetryCooldown s)
        (lastPushTime s).
Definition set_unlockRetryCooldown (m : gmap Z Z) (s : Sys W) : Sys W :=
  mkSys (world s) (trace s) (userState s) (clock s) (isCheckingFarm s)
        (lastLandStats s) (upgradeRetryCooldown s) m
        (lastPushTime s).

(** The cooldown map of an operation kind. *)
Definition cooldownOf (k : Kind) (s : Sys W) : gmap Z Z :=
  match k with
  | KUnlock => unlockRetryCooldown s
  | KUpgrade => upgradeRetryCooldown s
  end.
Definition set_cooldownOf (k : Kind) (m : gmap Z Z) (s : Sys W) : Sys W :=
  match k with
  | KUnlock => set_unlockRetryCooldown m s
  | KUpgrade => set_upgradeRetryCooldown m s
  end.

(** The retry cooldown tracker, read off the three places where farm.js
    touches a cooldown map. *)
Definition isEligible (k : Kind) (id now : Z) (s : Sys W) : bool :=
  cooldownReady (cooldownOf k s) now id.
Definition recordFailure (k : Kind) (id failedTime : Z) (s : Sys W) : Sys W :=
  set_cooldownOf k (setAll failedTime [id] (cooldownOf k s)) s.
Definition clearCooldown (k : Kind) (id : Z) (s : Sys W) : Sys W :=
  set_cooldownOf k (deleteAll [id] (cooldownOf k s)) s.
End SysUpdate.

(** ** The state monad of a cycle *)

Definition M (W A : Type) : Type := Sys W -> A * Sys W.

Definition ret {W A : Type} (a : A) : M W A := fun s => (a, s).
Definition bind {W A B : Type} (m : M W A) (k : A -> M W B) : M W B :=
  fun s => let '(a, s') := m s in k a s'.
Definition gets {W A : Type} (f : Sys W -> A) : M W A := fun s => (f s, s).
Definition modify {W : Type} (f : Sys W -> Sys W) : M W unit := fun s => (tt, f s).

Notation "'let*' x ':=' c1 'in' c2" := (bind c1 (fun x => c2))
  (at level 10, x name, c1 at level 100, c2 at level 200).
Notation "'let*' ' pat ':=' c1 'in' c2" :=
  (bind c1 (fun x => match x with pat => c2 end))
  (at level 10, pat pattern, c1 at level 100, c2 at level 200).
Notation "'run' c1 'then' c2" := (bind c1 (fun _ => c2))
  (at level 10, c1 at level 100, c2 at level 200).

Definition nonEmpty {A : Type} (l : list A) : bool := (0 <? length l)%nat.
Definition isOk {A : Type} (r : option A) : bool :=
  match r with Some _ => true | None => false end.

Definition NORMAL_FERTILIZER_ID : Z := 1011.
Definition SEED_SHOP_ID : Z := 2.

Section Engine.
Context {W : Type} `{Remote W}.
Variable CONFIG : Config.
Variable PlantPhase : PlantPhaseEnum.
Variable getPlantingRecommendation : Z -> Z -> option (list Z).

(** *** Primitive effects *)

(** [Date.now ()] *)
Definition getNow : M W Z := gets (fun s => dateNow (world s)).

(** [await sleep (ms)] *)
Definition doSleep (ms : Z) : M W unit :=
  modify (fun s => step_world (sleep ms (world s)) [] s).

(** An awaited request whose reply content is not used: the request is
    issued and settles before the caller goes on. *)
Definition sendPlain (c : Call) : M W bool := fun s =>
  let '(ok, w) := rpcPlain c (world s) in
  (ok, step_world w [Issue c; Settle c ok] s).

(** [getAllLands ()]: [None] when the request is rejected, otherwise
    [reply.lands]. *)
Definition getAllLands : M W (option (option (list Land))) := fun s =>
  let '(r, w) := rpcAllLands (world s) in
  (r, step_world w [Issue CAllLands; Settle CAllLands (isOk r)] s).

Definition getShopInfo (shopId : Z) : M W (option (option (list Goods))) := fun s =>
  let '(r, w) := rpcShopInfo shopId (world s) in
  (r, step_world w [Issue (CShopInfo shopId); Settle (CShopInfo shopId) (isOk r)] s).

Definition buyGoods (gId num pr : Z) : M W (option BuyGoodsReply) := fun s =>
  let '(r, w) := rpcBuyGoods gId num pr (world s) in
  (r, step_world w [Issue (CBuyGoods gId num pr); Settle (CBuyGoods gId num pr) (isOk r)] s).

(** The server answers the requests of a batch in the order they were
    sent. *)
Fixpoint answerAll (cs : list Call) (w : W) : list Event * W :=
  match cs with
  | [] => ([], w)
  | c :: rest =>
      let '(ok, w1) := rpcPlain c w in
      let '(evs, w2) := answerAll rest w1 in
      (Settle c ok :: evs, w2)
  end.

(** [await Promise.all (batchOps)]: every promise of [batchOps] was
    created, so its request issued, before the first one is awaited; each
    carries its own [.catch], so the wait ends when all have settled. *)
Definition promiseAll (batchOps : list Call) : M W unit := fun s =>
  let '(settles, w) := answerAll batchOps (world s) in
  (tt, step_world w (map Issue batchOps ++ settles) s).

(** [completeLoginBox (stats)] of network.js *)
Definition completeLoginBox (stats : option LandStats) : M W unit :=
  modify (fun s => step_world (world s) [LoginBox stats] s).

(** *** One-at-a-time loops *)

(** [unlockLand (landIds)] and [upgradeLand (landIds)] differ only in the
    request; [n] is [landIds.length] of the whole array.  Returns
    [(successIds, failedIds)]; [successCount] is the length of the first. *)
Fixpoint expandLoop (mk : Z -> Call) (n : nat) (landIds : list Z)
    (successIds failedIds : list Z) : M W (list Z * list Z) :=
  match landIds with
  | [] => ret (successIds, failedIds)
  | landId :: rest =>
      let* ok := sendPlain (mk landId) in
      let successIds := if ok then successIds ++ [landId] else successIds in
      let failedIds := if ok then failedIds else failedIds ++ [landId] in
      run (if (1 <? n)%nat then doSleep 200 else ret tt) then
      expandLoop mk n rest successIds failedIds
  end.

Definition unlockLand (landIds : list Z) : M W (list Z * list Z) :=
  expandLoop CUnlockLand (length landIds) landIds [] [].
Definition upgradeLand (landIds : list Z) : M W (list Z * list Z) :=
  expandLoop CUpgradeLand (length landIds) landIds [] [].

(** [plantSeeds (seedId, landIds)]: returns [successCount]; a failed
    request is logged and the loop goes on. *)
Fixpoint plantLoop (sId : Z) (n : nat) (landIds : list Z) (successCount : nat)
    : M W nat :=
  match landIds with
  | [] => ret successCount
  | landId :: rest =>
      let* ok := sendPlain (CPlant sId landId) in
      let successCount := if ok then S successCount else successCount in
      run (if (1 <? n)%nat then doSleep 50 else ret tt) then
      plantLoop sId n rest successCount
  end.

Definition plantSeeds (sId : Z) (landIds : list Z) : M W nat :=
  plantLoop sId (length landIds) landIds O.

(** [fertilize (landIds, fertilizerId)]: [break] on the first failure. *)
Fixpoint fertilizeLoop (fertilizerId : Z) (n : nat) (landIds : list Z)
    (successCount : nat) : M W nat :=
  match landIds with
  | [] => ret successCount
  | landId :: rest =>
      let* ok := sendPlain (CFertilize landId fertilizerId) in
      if ok then
        run (if (1 <? n)%nat then doSleep 50 else ret tt) then
        fertilizeLoop fertilizerId n rest (S successCount)
      else ret successCount
  end.

Definition fertilize (landIds : list Z) (fertilizerId : Z) : M W nat :=
  fertilizeLoop fertilizerId (length landIds) landIds O.

(** *** Replant pipeline *)

(** [findBestSeed] with its shop request; a rejected request makes the
    caller's [catch] return, like a null result. *)
Definition findBestSeedM (landsCount : option Z) : M W (option Available) :=
  let* shopReply := getShopInfo SEED_SHOP_ID in
  match shopReply with
  | None => ret None
  | Some goods_list =>
      let* state := gets userState in
      ret (findBestSeed CONFIG getPlantingRecommendation goods_list state landsCount)
  end.

(** Step 3 of [autoPlantEmptyLands] before the purchase: the lands that
    can be paid for, or [None] when the function returns. *)
Definition affordable (bestSeed : Available) (stateGold : Z)
    (landsToPlant : list Z) : option (list Z) :=
  let needCount := Z.of_nat (length landsToPlant) in
  let totalCost := price bestSeed * needCount in
  if totalCost >? stateGold then
    let canBuy := stateGold / price bestSeed in
    if canBuy <=? 0 then None
    else Some (firstn (Z.to_nat canBuy) landsToPlant)
  else Some landsToPlant.

(** [actualSeedId] after the purchase reply. *)
Definition boughtSeedId (bestSeed : Available) (buyReply : BuyGoodsReply) : Z :=
  match get_items buyReply with
  | Some (gotItem :: _) =>
      let gotId := toNum (it_id gotItem) in
      if gotId >? 0 then gotId else seedId bestSeed
  | _ => seedId bestSeed
  end.

(** [for (const item of buyReply.cost_items) state.gold -= toNum (item.count)] *)
Definition payCost (buyReply : BuyGoodsReply) (u : UserState) : UserState :=
  match cost_items buyReply with
  | Some items =>
      fold_left (fun u item => mkUser (gid u) (level u) (gold u - toNum (it_count item)))
                items u
  | None => u
  end.

Definition autoPlantEmptyLands (deadLandIds emptyLandIds : list Z)
    (unlockedLandCount : option Z) : M W unit :=
  let landsToPlant := emptyLandIds in
  let* landsToPlant :=
    (if nonEmpty deadLandIds then
       let* _ := sendPlain (CRemovePlant deadLandIds) in
       ret (landsToPlant ++ deadLandIds)
     else ret landsToPlant) in
  if (length landsToPlant =? 0)%nat then ret tt
  else
    let* bestSeed := findBestSeedM unlockedLandCount in
    match bestSeed with
    | None => ret tt
    | Some bestSeed =>
        let* state := gets userState in
        match affordable bestSeed (gold state) landsToPlant with
        | None => ret tt
        | Some landsToPlant =>
            let* buyReply := buyGoods (goodsId bestSeed)
                               (Z.of_nat (length landsToPlant)) (price bestSeed) in
            match buyReply with
            | None => ret tt
            | Some buyReply =>
                let actualSeedId := boughtSeedId bestSeed buyReply in
                run modify (fun s => set_userState (payCost buyReply (userState s)) s) then
                let* planted := plantSeeds actualSeedId landsToPlant in
                let plantedLands :=
                  if (0 <? planted)%nat then firstn planted landsToPlant else [] in
                if nonEmpty plantedLands then
                  let* _ := fertilize plantedLands NORMAL_FERTILIZER_ID in ret tt
                else ret tt
            end
        end
    end.

(** *** The patrol cycle, step by step *)

(** The promises pushed to [batchOps], in creation order. *)
Definition batchOpsOf (status : Status) : list Call :=
  (if nonEmpty (needWeed status) then [CWeedOut (needWeed status)] else [])
  ++ (if nonEmpty (needBug status) then [CInsecticide (needBug status)] else [])
  ++ (if nonEmpty (needWater status) then [CWaterLand (needWater status)] else []).

Definition maintenanceStep (status : Status) : M W unit :=
  let batchOps := batchOpsOf status in
  if nonEmpty batchOps then promiseAll batchOps else ret tt.

(** Returns [harvestedLandIds]. *)
Definition harvestStep (status : Status) : M W (list Z) :=
  if nonEmpty (harvestable status) then
    let* ok := sendPlain (CHarvest (harvestable status)) in
    if ok then
      let harvestedLandIds := harvestable status in
      run modify (fun s => set_upgradeRetryCooldown
                             (deleteAll harvestedLandIds (upgradeRetryCooldown s)) s) then
      ret harvestedLandIds
    else ret []
  else ret [].

(** The body shared by the unlock and the upgrade step: filter by the
    cooldown map of the kind, run the one-at-a-time loop, then stamp the
    failures and clear the successes.  Returns [failedIds], or [[]] when
    the loop did not run. *)
Definition expandStep (k : Kind) (enabled : bool) (eligible : list Z)
    (loop : list Z -> M W (list Z * list Z)) : M W (list Z) :=
  if enabled && nonEmpty eligible then
    let* now := getNow in
    let* cooldown := gets (cooldownOf k) in
    let todo := List.filter (cooldownReady cooldown now) eligible in
    if nonEmpty todo then
      let* '(successIds, failedIds) := loop todo in
      let* failedTime := getNow in
      run modify (fun s => set_cooldownOf k (setAll failedTime failedIds (cooldownOf k s)) s) then
      run modify (fun s => set_cooldownOf k (deleteAll successIds (cooldownOf k s)) s) then
      ret failedIds
    else ret []
  else ret [].

Definition unlockStep (status : Status) : M W unit :=
  let* _ := expandStep KUnlock (autoExpandLand CONFIG)
              (eligibleForUnlock status) unlockLand in
  ret tt.

(** Returns [failedUpgradeIds]. *)
Definition upgradeStep (status : Status) : M W (list Z) :=
  expandStep KUpgrade (autoUpgradeRedLand CONFIG)
    (eligibleForUpgrade status) upgradeLand.

(** [[...status.dead, ...harvestedLandIds.filter (id => !failedUpgradeSet.has (id))]] *)
Definition allDeadLands (status : Status) (harvestedLandIds failedUpgradeIds : list Z)
    : list Z :=
  dead status
  ++ List.filter (fun id => negb (setHas failedUpgradeIds id)) harvestedLandIds.

(** [status.empty.filter (id => !upgradeEligibleSet.has (id))] *)
Definition allEmptyLands (status : Status) : list Z :=
  List.filter (fun id => negb (setHas (eligibleForUpgrade status) id)) (empty_ status).

Definition replantStep (status : Status) (harvestedLandIds failedUpgradeIds : list Z)
    (unlockedLandCount : option Z) : M W unit :=
  let deadLands := allDeadLands status harvestedLandIds failedUpgradeIds in
  let emptyLands := allEmptyLands status in
  if nonEmpty deadLands || nonEmpty emptyLands
  then autoPlantEmptyLands deadLands emptyLands unlockedLandCount
  else ret tt.

(** Everything of [checkFarm] after the snapshot has been accepted. *)
Definition actOnLands (lands : list Land) : M W unit :=
  let landStats := getLandTypeCounts lands in
  run modify (set_lastLandStats (Some landStats)) then
  run completeLoginBox (Some landStats) then
  let* status := gets (fun s => analyzeLands PlantPhase (clock s) (dateNow (world s)) lands) in
  let unlockedLandCount :=
    Some (Z.of_nat (length (List.filter unlocked lands))) in
  run maintenanceStep status then
  let* harvestedLandIds := harvestStep status in
  run unlockStep status then
  let* failedUpgradeIds := upgradeStep status in
  replantStep status harvestedLandIds failedUpgradeIds unlockedLandCount.

(** The [try { ... } catch (err) { completeLoginBox (null) }] block. *)
Definition guardedCycle : M W unit :=
  let* landsReply := getAllLands in
  match landsReply with
  | None => completeLoginBox None
  | Some None => completeLoginBox None
  | Some (Some lands) =>
      if (length lands =? 0)%nat then completeLoginBox None
      else actOnLands lands
  end.

(** The head of [checkFarm ()], which runs before the function first
    awaits: the guard test and [isCheckingFarm = true].  [None] when the
    function returns at once. *)
Definition checkFarmEnter (s : Sys W) : option (Sys W) :=
  let state := userState s in
  if isCheckingFarm s || (gid state =? 0) then None
  else Some (set_isCheckingFarm true s).

(** [checkFarm ()]: the guard, the cycle, and the [finally] clause. *)
Definition checkFarm : M W unit := fun s =>
  match checkFarmEnter s with
  | None => (tt, s)
  | Some s =>
      let '(_, s) := guardedCycle s in
      (tt, set_isCheckingFarm false s)
  end.


End Engine.

(** ** A scripted server, for worked examples *)

(** A server whose answers are fixed in advance: the wall clock, the
    snapshot, the shop catalog, the purchase receipt, and the set of plain
    requests it rejects.  Sleeping advances the clock. *)
Record Script : Type := mkScript {
  clockMs : Z;
  landsAnswer : option (option (list Land));
  shopAnswer : option (option (list Goods));
  buyAnswer : option BuyGoodsReply;
  rejects : Call -> bool
}.

#[global] Instance scripted : Remote Script := {|
  dateNow w := clockMs w;
  sleep ms w := mkScript (clockMs w + ms) (landsAnswer w) (shopAnswer w)
                         (buyAnswer w) (rejects w);
  rpcAllLands w := (landsAnswer w, w);
  rpcShopInfo _ w := (shopAnswer w, w);
  rpcBuyGoods _ _ _ w := (buyAnswer w, w);
  rpcPlain c w := (negb (rejects w c), w)
|}.

(** A logged-in engine at rest, facing the server [w]. *)
Definition freshSys (w : Script) (u : UserState) : Sys Script :=
  mkSys w [] u (mkClock 0 0) false None ∅ ∅ 0.

(** Sample numbering of the two phases the classifier tests for. *)
Definition samplePhases : PlantPhaseEnum := mkPlantPhase 7 6.

Definition sampleConfig (expand upgrade : bool) : Config :=
  mkConfig expand upgrade 0 false 1000.

(** A recommendation service that is down. *)
Definition noRecommendation (lvl lands : Z) : option (list Z) := None.

Definition plantIn (ph : Z) (dry : Z) : option Plant :=
  Some (mkPlant 1020002 "Carrot" (Some [mkPhase ph 100 dry 0 0]) 0 [] []).

(** Four unlocked plots: a dead one, a mature one, an empty one and a
    growing one whose dry timer ran out. *)
Definition sampleLands : list Land :=
  [ mkLand 1 true false false 1 (plantIn 7 0);
    mkLand 2 true false false 1 (plantIn 6 0);
    mkLand 3 true false false 1 None;
    mkLand 4 true false false 1 (plantIn 3 200) ].

Definition sampleShop : list Goods :=
  [ mkGoods 11 20002 10 true (Some [mkCond 1 1]) 0 0;
    mkGoods 12 20059 40 true (Some [mkCond 1 4]) 0 0;
    mkGoods 13 20003 25 true (Some [mkCond 1 9]) 0 0 ].

Definition sampleReceipt : BuyGoodsReply :=
  mkBuyReply None (Some [mkItem 1001 30]).

Definition sampleUser : UserState := mkUser 1 5 1000.

Definition rejectNothing (c : Call) : bool := false.

(** The server of the four-plot scenario, one million milliseconds after
    the epoch. *)
Definition sampleServer (lands : list Land) (rej : Call -> bool) : Script :=
  mkScript 1000000 (Some (Some lands)) (Some (Some sampleShop)) (Some sampleReceipt) rej.

(** A dead plot that is also an upgrade candidate, on a server that
    rejects its upgrade. *)
Definition deadUpgradable : list Land :=
  [ mkLand 1 true false true 1 (plantIn 7 0) ].

Definition rejectUpgrade1 (c : Call) : bool :=
  match c with CUpgradeLand 1 => true | _ => false end.

(** Two empty plots, 1 and 3, on a server that rejects the plant request
    for plot 1. *)
Definition twoEmptyLands : list Land :=
  [ mkLand 1 true false false 1 None; mkLand 3 true false false 1 None ].

Definition rejectPlant1 (c : Call) : bool :=
  match c with CPlant _ 1 => true | _ => false end.

(** The removal set as the specification words it: the union of the dead
    plots and the plots harvested this cycle, minus the plots whose
    upgrade failed this cycle. *)
Definition removalSetAsStated (status : Status)
    (harvestedLandIds failedUpgradeIds : list Z) : list Z :=
  List.filter (fun id => negb (setHas failedUpgradeIds id))
              (dead status ++ harvestedLandIds).

(** ** Vocabulary of the statements *)

(** The four primary categories, laid end to end. *)
Definition primary (r : Status) : list Z :=
  dead r ++ harvestable r ++ empty_ r ++ growing r.

(** An id enters a need array only together with the growing array. *)
Definition needsWithinGrowing (r : Status) : Prop :=
  forall id, In id (needWater r) \/ In id (needWeed r) \/ In id (needBug r) ->
             In id (growing r).

(** The plots of a snapshot are identified by their ids. *)
Definition distinctIds (lands : list Land) : Prop := List.NoDup (map land_id lands).

(** A stretch of trace in which every request satisfies [P] and settles
    before the next one is issued. *)
Inductive Awaited (P : Call -> Prop) : list Event -> Prop :=
  | Awaited_nil : Awaited P []
  | Awaited_cons (c : Call) (ok : bool) (t : list Event) :
      P c -> Awaited P t -> Awaited P (Issue c :: Settle c ok :: t).

Definition isMaintenance (c : Call) : Prop :=
  match c with CWeedOut _ | CInsecticide _ | CWaterLand _ => True | _ => False end.
Definition isHarvest (c : Call) : Prop :=
  match c with CHarvest _ => True | _ => False end.
Definition isUnlock (c : Call) : Prop :=
  match c with CUnlockLand _ => True | _ => False end.
Definition isUpgrade (c : Call) : Prop :=
  match c with CUpgradeLand _ => True | _ => False end.
Definition isRemovePlant (c : Call) : Prop :=
  match c with CRemovePlant _ => True | _ => False end.
Definition isShopInfo (c : Call) : Prop :=
  match c with CShopInfo _ => True | _ => False end.
Definition isBuyGoods (c : Call) : Prop :=
  match c with CBuyGoods _ _ _ => True | _ => False end.
Definition isPlant (c : Call) : Prop :=
  match c with CPlant _ _ => True | _ => False end.
Definition isFertilize (c : Call) : Prop :=
  match c with CFertilize _ _ => True | _ => False end.

(** Fertilize requests aimed at given plots. *)
Definition fertilizes (ids : list Z) (c : Call) : Prop :=
  match c with CFertilize id _ => In id ids | _ => False end.

(** Rankings of an available entry among the filtered catalog. *)
Definition lowestLevel (available : list Available) (x : Available) : Prop :=
  In x available /\ forall y, In y available -> requiredLevel x <= requiredLevel y.
Definition highestLevel (available : list Available) (x : Available) : Prop :=
  In x available /\ forall y, In y available -> requiredLevel y <= requiredLevel x.
Definition lowestThenCheapest (available : list Available) (x : Available) : Prop :=
  In x available
  /\ forall y, In y available ->
       requiredLevel x < requiredLevel y
       \/ (requiredLevel x = requiredLevel y /\ price x <= price y).

(** [conds] of a shop entry, with the [|| []] default. *)
Definition condsOf (g : Goods) : list Cond :=
  match conds g with Some cs => cs | None => [] end.

(** The trace of requests [mk id], one per id, each awaited, with the
    outcomes [oks]. *)
Definition awaitedEach (mk : Z -> Call) (ids : list Z) (oks : list bool) : list Event :=
  concat (zip_with (fun id ok => [Issue (mk id); Settle (mk id) ok]) ids oks).

Definition countTrue (oks : list bool) : nat := length (List.filter id oks).

(** A computation leaves the observation [f] of the state as it was. *)
Definition Keeps {W A X : Type} (f : Sys W -> X) (m : M W A) : Prop :=
  forall s, f (snd (m s)) = f s.

(** ** farm.js: expansion at login, loop control *)

Section Login.
Context {W : Type} `{Remote W}.
Variable CONFIG : Config.
Variable PlantPhase : PlantPhaseEnum.

(** [expandLandsOnLogin ()]: one snapshot, both cooldown maps cleared, then
    every unlock and upgrade candidate is tried, cooldown or not.  The
    outer [catch] swallows a rejected snapshot request. *)
Definition expandLandsOnLogin : M W unit :=
  let* landsReply := getAllLands in
  match landsReply with
  | None => ret tt
  | Some None => ret tt
  | Some (Some lands) =>
      if (length lands =? 0)%nat then ret tt
      else
        let* status :=
          gets (fun s => analyzeLands PlantPhase (clock s) (dateNow (world s)) lands) in
        run modify (set_upgradeRetryCooldown ∅) then
        run modify (set_unlockRetryCooldown ∅) then
        run (if autoExpandLand CONFIG && nonEmpty (eligibleForUnlock status)
             then let* _ := unlockLand (eligibleForUnlock status) in ret tt
             else ret tt) then
        if autoUpgradeRedLand CONFIG && nonEmpty (eligibleForUpgrade status)
        then let* _ := upgradeLand (eligibleForUpgrade status) in ret tt
        else ret tt
  end.
End Login.

(** The loop-control variables of farm.js.  A timer handle is the number
    the runtime handed out; [listeners] counts the registrations of
    [onLandsChangedPush] on the [landsChanged] event. *)
Record LoopControl : Type := mkLoopControl {
  farmLoopRunning : bool;
  farmCheckTimer : option nat;
  landStatsTimer : option nat;
  listeners : nat;
  nextHandle : nat
}.

(** [startFarmCheckLoop ()] *)
Definition startFarmCheckLoop (lc : LoopControl) : LoopControl :=
  if farmLoopRunning lc then lc
  else
    mkLoopControl true (Some (nextHandle lc)) (Some (S (nextHandle lc)))
                  (S (listeners lc)) (S (S (nextHandle lc))).

(** [stopFarmCheckLoop ()]; [removeListener] takes one registration away
    when there is one. *)
Definition stopFarmCheckLoop (lc : LoopControl) : LoopControl :=
  mkLoopControl false None None (Nat.pred (listeners lc)) (nextHandle lc).

Inductive LoopCommand : Type := CmdStart | CmdStop.

Definition runLoopCommand (lc : LoopControl) (cmd : LoopCommand) : LoopControl :=
  match cmd with
  | CmdStart => startFarmCheckLoop lc
  | CmdStop => stopFarmCheckLoop lc
  end.

Definition initialLoopControl : LoopControl := mkLoopControl false None None 0 0.

(** ** client.js *)

(** [process.argv.includes (t)] *)
Definition includes (argv : list string) (t : string) : bool :=
  existsb (String.eqb t) argv.

(** The loop that builds [sanitizedExtra]: a [--code] token is dropped
    together with the token after it, a [--code=...] token is dropped. *)
Fixpoint sanitizeExtra (rawExtra : list string) : list string :=
  match rawExtra with
  | [] => []
  | tok :: rest =>
      if String.eqb tok "--code" then
        match rest with
        | [] => []
        | _ :: rest' => sanitizeExtra rest'
        end
      else if String.prefix "--code=" tok then sanitizeExtra rest
      else tok :: sanitizeExtra rest
  end.

(** A string of the environment is truthy when it is set and not empty. *)
Definition truthy (v : option string) : bool :=
  match v with
  | Some x => negb (String.eqb x "")
  | None => false
  end.

(** The block at the top of client.js that injects arguments from the
    environment.  [node] and [script] are [process.argv[0]] and
    [process.argv[1]], [args] the rest; [rawExtra] is HEROKU_EXTRA_ARGS
    split into its tokens.  Returns the new [process.argv]. *)
Definition injectArgs (node script : string) (args : list string)
    (envCode : option string) (rawExtra : list string) : list string :=
  let argv := node :: script :: args in
  if negb (includes argv "--code") then
    let sanitizedExtra := sanitizeExtra rawExtra in
    let toAdd := List.filter (fun t => negb (includes argv t)) sanitizedExtra in
    if truthy envCode || nonEmpty toAdd then
      let base :=
        [node; script]
        ++ (match envCode with
            | Some c => if truthy envCode then ["--code"%string; c] else []
            | None => []
            end) in
      base ++ toAdd ++ args
    else argv
  else argv.

(** [calcBackoffDelayMs (attempt)] on an integer attempt counter. *)
Definition calcBackoffDelayMs (attempt : Z) : Z :=
  let base := 60000 in
  let cap := 300000 in
  let attempt := if attempt <? 1 then 1 else attempt in
  Z.min (base * 2 ^ (attempt - 1)) cap.

Definition MAX_RECONNECT_ATTEMPTS : Z := 1.
Definition MAX_LOGIN_TIMEOUT_ATTEMPTS : Z := 3.

Inductive Platform : Type := PlatformQQ | PlatformWX.

(** The module-level variables of client.js that the disconnect handler
    reads and writes. *)
Record Supervisor : Type := mkSupervisor {
  isReconnecting : bool;
  reconnectAttempts : Z;
  loginTimeoutAttempts : Z;
  progressInterval : option nat
}.

(** What the disconnect handler does to the outside, in order. *)
Inductive BotEffect : Type :=
  | StopAllLoops
  | ClearProgressTimer
  | CloseSocket
  | SleepMs (ms : Z)
  | StartBotByQr
  | ExitProcess (code : Z).

(** [handleDisconnect (event)].  [platform] is [CONFIG.platform],
    [reason] is [event.reason], [longWait] is RECONNECT_LONG_WAIT_MS.
    After [ExitProcess] nothing runs.  Whether [startBot] throws or not,
    [isReconnecting] is false when the handler ends. *)
Definition handleDisconnect (platform : Platform) (longWait : Z) (reason : string)
    (st : Supervisor) : Supervisor * list BotEffect :=
  if isReconnecting st then (st, [])
  else
    let stopped :=
      [StopAllLoops]
      ++ (if isOk (progressInterval st) then [ClearProgressTimer] else [])
      ++ [CloseSocket] in
    match platform with
    | PlatformQQ =>
        let timeouts :=
          if String.eqb reason "login_timeout"
          then loginTimeoutAttempts st + 1 else loginTimeoutAttempts st in
        if String.eqb reason "login_timeout"
           && (timeouts >=? MAX_LOGIN_TIMEOUT_ATTEMPTS)
        then (mkSupervisor true (reconnectAttempts st) timeouts None,
              stopped ++ [ExitProcess 1])
        else if reconnectAttempts st <? MAX_RECONNECT_ATTEMPTS then
          let attempts := reconnectAttempts st + 1 in
          let delayMs := calcBackoffDelayMs attempts in
          (mkSupervisor false attempts timeouts None,
           stopped ++ [SleepMs delayMs; StartBotByQr])
        else (mkSupervisor true (reconnectAttempts st) timeouts None,
              stopped ++ [SleepMs longWait; ExitProcess 1])
    | PlatformWX =>
        (mkSupervisor true (reconnectAttempts st) (loginTimeoutAttempts st) None,
         stopped ++ [ExitProcess 1])
    end.

(** ** Vocabulary of the further statements *)

(** The normalised start of a phase. *)
Definition startOf (p : Phase) : Z := toTimeSec (begin_time p).

(** A phase list in ascending order of start. *)
Definition ascendingStarts (ps : list Phase) : Prop :=
  StronglySorted (fun a b => startOf a <= startOf b) ps.

(** A truth value as a count. *)
Definition b2z (b : bool) : Z := if b then 1 else 0.

(** The number of plots that pass a test. *)
Definition countIf (test : Land -> bool) (lands : list Land) : Z :=
  Z.of_nat (length (List.filter test lands)).

(** An unlocked, planted plot whose current phase is neither dead nor
    mature, and whose plant and phase pass [test]. *)
Definition growingWith (PlantPhase : PlantPhaseEnum) (c : Clock) (dateNow : Z)
    (test : Plant -> Phase -> bool) (land : Land) : bool :=
  unlocked land && negb (isEmptyLand land)
  && match plant land with
     | Some pl =>
         match getCurrentPhase (phases pl) false (plant_name pl) c dateNow with
         | Some ph =>
             negb (phase ph =? DEAD PlantPhase)
             && negb (phase ph =? MATURE PlantPhase) && test pl ph
         | None => false
         end
     | None => false
     end.

(** The ids whose request was accepted, and those whose request was
    rejected, given the outcomes in request order. *)
Definition acceptedIds (ids : list Z) (oks : list bool) : list Z :=
  map fst (List.filter snd (combine ids oks)).
Definition rejectedIds (ids : list Z) (oks : list bool) : list Z :=
  map fst (List.filter (fun p => negb (snd p)) (combine ids oks)).

(** The level gates of a condition list: the parameters of its
    conditions of type 1, in order. *)
Definition levelGates (cs : list Cond) : list Z :=
  map cond_param (List.filter (fun cond => cond_type cond =? 1) cs).

(** A shop entry can be bought at level [lvl]: it is unlocked, every level
    gate is at most [lvl], and its purchase limit, when it has one, is not
    used up. *)
Definition purchasable (lvl : Z) (g : Goods) : Prop :=
  goods_unlocked g = true
  /\ Forall (fun gate => gate <= lvl) (levelGates (condsOf g))
  /\ ~ (0 < limit_count g /\ limit_count g <= bought_num g).

(** A recommendation service that ranks three seeds. *)
Definition sampleRanking (lvl lands : Z) : option (list Z) :=
  Some [20003; 20059; 20002].

(** ** Vocabulary of the cycle statements *)

(** A timestamp as the specification normalises it: a value whose
    magnitude exceeds 10^12 is in milliseconds and is divided by 1000. *)
Definition normalizedSeconds (t : Z) : Z :=
  if 10 ^ 12 <? Z.abs t then t / 1000 else t.

(** The normalised start of a phase lies in the window (0, nowSeconds]. *)
Definition startedBy (nowSeconds : Z) (p : Phase) : Prop :=
  0 < normalizedSeconds (begin_time p) <= nowSeconds.

(** The level requirement of a shop entry: its last level gate, 0 when it
    has none. *)
Definition levelRequirement (g : Goods) : Z := List.last (levelGates (condsOf g)) 0.

(** An entry of the catalog that can be bought at level [lvl]. *)
Definition onOffer (lvl : Z) (catalog : list Goods) (g : Goods) : Prop :=
  In g catalog /\ purchasable lvl g.

(** A shop whose level gates are -2, 0, 1 and 0. *)
Definition gatedShop : list Goods :=
  [ mkGoods 21 20101 10 true (Some [mkCond 1 (-2)]) 0 0;
    mkGoods 22 20102 10 true (Some [mkCond 1 0]) 0 0;
    mkGoods 23 20103 10 true (Some [mkCond 1 1]) 0 0;
    mkGoods 24 20104 10 true (Some [mkCond 1 0]) 0 0 ].

(** The gold a purchase receipt charges: the counts of its cost items,
    added up. *)
Definition chargedGold (receipt : BuyGoodsReply) : Z :=
  match cost_items receipt with
  | Some items => fold_right Z.add 0 (map it_count items)
  | None => 0
  end.

(** The seed a purchase receipt names: the id of its first item when that
    is positive, and the seed that was asked for otherwise. *)
Definition seedNamedBy (receipt : BuyGoodsReply) (chosen : Z) : Z :=
  match get_items receipt with
  | Some (item :: _) => if 0 <? it_id item then it_id item else chosen
  | _ => chosen
  end.

(** One request that carries the whole list [ids]; none for an empty
    list. *)
Definition batched (mk : list Z -> Call) (ids : list Z) : list Call :=
  if nonEmpty ids then [mk ids] else [].

(** The trace of the requests [cs] issued together, before any of them
    settles, and settled afterwards with the outcomes [oks]. *)
Definition issuedTogether (cs : list Call) (oks : list bool) : list Event :=
  map Issue cs ++ zip_with Settle cs oks.

(** The trace of the requests [cs] made one at a time, each settled, with
    the outcomes [oks], before the next is issued. *)
Definition awaitedCalls (cs : list Call) (oks : list bool) : list Event :=
  concat (zip_with (fun c ok => [Issue c; Settle c ok]) cs oks).

(** What a stretch of trace shows: the plots of the harvest requests that
    were accepted, the plots whose upgrade request was rejected, the lists
    carried by the removal requests, and the plots of the plant requests,
    each in trace order. *)
Definition harvestedIn (t : list Event) : list Z :=
  flat_map (fun e => match e with Settle (CHarvest ids) true => ids | _ => [] end) t.
Definition failedUpgradesIn (t : list Event) : list Z :=
  flat_map (fun e => match e with Settle (CUpgradeLand id) false => [id] | _ => [] end) t.
Definition removalRequestsIn (t : list Event) : list (list Z) :=
  flat_map (fun e => match e with Issue (CRemovePlant ids) => [ids] | _ => [] end) t.
Definition plantedIn (t : list Event) : list Z :=
  flat_map (fun e => match e with Issue (CPlant _ id) => [id] | _ => [] end) t.

Section InFlightStates.
Context {W : Type} `{Remote W}.


End InFlightStates.

(** * Properties *)

(** ** Phase resolver *)

Lemma scanPhases_filter (ps : list Phase) (nowSec : Z) (n : nat) :
  (n <= length ps)%nat ->
  match scanPhases ps nowSec n with
  | Some p =>
      List.filter (phaseStarted nowSec) (firstn n ps) <> []
      /\ forall d, List.last (List.filter (phaseStarted nowSec) (firstn n ps)) d = p
  | None => List.filter (phaseStarted nowSec) (firstn n ps) = []
  end.
Proof.
  induction n as [|i IH]; intros Hn; simpl scanPhases.
  - reflexivity.
  - destruct (lookup_lt_is_Some_2 ps i ltac:(lia)) as [p Hp].
    rewrite Hp. rewrite (take_S_r ps i p Hp), List.filter_app. simpl List.filter.
    destruct (phaseStarted nowSec p) eqn:Hs.
    + split.
      * intros Hnil. apply app_eq_nil in Hnil. destruct Hnil; discriminate.
      * intros d. apply last_last.
    + rewrite app_nil_r. apply IH. lia.
Qed.

(** The last started phase wins, whatever follows it has not started. *)
Lemma resolveCurrentPhase_last_started (pre post : list Phase) (p : Phase) (now : Z) :
  phaseStarted now p = true ->
  Forall (fun q => phaseStarted now q = false) post ->
  resolveCurrentPhase (pre ++ p :: post) now = Some p.
Proof.
  intros Hp Hpost.
  assert (Hf : List.filter (phaseStarted now) (pre ++ p :: post)
               = List.filter (phaseStarted now) pre ++ [p]).
  { rewrite List.filter_app. simpl. rewrite Hp. f_equal. f_equal.
    induction Hpost as [|q post Hq _ IH]; simpl; [reflexivity|].
    rewrite Hq. exact IH. }
  unfold resolveCurrentPhase.
  destruct (pre ++ p :: post) as [|first rest] eqn:E.
  - destruct pre; discriminate.
  - rewrite Hf. f_equal. apply last_last.
Qed.

(** With no started phase the first phase is the answer. *)
Lemma resolveCurrentPhase_none_started (first : Phase) (rest : list Phase) (now : Z) :
  Forall (fun q => phaseStarted now q = false) (first :: rest) ->
  resolveCurrentPhase (first :: rest) now = Some first.
Proof.
  intros Hall. unfold resolveCurrentPhase. f_equal.
  assert (Hf : List.filter (phaseStarted now) (first :: rest) = []).
  { induction Hall as [|q l Hq _ IH]; simpl; [reflexivity|]. rewrite Hq. exact IH. }
  rewrite Hf. reflexivity.
Qed.

(** The scan in closed form: the last started phase, else the first. *)
Lemma getCurrentPhase_scan (phases : option (list Phase)) (debug : bool)
    (landLabel : string) (c : Clock) (dateNow : Z) :
  getCurrentPhase phases debug landLabel c dateNow
  = resolveCurrentPhase (match phases with Some ps => ps | None => [] end)
                        (getServerTimeSec c dateNow).
Proof.
  destruct phases as [ps|]; [|reflexivity].
  unfold getCurrentPhase, resolveCurrentPhase.
  destruct ps as [|first rest]; [reflexivity|].
  change (length (first :: rest) =? 0)%nat with false. cbv iota.
  pose proof (scanPhases_filter (first :: rest) (getServerTimeSec c dateNow)
                (length (first :: rest)) (le_n _)) as Hscan.
  rewrite firstn_all in Hscan.
  destruct (scanPhases (first :: rest) (getServerTimeSec c dateNow)
              (length (first :: rest))) as [p|].
  - destruct Hscan as [_ Hlast]. now rewrite Hlast.
  - rewrite Hscan. reflexivity.
Qed.

(** The test of the scan loop is the window (0, nowSeconds] on the
    normalised start. *)
Lemma phaseStarted_startedBy (nowSeconds : Z) (p : Phase) :
  phaseStarted nowSeconds p = true <-> startedBy nowSeconds p.
Proof.
  unfold phaseStarted, startedBy, toTimeSec, normalizedSeconds, toNum.
  change (10 ^ 12) with 1000000000000.
  rewrite andb_true_iff, Z.gtb_lt, Z.leb_le.
  destruct (Z.leb_spec (begin_time p) 0) as [Hle|Hpos].
  - assert (begin_time p / 1000 <= 0) by (apply Z.div_le_upper_bound; lia).
    destruct (1000000000000 <? Z.abs (begin_time p)); lia.
  - rewrite (Z.abs_eq (begin_time p)) by lia.
    rewrite Z.gtb_ltb. destruct (1000000000000 <? begin_time p); lia.
Qed.

(** C2. For every phase list and every time: [getCurrentPhase] returns
    null when the list is absent or empty; it returns the last phase of
    the list whose normalised [begin_time] is greater than 0 and at most
    the current time in seconds, that is, the phase with such a start
    after which no phase of the list has one; and when no phase of the
    list has such a start it returns the first phase.  The normalisation
    and the window are those of the specification: a value whose
    magnitude exceeds 10^12 counts as milliseconds and is divided by
    1000, and the start must lie in (0, nowSeconds]. *)
Theorem getCurrentPhase_resolves (phases : option (list Phase)) (debug : bool)
    (landLabel : string) (c : Clock) (dateNow : Z) :
  let nowSeconds := getServerTimeSec c dateNow in
  let result := getCurrentPhase phases debug landLabel c dateNow in
  (phases = None \/ phases = Some [] -> result = None)
  /\ (forall pre p post,
        phases = Some (pre ++ p :: post) ->
        0 < normalizedSeconds (begin_time p) <= nowSeconds ->
        (forall q, In q post ->
                   ~ (0 < normalizedSeconds (begin_time q) <= nowSeconds)) ->
        result = Some p)
  /\ (forall first rest,
        phases = Some (first :: rest) ->
        (forall q, In q (first :: rest) ->
                   ~ (0 < normalizedSeconds (begin_time q) <= nowSeconds)) ->
        result = Some first).
Proof.
  intros nowSeconds result. subst result. rewrite getCurrentPhase_scan. fold nowSeconds.
  assert (Hnot : forall l,
            (forall q, In q l -> ~ (0 < normalizedSeconds (begin_time q) <= nowSeconds)) ->
            Forall (fun q => phaseStarted nowSeconds q = false) l).
  { intros l Hl. apply List.Forall_forall. intros q Hq.
    destruct (phaseStarted nowSeconds q) eqn:E; [|reflexivity].
    apply phaseStarted_startedBy in E. destruct (Hl q Hq E). }
  split; [intros [-> | ->]; reflexivity|]. split.
  - intros pre p post -> Hp Hpost.
    apply resolveCurrentPhase_last_started;
      [apply phaseStarted_startedBy, Hp|apply Hnot, Hpost].
  - intros first rest -> Hall.
    apply resolveCurrentPhase_none_started, Hnot, Hall.
Qed.

(** C8. The result of [getCurrentPhase] is a function of the phase list
    and of the current time in seconds alone: two calls on the same list
    agree whenever the clock reads the same second, whatever the sync
    state, the millisecond reading, the debug flag and the label are. *)
Theorem getCurrentPhase_pure (phases : option (list Phase))
    (debug1 debug2 : bool) (label1 label2 : string)
    (c1 c2 : Clock) (dateNow1 dateNow2 : Z) :
  getServerTimeSec c1 dateNow1 = getServerTimeSec c2 dateNow2 ->
  getCurrentPhase phases debug1 label1 c1 dateNow1
  = getCurrentPhase phases debug2 label2 c2 dateNow2.
Proof.
  intros Hnow. unfold getCurrentPhase.
  destruct phases as [ps|]; [|reflexivity].
  destruct (length ps =? 0)%nat; [reflexivity|].
  cbv zeta. rewrite Hnow. reflexivity.
Qed.

(** ** Plot classifier *)

Ltac split_classifier :=
  repeat match goal with
         | |- context [if ?b then _ else _] => destruct b eqn:?
         | |- context [match ?o with Some _ => _ | None => _ end] => destruct o eqn:?
         end.

Section ClassifierFacts.
Variable PlantPhase : PlantPhaseEnum.
Variables (c : Clock) (dateNow nowSec : Z).

(** One loop iteration adds the id of an unlocked plot to exactly one
    primary array and leaves the arrays alone for a locked plot. *)
Lemma analyzeLand_primary (r : Status) (land : Land) :
  Permutation (primary (analyzeLand PlantPhase c dateNow nowSec r land))
              (primary r ++ (if unlocked land then [toNum (land_id land)] else [])).
Proof.
  unfold analyzeLand, primary.
  destruct (unlocked land); cbn [negb andb];
    split_classifier; cbn -[toNum]; solve_Permutation.
Qed.

Lemma analyzeLand_needs (r : Status) (land : Land) :
  needsWithinGrowing r ->
  needsWithinGrowing (analyzeLand PlantPhase c dateNow nowSec r land).
Proof.
  unfold needsWithinGrowing, analyzeLand. intros Hr id.
  destruct (unlocked land); cbn [negb andb];
    split_classifier; cbn -[toNum]; rewrite ?in_app_iff; cbn [In];
    specialize (Hr id); tauto.
Qed.

Lemma fold_analyze_primary (lands : list Land) (r : Status) :
  Permutation (primary (fold_left (analyzeLand PlantPhase c dateNow nowSec) lands r))
              (primary r ++ map land_id (List.filter unlocked lands)).
Proof.
  revert r. induction lands as [|land lands IH]; intros r; simpl.
  - now rewrite app_nil_r.
  - rewrite IH, analyzeLand_primary.
    destruct (unlocked land); simpl; [|now rewrite app_nil_r].
    unfold toNum. now rewrite <- app_assoc.
Qed.

Lemma fold_analyze_needs (lands : list Land) (r : Status) :
  needsWithinGrowing r ->
  needsWithinGrowing (fold_left (analyzeLand PlantPhase c dateNow nowSec) lands r).
Proof.
  revert r. induction lands as [|land lands IH]; intros r Hr; simpl; [exact Hr|].
  apply IH, analyzeLand_needs, Hr.
Qed.
End ClassifierFacts.

Lemma NoDup_map_filter_unlocked (lands : list Land) :
  distinctIds lands -> List.NoDup (map land_id (List.filter unlocked lands)).
Proof.
  unfold distinctIds. induction lands as [|l lands IH]; simpl; intros Hnd.
  - constructor.
  - inversion Hnd as [|? ? Hnotin Hrest]; subst.
    destruct (unlocked l); simpl; [|now apply IH].
    constructor; [|now apply IH].
    intros Hin. apply Hnotin. apply in_map_iff in Hin.
    destruct Hin as [x [Hx Hin]]. apply filter_In in Hin.
    apply in_map_iff. exists x. tauto.
Qed.

(** C9. For every snapshot whose plots have distinct ids, and every clock:
    the arrays [dead], [harvestable], [empty] and [growing] returned by
    [analyzeLands] hold, taken together, exactly the ids of the unlocked
    plots of the snapshot, each id once (so the four arrays are pairwise
    disjoint and none repeats an id); and every id of [needWater],
    [needWeed] or [needBug] is an id of [growing]. *)
Theorem analyzeLands_partition (PlantPhase : PlantPhaseEnum) (c : Clock)
    (dateNow : Z) (lands : list Land) :
  distinctIds lands ->
  let r := analyzeLands PlantPhase c dateNow lands in
  Permutation (dead r ++ harvestable r ++ empty_ r ++ growing r)
              (map land_id (List.filter unlocked lands))
  /\ List.NoDup (dead r ++ harvestable r ++ empty_ r ++ growing r)
  /\ (forall id, In id (needWater r) \/ In id (needWeed r) \/ In id (needBug r) ->
                 In id (growing r)).
Proof.
  intros Hids r.
  assert (Hperm : Permutation (primary r) (map land_id (List.filter unlocked lands))).
  { subst r. unfold analyzeLands. rewrite fold_analyze_primary. reflexivity. }
  split; [exact Hperm|]. split.
  - apply (Permutation_NoDup (Permutation_sym Hperm)).
    now apply NoDup_map_filter_unlocked.
  - subst r. unfold analyzeLands. apply fold_analyze_needs.
    intros id [Hin|[Hin|Hin]]; destruct Hin.
Qed.

(** ** Retry cooldown *)

Lemma setHas_In (ids : list Z) (id : Z) : setHas ids id = true <-> In id ids.
Proof.
  unfold setHas. rewrite existsb_exists. split.
  - intros [x [Hin Heq]]. apply Z.eqb_eq in Heq. now subst.
  - intros Hin. exists id. split; [exact Hin|apply Z.eqb_refl].
Qed.

Lemma setHas_not_In (ids : list Z) (id : Z) : setHas ids id = false <-> ~ In id ids.
Proof.
  rewrite <- setHas_In. destruct (setHas ids id); split; congruence.
Qed.

Lemma lookup_deleteAll (ids : list Z) (m : gmap Z Z) (id : Z) :
  deleteAll ids m !! id = if setHas ids id then None else m !! id.
Proof.
  unfold deleteAll. revert m. induction ids as [|a ids IH]; intros m; simpl.
  - reflexivity.
  - rewrite IH. destruct (setHas ids id) eqn:Hrest.
    + now rewrite orb_true_r.
    + rewrite orb_false_r. destruct (Z.eqb_spec id a) as [->|Hne].
      * apply lookup_delete_eq.
      * apply lookup_delete_ne. congruence.
Qed.

Lemma lookup_setAll (t : Z) (ids : list Z) (m : gmap Z Z) (id : Z) :
  setAll t ids m !! id = if setHas ids id then Some t else m !! id.
Proof.
  unfold setAll. revert m. induction ids as [|a ids IH]; intros m; simpl.
  - reflexivity.
  - rewrite IH. destruct (setHas ids id) eqn:Hrest.
    + now rewrite orb_true_r.
    + rewrite orb_false_r. destruct (Z.eqb_spec id a) as [->|Hne].
      * apply lookup_insert_eq.
      * apply lookup_insert_ne. congruence.
Qed.

Lemma cooldownOf_set {W : Type} (k : Kind) (m : gmap Z Z) (s : Sys W) :
  cooldownOf k (set_cooldownOf k m s) = m.
Proof. destruct k; reflexivity. Qed.

(** C4. For both operation kinds, every plot id and every time [now],
    where recorded failure stamps are wall-clock readings in milliseconds
    (positive numbers): the plot is eligible exactly when the cooldown map
    of the kind has no entry for it or at least 10 minutes have passed
    since the recorded failure; a failure recorded at [t] makes it
    ineligible at [t] + 9 minutes and eligible at [t] + 11 minutes; and
    deleting the entry makes it eligible at once. *)
Theorem cooldown_eligibility {W : Type} (k : Kind) (id now t : Z) (s : Sys W) :
  0 < t ->
  (forall t0, cooldownOf k s !! id = Some t0 -> 0 < t0) ->
  EXPAND_RETRY_INTERVAL_MS = 600000
  /\ (isEligible k id now s = true <->
      cooldownOf k s !! id = None
      \/ exists t0, cooldownOf k s !! id = Some t0
                    /\ EXPAND_RETRY_INTERVAL_MS <= now - t0)
  /\ isEligible k id (t + 9 * 60000) (recordFailure k id t s) = false
  /\ isEligible k id (t + 11 * 60000) (recordFailure k id t s) = true
  /\ isEligible k id now (clearCooldown k id (recordFailure k id t s)) = true.
Proof.
  intros Ht Hstamps. split; [reflexivity|]. split; [|split; [|split]].
  - unfold isEligible, cooldownReady.
    destruct (cooldownOf k s !! id) as [t0|] eqn:E.
    + specialize (Hstamps t0 eq_refl).
      rewrite orb_true_iff, Z.eqb_eq, Z.geb_le. split.
      * intros [H0|Hge]; [lia|]. right. exists t0. split; [reflexivity|exact Hge].
      * intros [Hnone|[t1 [Heq Hge]]]; [discriminate|]. right. congruence.
    + split; [now left|reflexivity].
  - unfold isEligible, recordFailure, cooldownReady.
    rewrite cooldownOf_set, lookup_setAll. simpl. rewrite Z.eqb_refl. simpl.
    rewrite orb_false_iff. split; [apply Z.eqb_neq; lia|].
    unfold EXPAND_RETRY_INTERVAL_MS. rewrite Z.geb_leb. apply Z.leb_gt. lia.
  - unfold isEligible, recordFailure, cooldownReady.
    rewrite cooldownOf_set, lookup_setAll. simpl. rewrite Z.eqb_refl. simpl.
    rewrite orb_true_iff. right.
    unfold EXPAND_RETRY_INTERVAL_MS. apply Z.geb_le. lia.
  - unfold isEligible, clearCooldown, cooldownReady.
    rewrite cooldownOf_set, lookup_deleteAll. simpl. rewrite Z.eqb_refl. reflexivity.
Qed.

(** ** Shapes of traces *)

Lemma Awaited_app (P : Call -> Prop) (t1 t2 : list Event) :
  Awaited P t1 -> Awaited P t2 -> Awaited P (t1 ++ t2).
Proof.
  induction 1 as [|c ok t Hc _ IH]; intros H2; simpl; [exact H2|].
  constructor; [exact Hc|]. now apply IH.
Qed.

Lemma Awaited_one (P : Call -> Prop) (c : Call) (ok : bool) :
  P c -> Awaited P [Issue c; Settle c ok].
Proof. intros Hc. constructor; [exact Hc|constructor]. Qed.

Lemma Awaited_weaken (P Q : Call -> Prop) :
  (forall c, P c -> Q c) -> forall t, Awaited P t -> Awaited Q t.
Proof.
  intros HPQ t. induction 1 as [|c ok t Hc _ IH]; constructor; auto.
Qed.

Section EngineTraces.
Context {W : Type} `{Remote W}.
Variable CONFIG : Config.
Variable PlantPhase : PlantPhaseEnum.
Variable getPlantingRecommendation : Z -> Z -> option (list Z).

Lemma answerAll_settles (cs : list Call) (w : W) :
  exists oks, length oks = length cs
              /\ fst (answerAll cs w) = zip_with Settle cs oks.
Proof.
  revert w. induction cs as [|c cs IH]; intros w; simpl.
  - exists []. split; reflexivity.
  - destruct (rpcPlain c w) as [ok w1].
    destruct (IH w1) as (oks & Hlen & Heq).
    destruct (answerAll cs w1) as [evs w2]. simpl in *.
    exists (ok :: oks). simpl. split; [now rewrite Hlen|now rewrite Heq].
Qed.

Lemma batchOpsOf_maintenance (status : Status) :
  Forall isMaintenance (batchOpsOf status).
Proof.
  unfold batchOpsOf.
  destruct (nonEmpty (needWeed status)), (nonEmpty (needBug status)),
    (nonEmpty (needWater status)); simpl; repeat constructor.
Qed.

Lemma firstn_In (n : nat) (l : list Z) (x : Z) : In x (firstn n l) -> In x l.
Proof.
  intros Hin. rewrite <- (firstn_skipn n l). apply in_or_app. now left.
Qed.

Lemma allDeadLands_In (status : Status) (harvestedLandIds failedUpgradeIds : list Z)
    (id : Z) :
  In id (allDeadLands status harvestedLandIds failedUpgradeIds)
  <-> In id (dead status)
      \/ (In id harvestedLandIds /\ ~ In id failedUpgradeIds).
Proof.
  unfold allDeadLands. rewrite in_app_iff, filter_In, negb_true_iff, setHas_not_In.
  reflexivity.
Qed.

Lemma allEmptyLands_In (status : Status) (id : Z) :
  In id (allEmptyLands status)
  <-> In id (empty_ status) /\ ~ In id (eligibleForUpgrade status).
Proof.
  unfold allEmptyLands. rewrite filter_In, negb_true_iff, setHas_not_In.
  reflexivity.
Qed.

End EngineTraces.

(** ** What a step leaves untouched *)

Section KeepRules.
Context {W : Type} `{Remote W} {X : Type}.
Variable f : Sys W -> X.
(** [f] does not look at the world or at the trace. *)
Hypothesis f_framed : forall w t s, f (step_world w t s) = f s.

Lemma Keeps_ret {A : Type} (a : A) : Keeps f (ret (W := W) a).
Proof. intros s. reflexivity. Qed.

Lemma Keeps_bind {A B : Type} (m : M W A) (k : A -> M W B) :
  Keeps f m -> (forall a, Keeps f (k a)) -> Keeps f (bind m k).
Proof.
  intros Hm Hk s. unfold bind. specialize (Hm s).
  destruct (m s) as [a s1]. simpl in Hm. now rewrite Hk.
Qed.

Lemma Keeps_gets {A : Type} (g : Sys W -> A) : Keeps f (gets g).
Proof. intros s. reflexivity. Qed.

Lemma Keeps_modify (g : Sys W -> Sys W) :
  (forall s, f (g s) = f s) -> Keeps f (modify g).
Proof. intros Hg s. apply Hg. Qed.

Lemma Keeps_sendPlain (c : Call) : Keeps f (sendPlain c).
Proof.
  intros s. unfold sendPlain. destruct (rpcPlain c (world s)). apply f_framed.
Qed.

Lemma Keeps_pace (b : bool) (ms : Z) :
  Keeps f (if b then doSleep ms else ret tt).
Proof.
  destruct b; [|apply Keeps_ret]. apply Keeps_modify. intros s. apply f_framed.
Qed.

Lemma Keeps_expandLoop (mk : Z -> Call) (n : nat)
    (landIds successIds failedIds : list Z) :
  Keeps f (expandLoop mk n landIds successIds failedIds).
Proof.
  revert successIds failedIds.
  induction landIds as [|landId rest IH]; intros successIds failedIds; simpl.
  - apply Keeps_ret.
  - apply Keeps_bind; [apply Keeps_sendPlain|]. intros ok.
    apply Keeps_bind; [apply Keeps_pace|]. intros _. apply IH.
Qed.

(** An expansion step writes only the cooldown map of its own kind. *)
Lemma Keeps_expandStep (k : Kind) (enabled : bool) (eligible : list Z)
    (loop : list Z -> M W (list Z * list Z)) :
  (forall m s, f (set_cooldownOf k m s) = f s) ->
  (forall ids, Keeps f (loop ids)) ->
  Keeps f (expandStep k enabled eligible loop).
Proof.
  intros Hset Hloop. unfold expandStep.
  destruct (enabled && nonEmpty eligible); [|apply Keeps_ret].
  apply Keeps_bind; [apply Keeps_gets|]. intros now.
  apply Keeps_bind; [apply Keeps_gets|]. intros cooldown.
  destruct (nonEmpty _); [|apply Keeps_ret].
  apply Keeps_bind; [apply Hloop|]. intros [successIds failedIds].
  apply Keeps_bind; [apply Keeps_gets|]. intros failedTime.
  apply Keeps_bind; [apply Keeps_modify; intros s; apply Hset|]. intros _.
  apply Keeps_bind; [apply Keeps_modify; intros s; apply Hset|]. intros _.
  apply Keeps_ret.
Qed.
End KeepRules.

Section Harvest.
Context {W : Type} `{Remote W}.
Variable CONFIG : Config.

Lemma unlockStep_keeps_upgrade (status : Status) :
  Keeps upgradeRetryCooldown (unlockStep (W := W) CONFIG status).
Proof.
  unfold unlockStep. apply Keeps_bind; [|intros _; apply Keeps_ret].
  apply Keeps_expandStep; [reflexivity|].
  intros ids. apply Keeps_expandLoop. reflexivity.
Qed.

(** C5. The harvest step returns the harvested plots: all harvestable
    plots when the batched harvest request succeeded, none otherwise.
    Every harvested id has no entry in the upgrade cooldown map when the
    step ends, so it is eligible for an upgrade attempt at any time; the
    map still has none when the upgrade step of the same cycle begins,
    the unlock step in between leaving it alone.  The entries of other
    ids in the upgrade map and the whole unlock map are as before. *)
Theorem harvest_clears_upgrade_cooldown (status : Status) (s : Sys W) :
  let harvested := fst (harvestStep status s) in
  let s' := snd (harvestStep status s) in
  harvested
  = (if nonEmpty (harvestable status)
        && fst (rpcPlain (CHarvest (harvestable status)) (world s))
     then harvestable status else [])
  /\ (forall id, In id harvested ->
        upgradeRetryCooldown s' !! id = None
        /\ (forall now, isEligible KUpgrade id now s' = true)
        /\ upgradeRetryCooldown (snd (unlockStep CONFIG status s')) !! id = None)
  /\ (forall id, ~ In id harvested ->
        upgradeRetryCooldown s' !! id = upgradeRetryCooldown s !! id)
  /\ unlockRetryCooldown s' = unlockRetryCooldown s.
Proof.
  intros harvested s'. subst harvested s'. unfold harvestStep.
  destruct (nonEmpty (harvestable status)); simpl andb.
  2:{ simpl. split; [reflexivity|]. split; [intros ? []|]. split; reflexivity. }
  unfold bind, sendPlain.
  destruct (rpcPlain (CHarvest (harvestable status)) (world s)) as [ok w].
  destruct ok; simpl.
  2:{ split; [reflexivity|]. split; [intros ? []|]. split; reflexivity. }
  split; [reflexivity|]. split; [|split; [|reflexivity]].
  - intros id Hin. apply setHas_In in Hin.
    assert (Hnone : deleteAll (harvestable status) (upgradeRetryCooldown s) !! id = None).
    { rewrite lookup_deleteAll, Hin. reflexivity. }
    split; [exact Hnone|]. split.
    + intros now. unfold isEligible, cooldownReady. simpl. now rewrite Hnone.
    + rewrite unlockStep_keeps_upgrade. exact Hnone.
  - intros id Hnotin. apply setHas_not_In in Hnotin.
    rewrite lookup_deleteAll, Hnotin. reflexivity.
Qed.
End Harvest.

(** ** Seed selector *)

Section SortFacts.
Context {A : Type}.
Variable compareFn : A -> A -> Z.
Hypothesis compare_total : forall a b, compareFn a b <= 0 \/ compareFn b a <= 0.
Hypothesis compare_trans :
  forall a b c, compareFn a b <= 0 -> compareFn b c <= 0 -> compareFn a c <= 0.

(** After sorting, index 0 holds an element that the comparison puts
    before every other one. *)
Lemma Array_sort_head (l : list A) :
  l <> [] ->
  exists x rest, Array_sort compareFn l = x :: rest
                 /\ In x l /\ forall y, In y l -> compareFn x y <= 0.
Proof.
  induction l as [|a l IH]; intros Hne; [congruence|].
  simpl. destruct l as [|b l'].
  - exists a, []. simpl. split; [reflexivity|]. split; [now left|].
    intros y [<-|[]]. destruct (compare_total a a); assumption.
  - destruct IH as (h & t & Esort & Hin & Hmin); [discriminate|].
    change (fold_right (insertSorted compareFn) [] (b :: l'))
      with (Array_sort compareFn (b :: l')).
    rewrite Esort. simpl insertSorted.
    destruct (Z.leb_spec (compareFn a h) 0) as [Hle|Hgt].
    + exists a, (h :: t). split; [reflexivity|]. split; [now left|].
      intros y [<-|Hy].
      * destruct (compare_total a a); assumption.
      * eapply compare_trans; [exact Hle|now apply Hmin].
    + exists h, (insertSorted compareFn a t). split; [reflexivity|].
      split; [now right|]. intros y [<-|Hy]; [|now apply Hmin].
      destruct (compare_total a h); [lia|assumption].
Qed.
End SortFacts.

Lemma head_sort_byLevelAsc (available : list Available) :
  available <> [] ->
  exists x, head (Array_sort byLevelAsc available) = Some x /\ lowestLevel available x.
Proof.
  intros Hne.
  destruct (Array_sort_head byLevelAsc) with (l := available)
    as (x & rest & E & Hin & Hmin); try exact Hne;
    try (unfold byLevelAsc; intros; lia).
  exists x. rewrite E. split; [reflexivity|]. split; [exact Hin|].
  intros y Hy. specialize (Hmin y Hy). unfold byLevelAsc in Hmin. lia.
Qed.

Lemma head_sort_byLevelDesc (available : list Available) :
  available <> [] ->
  exists x, head (Array_sort byLevelDesc available) = Some x /\ highestLevel available x.
Proof.
  intros Hne.
  destruct (Array_sort_head byLevelDesc) with (l := available)
    as (x & rest & E & Hin & Hmin); try exact Hne;
    try (unfold byLevelDesc; intros; lia).
  exists x. rewrite E. split; [reflexivity|]. split; [exact Hin|].
  intros y Hy. specialize (Hmin y Hy). unfold byLevelDesc in Hmin. lia.
Qed.

Lemma byLevelThenPrice_le (a b : Available) :
  byLevelThenPrice a b <= 0
  <-> requiredLevel a < requiredLevel b
      \/ (requiredLevel a = requiredLevel b /\ price a <= price b).
Proof.
  unfold byLevelThenPrice.
  destruct (Z.eqb_spec (requiredLevel a - requiredLevel b) 0); lia.
Qed.

Lemma head_sort_byLevelThenPrice (available : list Available) :
  available <> [] ->
  exists x, head (Array_sort byLevelThenPrice available) = Some x
            /\ lowestThenCheapest available x.
Proof.
  intros Hne.
  destruct (Array_sort_head byLevelThenPrice) with (l := available)
    as (x & rest & E & Hin & Hmin); try exact Hne.
  - intros a b. rewrite !byLevelThenPrice_le. lia.
  - intros a b c. rewrite !byLevelThenPrice_le. lia.
  - exists x. rewrite E. split; [reflexivity|]. split; [exact Hin|].
    intros y Hy. apply byLevelThenPrice_le, Hmin, Hy.
Qed.

Lemma findBySeedId_Some (available : list Available) (id : Z) (x : Available) :
  findBySeedId available id = Some x -> In x available /\ seedId x = id.
Proof.
  unfold findBySeedId. intros Hfind. apply find_some in Hfind.
  destruct Hfind as [Hin Heq]. apply Z.eqb_eq in Heq. auto.
Qed.

Lemma firstRankedHit_In (available : list Available) (ranked : list Z) (x : Available) :
  firstRankedHit available ranked = Some x -> In x available.
Proof.
  induction ranked as [|sid rest IH]; simpl; [discriminate|].
  destruct (findBySeedId available sid) as [hit|] eqn:Hfind; [|exact IH].
  intros [= <-]. now apply findBySeedId_Some in Hfind.
Qed.

Section SelectorFacts.
Variable CONFIG : Config.
Variable getPlantingRecommendation : Z -> Z -> option (list Z).

(** The fallback picks a lowest requirement at the levels other than 0 up
    to 28, and a highest one at level 0 and from level 29 on: at level 0
    the test [state.level && ...] is falsy. *)
Lemma fallbackSeed_spec (available : list Available) (lvl : Z) :
  available <> [] ->
  exists x, fallbackSeed available lvl = Some x
            /\ (lvl <> 0 -> lvl <= 28 -> lowestLevel available x)
            /\ (lvl = 0 \/ 28 < lvl -> highestLevel available x).
Proof.
  intros Hne. unfold fallbackSeed.
  destruct (Z.eqb_spec lvl 0) as [->|Hlvl]; simpl negb; simpl andb.
  - destruct (head_sort_byLevelDesc available Hne) as (x & E & Hx).
    exists x. split; [exact E|]. split; [congruence|auto].
  - destruct (Z.leb_spec lvl 28).
    + destruct (head_sort_byLevelAsc available Hne) as (x & E & Hx).
      exists x. split; [exact E|]. split; [auto|lia].
    + destruct (head_sort_byLevelDesc available Hne) as (x & E & Hx).
      exists x. split; [exact E|]. split; [lia|auto].
Qed.

(** The cascade of [findBestSeed] over the filtered list [available]. *)
Lemma findBestSeed_on_available (goods_list : option (list Goods)) (state : UserState)
    (landsCount : option Z) :
  let catalog := match goods_list with Some gl => gl | None => [] end in
  let available := filterAvailable (level state) catalog in
  let result := findBestSeed CONFIG getPlantingRecommendation goods_list state landsCount in
  (result = None <-> available = [])
  /\ (forall x, result = Some x -> In x available)
  /\ (preferredSeedId CONFIG <> 0 ->
      (exists y, In y available /\ seedId y = preferredSeedId CONFIG) ->
      exists x, result = Some x /\ In x available
                /\ seedId x = preferredSeedId CONFIG)
  /\ (pinnedSeed CONFIG available = None ->
      forceLowestLevelCrop CONFIG = true ->
      forall x, result = Some x -> lowestThenCheapest available x)
  /\ (pinnedSeed CONFIG available = None ->
      forceLowestLevelCrop CONFIG = false ->
      rankedSeed getPlantingRecommendation available (level state) landsCount = None ->
      forall x, result = Some x ->
                (level state <> 0 -> level state <= 28 -> lowestLevel available x)
                /\ (level state = 0 \/ 28 < level state -> highestLevel available x)).
Proof.
  intros catalog available result.
  destruct goods_list as [gl|]; simpl in catalog.
  2:{ subst result available catalog. simpl.
      repeat split; try discriminate; try reflexivity.
      intros _ (y & [] & _). }
  subst catalog. subst result. unfold findBestSeed. fold available.
  destruct gl as [|g gl'].
  { subst available. simpl.
    repeat split; try discriminate; try reflexivity.
    intros _ (y & [] & _). }
  change (length (g :: gl') =? 0)%nat with false. cbv iota.
  destruct available as [|a av] eqn:Eav.
  { simpl. repeat split; try discriminate; try reflexivity.
    intros _ (y & [] & _). }
  change (length (a :: av) =? 0)%nat with false. cbv iota.
  assert (Hne : a :: av <> []) by discriminate.
  destruct (head_sort_byLevelThenPrice (a :: av) Hne) as (xc & Ec & Hc).
  destruct (fallbackSeed_spec (a :: av) (level state) Hne) as (xf & Ef & Hflow & Hfhigh).
  assert (Hfin : In xf (a :: av)).
  { destruct (Z.eq_dec (level state) 0) as [Hz|Hnz]; [apply Hfhigh; now left|].
    destruct (Z.le_gt_cases (level state) 28) as [Hl|Hl];
      [apply (Hflow Hnz Hl)|apply Hfhigh; right; lia]. }
  destruct (pinnedSeed CONFIG (a :: av)) as [pin|] eqn:Epin.
  - (* the pinned entry *)
    unfold pinnedSeed in Epin.
    destruct (preferredSeedId CONFIG =? 0); [discriminate|].
    apply findBySeedId_Some in Epin. destruct Epin as [Hpin Hid].
    split; [split; discriminate|].
    split; [intros x [= <-]; exact Hpin|].
    split; [intros _ _; exists pin; auto|].
    split; intros; discriminate.
  - assert (Hnopin : preferredSeedId CONFIG <> 0 ->
                     (exists y, In y (a :: av) /\ seedId y = preferredSeedId CONFIG) ->
                     False).
    { intros Hcfg (y & Hy & Hid). unfold pinnedSeed in Epin.
      destruct (Z.eqb_spec (preferredSeedId CONFIG) 0); [congruence|].
      unfold findBySeedId in Epin.
      pose proof (find_none _ _ Epin y Hy) as Hno. simpl in Hno.
      apply Z.eqb_neq in Hno. congruence. }
    destruct (forceLowestLevelCrop CONFIG).
    + rewrite Ec.
      split; [split; discriminate|].
      split; [intros x [= <-]; apply Hc|].
      split; [intros Hcfg Hex; destruct (Hnopin Hcfg Hex)|].
      split; [intros _ _ x [= <-]; exact Hc|intros; discriminate].
    + destruct (rankedSeed getPlantingRecommendation (a :: av) (level state) landsCount)
        as [hit|] eqn:Erank.
      * assert (Hhit : In hit (a :: av)).
        { unfold rankedSeed in Erank.
          destruct (getPlantingRecommendation _ _); [|discriminate].
          eapply firstRankedHit_In, Erank. }
        split; [split; discriminate|].
        split; [intros x [= <-]; exact Hhit|].
        split; [intros Hcfg Hex; destruct (Hnopin Hcfg Hex)|].
        split; intros; discriminate.
      * rewrite Ef.
        split; [split; discriminate|].
        split; [intros x [= <-]; exact Hfin|].
        split; [intros Hcfg Hex; destruct (Hnopin Hcfg Hex)|].
        split; [intros; discriminate|].
        intros _ _ _ x [= <-]. split; assumption.
Qed.
End SelectorFacts.

(** * Worked examples on the scripted server *)

(** The four-plot scenario of the specification, run through a whole
    cycle: watering, then the harvest, then the removal of the dead and the
    harvested plot, the shop query and the purchase, three plant requests
    and three fertilize requests. *)
Example checkFarm_four_plots :
  trace (snd (checkFarm (sampleConfig false false) samplePhases noRecommendation
                (freshSys (sampleServer sampleLands rejectNothing) sampleUser)))
  = [ Issue CAllLands; Settle CAllLands true;
      LoginBox (Some (mkStats 4 0 0 0 0 0));
      Issue (CWaterLand [4]); Settle (CWaterLand [4]) true;
      Issue (CHarvest [2]); Settle (CHarvest [2]) true;
      Issue (CRemovePlant [1; 2]); Settle (CRemovePlant [1; 2]) true;
      Issue (CShopInfo 2); Settle (CShopInfo 2) true;
      Issue (CBuyGoods 11 3 10); Settle (CBuyGoods 11 3 10) true;
      Issue (CPlant 20002 3); Settle (CPlant 20002 3) true;
      Issue (CPlant 20002 1); Settle (CPlant 20002 1) true;
      Issue (CPlant 20002 2); Settle (CPlant 20002 2) true;
      Issue (CFertilize 3 1011); Settle (CFertilize 3 1011) true;
      Issue (CFertilize 1 1011); Settle (CFertilize 1 1011) true;
      Issue (CFertilize 2 1011); Settle (CFertilize 2 1011) true ].
Proof. vm_compute. reflexivity. Qed.

(** The classifier on the four plots: one id per primary array. *)
Example analyzeLands_four_plots :
  let r := analyzeLands samplePhases (mkClock 0 0) 1000000 sampleLands in
  dead r = [1] /\ harvestable r = [2] /\ empty_ r = [3] /\ growing r = [4]
  /\ needWater r = [4].
Proof. vm_compute. repeat split. Qed.

(** A stamp of 0 in a cooldown map reads as no stamp at all: [!t] is true
    for [t = 0].  It cannot come from [Date.now ()] after 1970. *)
Example cooldownReady_zero_stamp :
  cooldownReady {[ 7 := 0 ]} 1000 7 = true.
Proof. vm_compute. reflexivity. Qed.

Lemma getCurrentPhase_pure_witness :
  getServerTimeSec (mkClock 0 0) 5000 = getServerTimeSec (mkClock 4000 100) 1500
  /\ getCurrentPhase (Some [mkPhase 3 4 0 0 0; mkPhase 6 9 0 0 0]) false "a"
       (mkClock 0 0) 5000
     = getCurrentPhase (Some [mkPhase 3 4 0 0 0; mkPhase 6 9 0 0 0]) true "b"
       (mkClock 4000 100) 1500.
Proof.
  split; [reflexivity|].
  apply (getCurrentPhase_pure (Some [mkPhase 3 4 0 0 0; mkPhase 6 9 0 0 0])
           false true "a" "b" (mkClock 0 0) (mkClock 4000 100) 5000 1500).
  reflexivity.
Defined.

Lemma analyzeLands_partition_witness :
  distinctIds sampleLands
  /\ Permutation [1; 2; 3; 4] (map land_id (List.filter unlocked sampleLands)).
Proof.
  assert (Hids : distinctIds sampleLands).
  { unfold distinctIds. simpl.
    repeat (apply List.NoDup_cons; [simpl; lia|]). apply List.NoDup_nil. }
  split; [exact Hids|].
  exact (proj1 (analyzeLands_partition samplePhases (mkClock 0 0) 1000000
                  sampleLands Hids)).
Defined.

(** A plot whose upgrade failed at 1 000 000 ms. *)
Lemma cooldown_eligibility_witness :
  let s := set_upgradeRetryCooldown {[ 7 := 400000 ]}
             (freshSys (sampleServer sampleLands rejectNothing) sampleUser) in
  isEligible KUpgrade 7 (1000000 + 9 * 60000) (recordFailure KUpgrade 7 1000000 s) = false
  /\ isEligible KUpgrade 7 (1000000 + 11 * 60000) (recordFailure KUpgrade 7 1000000 s) = true.
Proof.
  intros s.
  assert (Hpos : 0 < 1000000) by lia.
  assert (Hstamps : forall t0, cooldownOf KUpgrade s !! 7 = Some t0 -> 0 < t0).
  { intros t0 Hl. vm_compute in Hl. injection Hl as <-. lia. }
  pose proof (cooldown_eligibility KUpgrade 7 1000000 1000000 s Hpos Hstamps) as Hall.
  split; [apply Hall|apply Hall].
Defined.

(** C3 as stated fails on a dead plot whose upgrade failed in the same
    cycle.  Plot 1 is dead and an upgrade candidate; the server rejects
    its upgrade.  The set "dead or harvested, minus failed upgrades" is
    empty, yet the cycle sends the removal request for plot 1 and replants
    it. *)
Lemma removal_set_keeps_failed_dead_plot :
  let cfg := sampleConfig false true in
  let s0 := freshSys (sampleServer deadUpgradable rejectUpgrade1) sampleUser in
  let status := analyzeLands samplePhases (clock s0) (dateNow (world s0)) deadUpgradable in
  let harvested := fst (harvestStep status s0) in
  let failed :=
    fst (upgradeStep cfg status
           (snd (unlockStep cfg status (snd (harvestStep status s0))))) in
  dead status = [1] /\ harvested = [] /\ failed = [1]
  /\ removalSetAsStated status harvested failed = []
  /\ allDeadLands status harvested failed = [1]
  /\ allDeadLands status harvested failed <> removalSetAsStated status harvested failed
  /\ trace (snd (checkFarm cfg samplePhases noRecommendation s0))
     = [ Issue CAllLands; Settle CAllLands true;
         LoginBox (Some (mkStats 1 0 0 0 1 0));
         Issue (CUpgradeLand 1); Settle (CUpgradeLand 1) false;
         Issue (CRemovePlant [1]); Settle (CRemovePlant [1]) true;
         Issue (CShopInfo 2); Settle (CShopInfo 2) true;
         Issue (CBuyGoods 11 1 10); Settle (CBuyGoods 11 1 10) true;
         Issue (CPlant 20002 1); Settle (CPlant 20002 1) true;
         Issue (CFertilize 1 1011); Settle (CFertilize 1 1011) true ].
Proof.
  vm_compute. repeat split. discriminate.
Qed.

(** C6 at a failing input.  Plots 1 and 3 are empty; the server rejects
    the plant request for plot 1 and accepts the one for plot 3.  The
    planting loop goes on after the failure, one plot was planted, and the
    fertilize request goes to the first plot of the list, plot 1, whose
    plant request failed; plot 3, the one planted, gets none. *)
Lemma fertilize_goes_to_count_prefix :
  trace (snd (checkFarm (sampleConfig false false) samplePhases noRecommendation
                (freshSys (sampleServer twoEmptyLands rejectPlant1) sampleUser)))
  = [ Issue CAllLands; Settle CAllLands true;
      LoginBox (Some (mkStats 2 0 0 0 0 0));
      Issue (CShopInfo 2); Settle (CShopInfo 2) true;
      Issue (CBuyGoods 11 2 10); Settle (CBuyGoods 11 2 10) true;
      Issue (CPlant 20002 1); Settle (CPlant 20002 1) false;
      Issue (CPlant 20002 3); Settle (CPlant 20002 3) true;
      Issue (CFertilize 1 1011); Settle (CFertilize 1 1011) true ].
Proof. vm_compute. reflexivity. Qed.

(** * Further properties *)

(** ** utils.js: time *)

Lemma pow_10_12 : 10 ^ 12 = 1000000000000.
Proof. reflexivity. Qed.

(** X1. [toTimeSec] is never negative, and it is 0 exactly on the inputs
    that are not positive: a positive timestamp is never mistaken for "not
    scheduled". *)
Theorem toTimeSec_zero_iff (val : Z) :
  0 <= toTimeSec val /\ (toTimeSec val = 0 <-> val <= 0).
Proof.
  unfold toTimeSec, toNum. rewrite pow_10_12.
  destruct (Z.leb_spec val 0) as [Hle|Hpos]; [lia|].
  destruct (Z.gtb_spec val 1000000000000) as [Hbig|Hsmall]; [|lia].
  assert (1000000000 <= val / 1000) by (apply Z.div_le_lower_bound; lia).
  lia.
Qed.

(** X2. For an instant later than 10^9 seconds and not later than 10^12
    seconds, the timestamp in milliseconds and the timestamp in seconds
    normalise to the same number of seconds. *)
Theorem toTimeSec_unit_agnostic (sec r : Z) :
  10 ^ 9 < sec <= 10 ^ 12 -> 0 <= r < 1000 ->
  toTimeSec (sec * 1000 + r) = sec /\ toTimeSec sec = sec.
Proof.
  change (10 ^ 9) with 1000000000. rewrite pow_10_12. intros Hsec Hr.
  unfold toTimeSec, toNum. rewrite pow_10_12. split.
  - destruct (Z.leb_spec (sec * 1000 + r) 0); [lia|].
    destruct (Z.gtb_spec (sec * 1000 + r) 1000000000000); [|lia].
    symmetry. apply (Z.div_unique _ _ sec r); lia.
  - destruct (Z.leb_spec sec 0); [lia|].
    destruct (Z.gtb_spec sec 1000000000000); [lia|reflexivity].
Qed.

Lemma toTimeSec_unit_agnostic_witness :
  toTimeSec (1700000000 * 1000 + 123) = 1700000000
  /\ toTimeSec 1700000000 = 1700000000.
Proof.
  apply (toTimeSec_unit_agnostic 1700000000 123); [vm_compute; split; congruence|lia].
Defined.

(** X3. After a sync with a server time other than 0, the estimate at
    [d] milliseconds of local time after the sync is the server time plus
    [d], in whole seconds; it never goes back while the local clock goes
    forward.  A sync with server time 0 reads as no sync: the estimate is
    the local clock. *)
Theorem getServerTimeSec_after_sync (ms t0 d d' : Z) :
  (ms <> 0 ->
   getServerTimeSec (syncServerTime ms t0) (t0 + d) = (ms + d) / 1000
   /\ (d <= d' ->
       getServerTimeSec (syncServerTime ms t0) (t0 + d)
       <= getServerTimeSec (syncServerTime ms t0) (t0 + d')))
  /\ getServerTimeSec (syncServerTime 0 t0) (t0 + d) = (t0 + d) / 1000.
Proof.
  unfold getServerTimeSec, syncServerTime. simpl. split; [|reflexivity].
  intros Hms. destruct (Z.eqb_spec ms 0); [congruence|].
  split.
  - f_equal. lia.
  - intros Hd. apply Z.div_le_mono; lia.
Qed.

(** ** Phase resolver: what the scan returns *)

Lemma scanPhases_position (ps : list Phase) (now : Z) (n : nat) :
  match scanPhases ps now n with
  | Some p =>
      exists i, (i < n)%nat /\ ps !! i = Some p /\ phaseStarted now p = true
                /\ forall j q, (i < j < n)%nat -> ps !! j = Some q ->
                               phaseStarted now q = false
  | None =>
      forall j q, (j < n)%nat -> ps !! j = Some q -> phaseStarted now q = false
  end.
Proof.
  induction n as [|i IH]; simpl.
  - intros j q Hj. lia.
  - destruct (ps !! i) as [p|] eqn:Hp.
    + destruct (phaseStarted now p) eqn:Hs.
      * exists i. repeat split; try assumption; [lia|].
        intros j q Hj. lia.
      * destruct (scanPhases ps now i) as [p'|].
        -- destruct IH as (i' & Hi' & Hl & Hst & Hafter).
           exists i'. repeat split; try assumption; [lia|].
           intros j q Hj Hq. destruct (Nat.eq_dec j i) as [->|Hne].
           ++ congruence.
           ++ apply (Hafter j q); [lia|exact Hq].
        -- intros j q Hj Hq. destruct (Nat.eq_dec j i) as [->|Hne].
           ++ congruence.
           ++ apply (IH j q); [lia|exact Hq].
    + destruct (scanPhases ps now i) as [p'|].
      * destruct IH as (i' & Hi' & Hl & Hst & Hafter).
        exists i'. repeat split; try assumption; [lia|].
        intros j q Hj Hq. destruct (Nat.eq_dec j i) as [->|Hne].
        -- congruence.
        -- apply (Hafter j q); [lia|exact Hq].
      * intros j q Hj Hq. destruct (Nat.eq_dec j i) as [->|Hne].
        -- congruence.
        -- apply (IH j q); [lia|exact Hq].
Qed.

(** X4. [getCurrentPhase] answers null only for an absent or empty phase
    list, and otherwise with an element of the list it was given. *)
Theorem getCurrentPhase_member (ps : list Phase) (debug : bool) (label : string)
    (c : Clock) (dateNow : Z) :
  (getCurrentPhase (Some ps) debug label c dateNow = None <-> ps = [])
  /\ (forall p, getCurrentPhase (Some ps) debug label c dateNow = Some p -> In p ps)
  /\ getCurrentPhase None debug label c dateNow = None.
Proof.
  unfold getCurrentPhase.
  destruct ps as [|first rest]; [simpl; repeat split; congruence|].
  change (length (first :: rest) =? 0)%nat with false. cbv iota zeta.
  pose proof (scanPhases_position (first :: rest) (getServerTimeSec c dateNow)
                (length (first :: rest))) as Hscan.
  destruct (scanPhases (first :: rest) (getServerTimeSec c dateNow)
              (length (first :: rest))) as [p|].
  - destruct Hscan as (i & _ & Hl & _).
    split; [split; discriminate|]. split; [|reflexivity].
    intros p' [= <-]. apply list_elem_of_In. eapply list_elem_of_lookup_2, Hl.
  - simpl. split; [split; discriminate|]. split; [|reflexivity].
    intros p' [= <-]. now left.
Qed.

Lemma StronglySorted_lookup {A : Type} (R : A -> A -> Prop) (l : list A)
    (i j : nat) (a b : A) :
  StronglySorted R l -> (i < j)%nat -> l !! i = Some a -> l !! j = Some b -> R a b.
Proof.
  intros Hs. revert i j. induction Hs as [|x l Hs IH Hall]; intros i j Hij Ha Hb.
  - discriminate.
  - destruct j as [|j]; [lia|]. simpl in Hb. destruct i as [|i].
    + simpl in Ha. injection Ha as <-.
      rewrite Forall_forall in Hall. apply Hall.
      eapply list_elem_of_lookup_2, Hb.
    + simpl in Ha. apply (IH i j); [lia|assumption|assumption].
Qed.

(** X5. On a phase list in ascending order of start, the phase
    [getCurrentPhase] returns has the greatest start among the phases that
    have started by now, whenever one has. *)
Theorem getCurrentPhase_greatest_start (ps : list Phase) (debug : bool)
    (label : string) (c : Clock) (dateNow : Z) (p q : Phase) :
  ascendingStarts ps ->
  getCurrentPhase (Some ps) debug label c dateNow = Some p ->
  In q ps -> phaseStarted (getServerTimeSec c dateNow) q = true ->
  phaseStarted (getServerTimeSec c dateNow) p = true /\ startOf q <= startOf p.
Proof.
  intros Hsorted Hres Hq Hstarted. unfold getCurrentPhase in Hres.
  destruct (length ps =? 0)%nat; [discriminate|]. cbv zeta in Hres.
  apply list_elem_of_In, list_elem_of_lookup_1 in Hq. destruct Hq as [j Hj].
  pose proof (lookup_lt_Some _ _ _ Hj) as Hjlen.
  pose proof (scanPhases_position ps (getServerTimeSec c dateNow) (length ps)) as Hscan.
  destruct (scanPhases ps (getServerTimeSec c dateNow) (length ps)) as [p'|].
  - injection Hres as ->. destruct Hscan as (i & Hi & Hl & Hst & Hafter).
    split; [exact Hst|].
    destruct (Nat.lt_trichotomy j i) as [Hlt|[->|Hgt]].
    + apply (StronglySorted_lookup _ ps j i q p Hsorted Hlt Hj Hl).
    + assert (q = p) by congruence. subst q. lia.
    + rewrite (Hafter j q) in Hstarted; [discriminate|lia|exact Hj].
  - rewrite (Hscan j q Hjlen Hj) in Hstarted. discriminate.
Qed.

Lemma getCurrentPhase_greatest_start_witness :
  phaseStarted 1000 (mkPhase 3 500 0 0 0) = true
  /\ startOf (mkPhase 1 100 0 0 0) <= startOf (mkPhase 3 500 0 0 0).
Proof.
  apply (getCurrentPhase_greatest_start
           [mkPhase 1 100 0 0 0; mkPhase 3 500 0 0 0; mkPhase 6 2000 0 0 0]
           false "" (mkClock 0 0) 1000000 (mkPhase 3 500 0 0 0) (mkPhase 1 100 0 0 0)).
  - unfold ascendingStarts.
    repeat (apply SSorted_cons; [|repeat constructor; vm_compute; congruence]).
    apply SSorted_nil.
  - vm_compute. reflexivity.
  - simpl. left. reflexivity.
  - vm_compute. reflexivity.
Defined.

(** ** Plot classifier: every array as a filter of the snapshot *)

Section ClassifierArrays.
Variable PlantPhase : PlantPhaseEnum.
Variables (c : Clock) (dateNow nowSec : Z).

Ltac classify_done := cbn -[toNum timerElapsed hasOwners]; rewrite ?app_nil_r; reflexivity.

Ltac classify_step :=
  unfold analyzeLand, growingWith;
  destruct (could_unlock _), (unlocked _), (could_upgrade _), (isEmptyLand _);
  try classify_done;
  (destruct (plant _) as [pl|]; [|classify_done]);
  (destruct (getCurrentPhase _ _ _ _ _) as [ph|]; [|classify_done]);
  cbv beta iota zeta;
  destruct (phase ph =? DEAD PlantPhase), (phase ph =? MATURE PlantPhase);
  try classify_done;
  cbn -[toNum timerElapsed hasOwners];
  repeat match goal with
         | |- context [if ?b then _ else _] => destruct b
         end;
  classify_done.

Lemma analyzeLand_unlock (r : Status) (land : Land) :
  eligibleForUnlock (analyzeLand PlantPhase c dateNow nowSec r land)
  = eligibleForUnlock r
    ++ (if could_unlock land && negb (unlocked land) then [land_id land] else []).
Proof. classify_step. Qed.

Lemma analyzeLand_upgrade (r : Status) (land : Land) :
  eligibleForUpgrade (analyzeLand PlantPhase c dateNow nowSec r land)
  = eligibleForUpgrade r
    ++ (if unlocked land && could_upgrade land then [land_id land] else []).
Proof. classify_step. Qed.

Lemma analyzeLand_needWater (r : Status) (land : Land) :
  needWater (analyzeLand PlantPhase c dateNow nowSec r land)
  = needWater r
    ++ (if growingWith PlantPhase c dateNow
             (fun pl ph => (toNum (dry_num pl) >? 0) || timerElapsed nowSec (dry_time ph))
             land
        then [land_id land] else []).
Proof. classify_step. Qed.

Lemma analyzeLand_needWeed (r : Status) (land : Land) :
  needWeed (analyzeLand PlantPhase c dateNow nowSec r land)
  = needWeed r
    ++ (if growingWith PlantPhase c dateNow
             (fun pl ph => hasOwners (weed_owners pl)
                           || timerElapsed nowSec (weeds_time ph))
             land
        then [land_id land] else []).
Proof. classify_step. Qed.

Lemma analyzeLand_needBug (r : Status) (land : Land) :
  needBug (analyzeLand PlantPhase c dateNow nowSec r land)
  = needBug r
    ++ (if growingWith PlantPhase c dateNow
             (fun pl ph => hasOwners (insect_owners pl)
                           || timerElapsed nowSec (insect_time ph))
             land
        then [land_id land] else []).
Proof. classify_step. Qed.

Lemma analyzeLand_growing (r : Status) (land : Land) :
  growing (analyzeLand PlantPhase c dateNow nowSec r land)
  = growing r
    ++ (if growingWith PlantPhase c dateNow (fun _ _ => true) land
        then [land_id land] else []).
Proof. classify_step. Qed.

(** A loop that appends the id of every plot passing a test builds the
    filtered list of ids. *)
Lemma fold_appends_filter (field : Status -> list Z) (test : Land -> bool)
    (lands : list Land) (r : Status) :
  (forall r land,
     field (analyzeLand PlantPhase c dateNow nowSec r land)
     = field r ++ (if test land then [land_id land] else [])) ->
  field (fold_left (analyzeLand PlantPhase c dateNow nowSec) lands r)
  = field r ++ map land_id (List.filter test lands).
Proof.
  intros Hstep. revert r. induction lands as [|land lands IH]; intros r; simpl.
  - now rewrite app_nil_r.
  - rewrite IH, Hstep. destruct (test land); simpl; rewrite <- app_assoc; reflexivity.
Qed.
End ClassifierArrays.

(** X6. The need arrays and the growing array, read off the snapshot:
    [growing] lists, in snapshot order, the unlocked planted plots whose
    current phase is neither dead nor mature; [needWater] those of them
    with [dry_num > 0] or an elapsed dry timer; [needWeed] those with a
    weed owner or an elapsed weed timer; [needBug] those with an insect
    owner or an elapsed insect timer.  Each plot of the snapshot
    contributes its id at most once to each array. *)
Theorem analyzeLands_need_arrays (PlantPhase : PlantPhaseEnum) (c : Clock)
    (dateNow : Z) (lands : list Land) :
  let r := analyzeLands PlantPhase c dateNow lands in
  let nowSec := getServerTimeSec c dateNow in
  let among test := map land_id (List.filter (growingWith PlantPhase c dateNow test) lands) in
  growing r = among (fun _ _ => true)
  /\ needWater r
     = among (fun pl ph => (dry_num pl >? 0) || timerElapsed nowSec (dry_time ph))
  /\ needWeed r
     = among (fun pl ph => hasOwners (weed_owners pl)
                           || timerElapsed nowSec (weeds_time ph))
  /\ needBug r
     = among (fun pl ph => hasOwners (insect_owners pl)
                           || timerElapsed nowSec (insect_time ph)).
Proof.
  intros r nowSec among. subst r among. unfold analyzeLands. fold nowSec.
  split; [|split; [|split]].
  - etransitivity;
      [apply (fold_appends_filter PlantPhase c dateNow nowSec growing);
       intros r land; apply analyzeLand_growing|reflexivity].
  - etransitivity;
      [apply (fold_appends_filter PlantPhase c dateNow nowSec needWater);
       intros r land; apply analyzeLand_needWater|reflexivity].
  - etransitivity;
      [apply (fold_appends_filter PlantPhase c dateNow nowSec needWeed);
       intros r land; apply analyzeLand_needWeed|reflexivity].
  - etransitivity;
      [apply (fold_appends_filter PlantPhase c dateNow nowSec needBug);
       intros r land; apply analyzeLand_needBug|reflexivity].
Qed.

(** ** Land statistics *)

Lemma countLand_step (acc : LandStats) (land : Land) :
  countLand acc land
  = mkStats (total acc + 1)
      (red acc + b2z (unlocked land && (land_level land =? 2)))
      (black acc + b2z (unlocked land && (land_level land =? 3)))
      (gold_ acc + b2z (unlocked land && (land_level land =? 4)))
      (upgradeCount acc + b2z (unlocked land && could_upgrade land))
      (unlockCount acc + b2z (could_unlock land && negb (unlocked land))).
Proof.
  unfold countLand, toNum, b2z. destruct acc as [t r b g up un]. simpl.
  destruct (could_unlock land), (unlocked land), (could_upgrade land); simpl;
    destruct (Z.eqb_spec (land_level land) 2) as [E2|N2];
    destruct (Z.eqb_spec (land_level land) 3) as [E3|N3];
    destruct (Z.eqb_spec (land_level land) 4) as [E4|N4];
    simpl; try lia; f_equal; lia.
Qed.

Lemma countIf_cons (test : Land -> bool) (land : Land) (lands : list Land) :
  countIf test (land :: lands) = b2z (test land) + countIf test lands.
Proof.
  unfold countIf, b2z. simpl. destruct (test land); simpl length; lia.
Qed.

Lemma fold_countLand (lands : list Land) (acc : LandStats) :
  fold_left countLand lands acc
  = mkStats (total acc + Z.of_nat (length lands))
      (red acc + countIf (fun l => unlocked l && (land_level l =? 2)) lands)
      (black acc + countIf (fun l => unlocked l && (land_level l =? 3)) lands)
      (gold_ acc + countIf (fun l => unlocked l && (land_level l =? 4)) lands)
      (upgradeCount acc + countIf (fun l => unlocked l && could_upgrade l) lands)
      (unlockCount acc + countIf (fun l => could_unlock l && negb (unlocked l)) lands).
Proof.
  revert acc. induction lands as [|land lands IH]; intros acc.
  - destruct acc. unfold countIf. simpl. f_equal; lia.
  - simpl fold_left. rewrite IH, countLand_step. rewrite !countIf_cons.
    cbn [total red black gold_ upgradeCount unlockCount].
    f_equal; try lia. simpl length. lia.
Qed.

(** X7. The statistics summary agrees with the classifier on the same
    snapshot: [unlockCount] is the number of unlock candidates the
    classifier lists, [upgradeCount] the number of upgrade candidates, and
    [total] the number of plots.  The unlock candidates are the ids of the
    locked plots that can be unlocked, the upgrade candidates the ids of the
    unlocked plots that can be upgraded, both in snapshot order. *)
Theorem getLandTypeCounts_agrees (PlantPhase : PlantPhaseEnum) (c : Clock)
    (dateNow : Z) (lands : list Land) :
  let r := analyzeLands PlantPhase c dateNow lands in
  let stats := getLandTypeCounts lands in
  eligibleForUnlock r
  = map land_id (List.filter (fun l => could_unlock l && negb (unlocked l)) lands)
  /\ eligibleForUpgrade r
     = map land_id (List.filter (fun l => unlocked l && could_upgrade l) lands)
  /\ unlockCount stats = Z.of_nat (length (eligibleForUnlock r))
  /\ upgradeCount stats = Z.of_nat (length (eligibleForUpgrade r))
  /\ total stats = Z.of_nat (length lands).
Proof.
  intros r stats.
  assert (Hun : eligibleForUnlock r
                = map land_id (List.filter (fun l => could_unlock l && negb (unlocked l)) lands)).
  { subst r. unfold analyzeLands.
    etransitivity;
      [apply (fold_appends_filter PlantPhase c dateNow _ eligibleForUnlock);
       intros r land; apply analyzeLand_unlock|reflexivity]. }
  assert (Hup : eligibleForUpgrade r
                = map land_id (List.filter (fun l => unlocked l && could_upgrade l) lands)).
  { subst r. unfold analyzeLands.
    etransitivity;
      [apply (fold_appends_filter PlantPhase c dateNow _ eligibleForUpgrade);
       intros r land; apply analyzeLand_upgrade|reflexivity]. }
  split; [exact Hun|]. split; [exact Hup|].
  rewrite Hun, Hup, !length_map.
  subst stats. unfold getLandTypeCounts. rewrite fold_countLand. simpl.
  unfold countIf. repeat split.
Qed.

(** X8. The tier counters count unlocked plots only: [red], [black] and
    [gold] are the numbers of unlocked plots of level 2, 3 and 4, a locked
    plot is counted in none of them whatever its level, and together they
    never exceed the number of unlocked plots. *)
Theorem getLandTypeCounts_tiers (lands : list Land) :
  let stats := getLandTypeCounts lands in
  red stats = countIf (fun l => unlocked l && (land_level l =? 2)) lands
  /\ black stats = countIf (fun l => unlocked l && (land_level l =? 3)) lands
  /\ gold_ stats = countIf (fun l => unlocked l && (land_level l =? 4)) lands
  /\ red stats + black stats + gold_ stats <= countIf unlocked lands
  /\ countIf unlocked lands <= total stats.
Proof.
  intros stats. subst stats. unfold getLandTypeCounts. rewrite fold_countLand.
  cbn [total red black gold_]. rewrite !Z.add_0_l.
  split; [reflexivity|]. split; [reflexivity|]. split; [reflexivity|]. split.
  - induction lands as [|l lands IH]; [unfold countIf; simpl; lia|].
    rewrite !countIf_cons. unfold b2z.
    destruct (unlocked l); simpl; [|lia].
    destruct (Z.eqb_spec (land_level l) 2); destruct (Z.eqb_spec (land_level l) 3);
      destruct (Z.eqb_spec (land_level l) 4); lia.
  - unfold countIf. pose proof (filter_length unlocked lands). lia.
Qed.

(** ** The one-at-a-time expansion loops *)

Section ExpansionRuns.
Context {W : Type} `{Remote W}.

Lemma step_world_twice (w1 w2 : W) (t1 t2 : list Event) (s : Sys W) :
  step_world w2 t2 (step_world w1 t1 s) = step_world w2 (t1 ++ t2) s.
Proof. unfold step_world. simpl. now rewrite app_assoc. Qed.

Lemma step_world_nil (s : Sys W) : step_world (world s) [] s = s.
Proof. unfold step_world. rewrite app_nil_r. now destruct s. Qed.

(** A whole run of the loop: one request per id, in order; the accepted
    ids are appended to [successIds], the rejected ones to [failedIds];
    only the world and the trace change. *)
Lemma expandLoop_run (mk : Z -> Call) (n : nat) (landIds successIds failedIds : list Z)
    (s : Sys W) :
  exists oks w,
    length oks = length landIds
    /\ expandLoop mk n landIds successIds failedIds s
       = ((successIds ++ acceptedIds landIds oks, failedIds ++ rejectedIds landIds oks),
          step_world w (awaitedEach mk landIds oks) s).
Proof.
  revert successIds failedIds s.
  induction landIds as [|landId rest IH]; intros successIds failedIds s.
  - exists [], (world s). split; [reflexivity|].
    simpl. unfold ret, acceptedIds, rejectedIds, awaitedEach, step_world. simpl.
    rewrite !app_nil_r. destruct s; reflexivity.
  - simpl expandLoop. unfold bind, sendPlain.
    destruct (rpcPlain (mk landId) (world s)) as [ok w1].
    set (s1 := step_world w1 [Issue (mk landId); Settle (mk landId) ok] s).
    assert (Hpace : exists w2, snd ((if (1 <? n)%nat then doSleep 200 else ret tt) s1)
                               = step_world w2 [Issue (mk landId); Settle (mk landId) ok] s).
    { destruct (1 <? n)%nat; simpl.
      - eexists. subst s1. rewrite step_world_twice. reflexivity.
      - exists w1. reflexivity. }
    destruct Hpace as [w2 Hpace].
    destruct ((if (1 <? n)%nat then doSleep 200 else ret tt) s1) as [u s2].
    simpl in Hpace. subst s2.
    destruct (IH (if ok then successIds ++ [landId] else successIds)
                 (if ok then failedIds else failedIds ++ [landId])
                 (step_world w2 [Issue (mk landId); Settle (mk landId) ok] s))
      as (oks & w & Hlen & Hrun).
    exists (ok :: oks), w. split; [simpl; now rewrite Hlen|].
    rewrite Hrun, step_world_twice.
    unfold acceptedIds, rejectedIds, awaitedEach. simpl.
    destruct ok; simpl; rewrite <- ?app_assoc; reflexivity.
Qed.

Lemma accepted_rejected_perm (ids : list Z) (oks : list bool) :
  length oks = length ids ->
  Permutation (acceptedIds ids oks ++ rejectedIds ids oks) ids.
Proof.
  revert oks. induction ids as [|id ids IH]; intros [|ok oks] Hlen;
    try discriminate; [reflexivity|].
  unfold acceptedIds, rejectedIds in *. simpl.
  injection Hlen as Hlen. specialize (IH oks Hlen).
  destruct ok; simpl.
  - now constructor.
  - rewrite <- Permutation_middle. now constructor.
Qed.

(** X9. [unlockLand] and [upgradeLand] send exactly one request per id of
    their list, in list order, whatever the outcomes; [successIds] are the
    ids whose request was accepted and [failedIds] those whose request was
    rejected, each in list order, so that together they are the input list
    up to order; nothing but the server and the trace is touched. *)
Theorem expansion_results_partition (landIds : list Z) (s : Sys W) :
  (exists oks w,
     length oks = length landIds
     /\ unlockLand landIds s
        = ((acceptedIds landIds oks, rejectedIds landIds oks),
           step_world w (awaitedEach CUnlockLand landIds oks) s)
     /\ Permutation (acceptedIds landIds oks ++ rejectedIds landIds oks) landIds)
  /\ (exists oks w,
        length oks = length landIds
        /\ upgradeLand landIds s
           = ((acceptedIds landIds oks, rejectedIds landIds oks),
              step_world w (awaitedEach CUpgradeLand landIds oks) s)
        /\ Permutation (acceptedIds landIds oks ++ rejectedIds landIds oks) landIds).
Proof.
  split.
  - destruct (expandLoop_run CUnlockLand (length landIds) landIds [] [] s)
      as (oks & w & Hlen & Hrun).
    exists oks, w. split; [exact Hlen|]. split; [exact Hrun|].
    now apply accepted_rejected_perm.
  - destruct (expandLoop_run CUpgradeLand (length landIds) landIds [] [] s)
      as (oks & w & Hlen & Hrun).
    exists oks, w. split; [exact Hlen|]. split; [exact Hrun|].
    now apply accepted_rejected_perm.
Qed.

Lemma cooldownOf_step_world (k : Kind) (w : W) (t : list Event) (s : Sys W) :
  cooldownOf k (step_world w t s) = cooldownOf k s.
Proof. destruct k; reflexivity. Qed.

Lemma set_cooldownOf_twice (k : Kind) (m1 m2 : gmap Z Z) (s : Sys W) :
  set_cooldownOf k m2 (set_cooldownOf k m1 s) = set_cooldownOf k m2 s.
Proof. destruct k; reflexivity. Qed.

(** A whole run of an expansion step, in closed form. *)
Lemma expandStep_run (mk : Z -> Call) (k : Kind) (enabled : bool) (eligible : list Z)
    (s : Sys W) :
  let todo := List.filter (cooldownReady (cooldownOf k s) (dateNow (world s))) eligible in
  (enabled && nonEmpty eligible && nonEmpty todo = true
   /\ exists oks w,
        length oks = length todo
        /\ expandStep k enabled eligible
             (fun ids => expandLoop mk (length ids) ids [] []) s
           = (rejectedIds todo oks,
              set_cooldownOf k
                (deleteAll (acceptedIds todo oks)
                   (setAll (dateNow w) (rejectedIds todo oks) (cooldownOf k s)))
                (step_world w (awaitedEach mk todo oks) s)))
  \/ (enabled && nonEmpty eligible && nonEmpty todo = false
      /\ expandStep k enabled eligible
           (fun ids => expandLoop mk (length ids) ids [] []) s = ([], s)).
Proof.
  intros todo. unfold expandStep.
  destruct (enabled && nonEmpty eligible); [|right; split; reflexivity].
  unfold bind, getNow, gets, modify, ret. cbv beta. fold todo.
  destruct (nonEmpty todo); [|right; split; reflexivity].
  left. split; [reflexivity|].
  destruct (expandLoop_run mk (length todo) todo [] [] s) as (oks & w & Hlen & Hrun).
  exists oks, w. split; [exact Hlen|].
  rewrite Hrun. cbv beta iota.
  rewrite cooldownOf_set, cooldownOf_step_world, set_cooldownOf_twice.
  reflexivity.
Qed.

Lemma acceptedIds_In (ids : list Z) (oks : list bool) (id : Z) :
  In id (acceptedIds ids oks) -> In id ids.
Proof.
  unfold acceptedIds. intros Hin. apply in_map_iff in Hin.
  destruct Hin as ([i ok] & <- & Hin). apply filter_In in Hin.
  destruct Hin as [Hin _]. eapply in_combine_l, Hin.
Qed.

Lemma rejectedIds_In (ids : list Z) (oks : list bool) (id : Z) :
  In id (rejectedIds ids oks) -> In id ids.
Proof.
  unfold rejectedIds. intros Hin. apply in_map_iff in Hin.
  destruct Hin as ([i ok] & <- & Hin). apply filter_In in Hin.
  destruct Hin as [Hin _]. eapply in_combine_l, Hin.
Qed.

Variable CONFIG : Config.

(** X10. The unlock step of a cycle sends one unlock request to every
    unlock candidate that is not cooling down, in candidate order, and
    none to a candidate whose last failure is less than ten minutes old;
    with the feature switched off it sends nothing and leaves the state as
    it was.  The upgrade step does the same with the upgrade candidates
    and the upgrade cooldown map. *)
Theorem expansion_respects_cooldown (status : Status) (s : Sys W) :
  let now := dateNow (world s) in
  let readyUnlock :=
    List.filter (fun id => isEligible KUnlock id now s) (eligibleForUnlock status) in
  let readyUpgrade :=
    List.filter (fun id => isEligible KUpgrade id now s) (eligibleForUpgrade status) in
  (exists oks,
     length oks = length readyUnlock
     /\ trace (snd (unlockStep CONFIG status s))
        = trace s ++ (if autoExpandLand CONFIG
                      then awaitedEach CUnlockLand readyUnlock oks else []))
  /\ (exists oks,
        length oks = length readyUpgrade
        /\ trace (snd (upgradeStep CONFIG status s))
           = trace s ++ (if autoUpgradeRedLand CONFIG
                         then awaitedEach CUpgradeLand readyUpgrade oks else []))
  /\ (autoExpandLand CONFIG = false -> unlockStep CONFIG status s = (tt, s))
  /\ (autoUpgradeRedLand CONFIG = false -> upgradeStep CONFIG status s = ([], s)).
Proof.
  intros now readyUnlock readyUpgrade.
  assert (Hquiet : forall (mk : Z -> Call) (l : list Z),
             nonEmpty l = false ->
             exists oks, length oks = length l /\ @nil Event = awaitedEach mk l oks).
  { intros mk l Hl. destruct l; [|discriminate]. exists []. split; reflexivity. }
  assert (Hfilter : forall (l : list Z) (f : Z -> bool),
             nonEmpty l = false -> nonEmpty (List.filter f l) = false).
  { intros l f Hl. destruct l; [reflexivity|discriminate]. }
  split; [|split; [|split]].
  - unfold unlockStep, bind.
    destruct (expandStep_run CUnlockLand KUnlock (autoExpandLand CONFIG)
                (eligibleForUnlock status) s) as [(Hon & oks & w & Hlen & Hrun)|(Hoff & Hrun)];
      change (fun ids => expandLoop CUnlockLand (length ids) ids [] []) with unlockLand in Hrun;
      rewrite Hrun; simpl.
    + exists oks. split; [exact Hlen|].
      destruct (autoExpandLand CONFIG); [|discriminate]. reflexivity.
    + destruct (autoExpandLand CONFIG); simpl in Hoff.
      * assert (Hempty : nonEmpty readyUnlock = false).
        { destruct (nonEmpty (eligibleForUnlock status)) eqn:Hel; simpl in Hoff;
            [exact Hoff|now apply Hfilter]. }
        destruct (Hquiet CUnlockLand readyUnlock Hempty) as (oks & Hlen & Heq).
        exists oks. split; [exact Hlen|]. rewrite <- Heq. now rewrite app_nil_r.
      * exists (repeat true (length readyUnlock)).
        split; [apply repeat_length|now rewrite app_nil_r].
  - unfold upgradeStep.
    destruct (expandStep_run CUpgradeLand KUpgrade (autoUpgradeRedLand CONFIG)
                (eligibleForUpgrade status) s) as [(Hon & oks & w & Hlen & Hrun)|(Hoff & Hrun)];
      change (fun ids => expandLoop CUpgradeLand (length ids) ids [] []) with upgradeLand in Hrun;
      rewrite Hrun; simpl.
    + exists oks. split; [exact Hlen|].
      destruct (autoUpgradeRedLand CONFIG); [|discriminate]. reflexivity.
    + destruct (autoUpgradeRedLand CONFIG); simpl in Hoff.
      * assert (Hempty : nonEmpty readyUpgrade = false).
        { destruct (nonEmpty (eligibleForUpgrade status)) eqn:Hel; simpl in Hoff;
            [exact Hoff|now apply Hfilter]. }
        destruct (Hquiet CUpgradeLand readyUpgrade Hempty) as (oks & Hlen & Heq).
        exists oks. split; [exact Hlen|]. rewrite <- Heq. now rewrite app_nil_r.
      * exists (repeat true (length readyUpgrade)).
        split; [apply repeat_length|now rewrite app_nil_r].
  - intros Hoff. unfold unlockStep, bind, expandStep. rewrite Hoff. reflexivity.
  - intros Hoff. unfold upgradeStep, expandStep. rewrite Hoff. reflexivity.
Qed.
End ExpansionRuns.

Lemma accepted_rejected_disjoint (ids : list Z) (oks : list bool) (id : Z) :
  List.NoDup ids ->
  In id (acceptedIds ids oks) -> In id (rejectedIds ids oks) -> False.
Proof.
  intros Hnd. revert oks. induction Hnd as [|x ids Hx Hnd IH]; intros [|ok oks];
    try (intros []; fail).
  unfold acceptedIds, rejectedIds in *. simpl.
  destruct ok; simpl.
  - intros [->|Ha] Hr.
    + apply Hx. now apply (rejectedIds_In ids oks).
    + now apply (IH oks).
  - intros Ha [->|Hr].
    + apply Hx. now apply (acceptedIds_In ids oks).
    + now apply (IH oks).
Qed.

Lemma accepted_or_rejected (ids : list Z) (oks : list bool) (id : Z) :
  length oks = length ids -> In id ids ->
  In id (acceptedIds ids oks) \/ In id (rejectedIds ids oks).
Proof.
  intros Hlen Hin.
  apply (Permutation_in id (Permutation_sym (accepted_rejected_perm ids oks Hlen))) in Hin.
  now apply in_app_or in Hin.
Qed.

Section CooldownBookkeeping.
Context {W : Type} `{Remote W}.

(** X11. What an expansion step (unlock or upgrade) writes into the
    cooldown map of its kind, for candidates with distinct ids and a
    positive wall clock: every id it reports as failed carries the time
    read after the loop and is not eligible again until ten minutes after
    it; every candidate that was tried and not reported as failed has no
    entry; every id that was not tried keeps the entry it had; the map of
    the other kind is not written. *)
Theorem expandStep_stamps_failures (mk : Z -> Call) (k : Kind) (enabled : bool)
    (eligible : list Z) (s : Sys W) :
  let loop := fun ids => expandLoop mk (length ids) ids [] [] in
  let failed := fst (expandStep k enabled eligible loop s) in
  let s' := snd (expandStep k enabled eligible loop s) in
  let stamp := dateNow (world s') in
  let tried :=
    if enabled
    then List.filter (fun id => isEligible k id (dateNow (world s)) s) eligible
    else [] in
  List.NoDup eligible -> 0 < stamp ->
  (forall id, In id failed ->
     In id tried
     /\ cooldownOf k s' !! id = Some stamp
     /\ forall now, now - stamp < EXPAND_RETRY_INTERVAL_MS ->
                    isEligible k id now s' = false)
  /\ (forall id, In id tried -> ~ In id failed -> cooldownOf k s' !! id = None)
  /\ (forall id, ~ In id tried -> cooldownOf k s' !! id = cooldownOf k s !! id)
  /\ (forall k', k' <> k -> cooldownOf k' s' = cooldownOf k' s).
Proof.
  intros loop failed s' stamp tried Hnd Hpos.
  subst failed s' stamp loop.
  destruct (expandStep_run mk k enabled eligible s)
    as [(Hon & oks & w & Hlen & Hrun)|(Hoff & Hrun)]; rewrite Hrun in *; simpl in *.
  - destruct enabled; [|discriminate]. simpl in tried.
    set (todo := List.filter (cooldownReady (cooldownOf k s) (dateNow (world s))) eligible) in *.
    assert (Htried : tried = todo) by reflexivity.
    assert (Hndtodo : List.NoDup todo) by (apply List.NoDup_filter, Hnd).
    assert (Hworld : dateNow (world (set_cooldownOf k
                        (deleteAll (acceptedIds todo oks)
                           (setAll (dateNow w) (rejectedIds todo oks) (cooldownOf k s)))
                        (step_world w (awaitedEach mk todo oks) s))) = dateNow w).
    { destruct k; reflexivity. }
    rewrite Hworld in *. rewrite cooldownOf_set.
    split; [|split; [|split]].
    + intros id Hfail.
      assert (Hlook : deleteAll (acceptedIds todo oks)
                        (setAll (dateNow w) (rejectedIds todo oks) (cooldownOf k s)) !! id
                      = Some (dateNow w)).
      { rewrite lookup_deleteAll, lookup_setAll.
        destruct (setHas (acceptedIds todo oks) id) eqn:Hacc.
        - apply setHas_In in Hacc.
          destruct (accepted_rejected_disjoint todo oks id Hndtodo Hacc Hfail).
        - apply setHas_In in Hfail. now rewrite Hfail. }
      split; [rewrite Htried; now apply (rejectedIds_In todo oks)|].
      split; [exact Hlook|].
      intros now Hnow. unfold isEligible, cooldownReady.
      rewrite cooldownOf_set, Hlook. apply orb_false_iff. split.
      * apply Z.eqb_neq. lia.
      * rewrite Z.geb_leb. apply Z.leb_gt. exact Hnow.
    + intros id Htry Hnot. rewrite Htried in Htry.
      destruct (accepted_or_rejected todo oks id Hlen Htry) as [Hacc|Hrej];
        [|contradiction].
      rewrite lookup_deleteAll. apply setHas_In in Hacc. now rewrite Hacc.
    + intros id Hnot. rewrite Htried in Hnot.
      rewrite lookup_deleteAll, lookup_setAll.
      destruct (setHas (acceptedIds todo oks) id) eqn:Hacc.
      { apply setHas_In in Hacc. destruct Hnot. now apply (acceptedIds_In todo oks). }
      destruct (setHas (rejectedIds todo oks) id) eqn:Hrej.
      { apply setHas_In in Hrej. destruct Hnot. now apply (rejectedIds_In todo oks). }
      reflexivity.
    + intros k' Hk'. destruct k, k'; try congruence; reflexivity.
  - split; [intros id []|]. split; [|split; reflexivity].
    intros id Htry _. exfalso.
    destruct enabled; [|destruct Htry]. simpl in Hoff, tried.
    destruct (nonEmpty eligible) eqn:Hel; simpl in Hoff.
    + change (nonEmpty tried = false) in Hoff. destruct tried; [destruct Htry|discriminate].
    + destruct eligible; [destruct Htry|discriminate].
Qed.
End CooldownBookkeeping.

Lemma expandStep_stamps_failures_witness :
  let s := freshSys (sampleServer deadUpgradable rejectUpgrade1) sampleUser in
  let loop := fun ids => expandLoop CUpgradeLand (length ids) ids [] [] in
  let s' := snd (expandStep KUpgrade true [1] loop s) in
  cooldownOf KUpgrade s' !! 1 = Some (dateNow (world s'))
  /\ isEligible KUpgrade 1 (dateNow (world s') + 599999) s' = false.
Proof.
  intros s loop s'.
  assert (Hnd : List.NoDup [1]).
  { apply List.NoDup_cons; [simpl; lia|apply List.NoDup_nil]. }
  assert (Hpos : 0 < dateNow (world s')) by (vm_compute; reflexivity).
  destruct (expandStep_stamps_failures CUpgradeLand KUpgrade true [1] s Hnd Hpos)
    as (Hfailed & _).
  destruct (Hfailed 1) as (_ & Hstamp & Hcool); [vm_compute; left; reflexivity|].
  split; [exact Hstamp|]. apply Hcool. vm_compute. reflexivity.
Defined.

(** ** Expansion at login *)

Section LoginFacts.
Context {W : Type} `{Remote W}.
Variable CONFIG : Config.
Variable PlantPhase : PlantPhaseEnum.

(** X12. [expandLandsOnLogin] with a non-empty snapshot leaves both
    cooldown maps empty, whatever they held and whatever the server
    answers to the requests: it sends one unlock request to every unlock
    candidate and one upgrade request to every upgrade candidate (each
    kind when its feature is on), cooling down or not, and records no
    failure.  With a rejected, absent or empty snapshot it sends nothing
    further and leaves both maps as they were. *)
Theorem expandLandsOnLogin_clears_cooldowns (s : Sys W) :
  let s' := snd (expandLandsOnLogin CONFIG PlantPhase s) in
  let w1 := snd (rpcAllLands (world s)) in
  match fst (rpcAllLands (world s)) with
  | Some (Some (land :: rest)) =>
      let status := analyzeLands PlantPhase (clock s) (dateNow w1) (land :: rest) in
      upgradeRetryCooldown s' = ∅ /\ unlockRetryCooldown s' = ∅
      /\ exists oks1 oks2,
           length oks1 = length (eligibleForUnlock status)
           /\ length oks2 = length (eligibleForUpgrade status)
           /\ trace s'
              = trace s ++ [Issue CAllLands; Settle CAllLands true]
                ++ (if autoExpandLand CONFIG
                    then awaitedEach CUnlockLand (eligibleForUnlock status) oks1 else [])
                ++ (if autoUpgradeRedLand CONFIG
                    then awaitedEach CUpgradeLand (eligibleForUpgrade status) oks2 else [])
  | other =>
      upgradeRetryCooldown s' = upgradeRetryCooldown s
      /\ unlockRetryCooldown s' = unlockRetryCooldown s
      /\ trace s' = trace s ++ [Issue CAllLands; Settle CAllLands (isOk other)]
  end.
Proof.
  intros s' w1. subst s' w1.
  remember (expandLandsOnLogin CONFIG PlantPhase s) as res eqn:Eres.
  unfold expandLandsOnLogin in Eres. unfold bind at 1 in Eres.
  unfold getAllLands in Eres. revert Eres.
  destruct (rpcAllLands (world s)) as [r w1]. intros Eres. simpl fst. simpl snd.
  destruct r as [[[|land rest]|]|];
    try (subst res; simpl; repeat split; reflexivity).
  change (length (land :: rest) =? 0)%nat with false in Eres. cbv iota in Eres.
  unfold bind at 1 in Eres. unfold gets at 1 in Eres.
  cbn [world clock step_world] in Eres.
  set (status := analyzeLands PlantPhase (clock s) (dateNow w1) (land :: rest)) in *.
  unfold bind at 1 in Eres. unfold modify at 1 in Eres.
  unfold bind at 1 in Eres. unfold modify at 1 in Eres.
  set (s2 := set_unlockRetryCooldown ∅ (set_upgradeRetryCooldown ∅ _)) in Eres.
  assert (Hquiet : forall l : list Z, nonEmpty l = false -> l = []).
  { intros l Hl. destruct l; [reflexivity|discriminate]. }
  assert (Hpass : forall (mk : Z -> Call) (on : bool) (ids : list Z) (s0 : Sys W),
            exists oks w,
              length oks = length ids
              /\ snd ((if on && nonEmpty ids
                       then let* _ := expandLoop mk (length ids) ids [] [] in ret tt
                       else ret tt) s0)
                 = step_world w (if on then awaitedEach mk ids oks else []) s0).
  { intros mk on ids s0.
    destruct (expandLoop_run mk (length ids) ids [] [] s0) as (oks & w & Hlen & Hrun).
    destruct on; simpl andb.
    - destruct (nonEmpty ids) eqn:Hne.
      + exists oks, w. split; [exact Hlen|]. unfold bind. cbn [andb].
        now rewrite Hrun.
      + exists [], (world s0). rewrite (Hquiet _ Hne). split; [reflexivity|].
        simpl. unfold step_world. simpl. rewrite app_nil_r. now destruct s0.
    - exists (repeat true (length ids)), (world s0).
      split; [apply repeat_length|]. simpl. unfold step_world. simpl.
      rewrite app_nil_r. now destruct s0. }
  destruct (Hpass CUnlockLand (autoExpandLand CONFIG) (eligibleForUnlock status) s2)
    as (oks1 & wA & Hlen1 & HrunA).
  change (fun ids => expandLoop CUnlockLand (length ids) ids [] []) with unlockLand in HrunA.
  change (expandLoop CUnlockLand (length (eligibleForUnlock status))
            (eligibleForUnlock status) [] [])
    with (unlockLand (eligibleForUnlock status)) in HrunA.
  unfold bind at 1 in Eres.
  destruct ((if autoExpandLand CONFIG && nonEmpty (eligibleForUnlock status)
             then let* _ := unlockLand (eligibleForUnlock status) in ret tt
             else ret tt) s2) as [u s3].
  simpl in HrunA. subst s3.
  set (s3 := step_world wA _ s2) in Eres.
  destruct (Hpass CUpgradeLand (autoUpgradeRedLand CONFIG) (eligibleForUpgrade status) s3)
    as (oks2 & wB & Hlen2 & HrunB).
  change (expandLoop CUpgradeLand (length (eligibleForUpgrade status))
            (eligibleForUpgrade status) [] [])
    with (upgradeLand (eligibleForUpgrade status)) in HrunB.
  assert (Hsnd : snd res = step_world wB
                   (if autoUpgradeRedLand CONFIG
                    then awaitedEach CUpgradeLand (eligibleForUpgrade status) oks2 else [])
                   s3).
  { rewrite Eres. exact HrunB. }
  rewrite Hsnd. cbv zeta.
  split; [reflexivity|]. split; [reflexivity|].
  exists oks1, oks2. split; [exact Hlen1|]. split; [exact Hlen2|].
  subst s3 s2. simpl. rewrite <- !app_assoc. reflexivity.
Qed.
End LoginFacts.

(** ** Replant pipeline: budget, purchase and planting *)

(** X13. The affordability check with a positive unit price.  It gives up
    exactly when not even one seed can be paid.  Otherwise it keeps a
    prefix of the candidate list whose total price is within the stored
    gold, and it drops a candidate only when one more seed could not be
    paid. *)
Theorem affordable_within_budget (bestSeed : Available) (stateGold : Z)
    (landsToPlant : list Z) :
  0 < price bestSeed ->
  let need := Z.of_nat (length landsToPlant) in
  (affordable bestSeed stateGold landsToPlant = None
   <-> stateGold < price bestSeed * need /\ stateGold < price bestSeed)
  /\ forall kept, affordable bestSeed stateGold landsToPlant = Some kept ->
       let n := Z.of_nat (length kept) in
       kept = firstn (length kept) landsToPlant
       /\ price bestSeed * n <= Z.max stateGold 0
       /\ (n < need -> stateGold < price bestSeed * (n + 1)).
Proof.
  intros Hprice need. unfold affordable. fold need.
  destruct (Z.gtb_spec (price bestSeed * need) stateGold) as [Hgt|Hle].
  - assert (Hdiv : stateGold / price bestSeed * price bestSeed <= stateGold
                   /\ stateGold < (stateGold / price bestSeed + 1) * price bestSeed).
    { pose proof (Z.div_mod stateGold (price bestSeed) ltac:(lia)) as Hdm.
      pose proof (Z.mod_pos_bound stateGold (price bestSeed) Hprice). lia. }
    destruct (Z.leb_spec (stateGold / price bestSeed) 0) as [Hnone|Hsome].
    + split; [split; [intros _; split; [lia|nia]|reflexivity]|discriminate].
    + split; [split; [discriminate|intros [_ Hlt]; nia]|].
      intros kept [= <-]. cbv zeta.
      assert (Hlt : stateGold / price bestSeed < need) by nia.
      assert (Hlen : length (firstn (Z.to_nat (stateGold / price bestSeed)) landsToPlant)
                     = Z.to_nat (stateGold / price bestSeed)).
      { apply firstn_length_le. subst need. lia. }
      rewrite Hlen. rewrite Z2Nat.id by lia.
      split; [reflexivity|]. split; [nia|]. intros _. nia.
  - split; [split; [discriminate|intros [Hlt _]; lia]|].
    intros kept [= <-]. cbv zeta. fold need.
    split; [now rewrite firstn_all|]. split; [lia|lia].
Qed.

Lemma affordable_within_budget_witness :
  let seed := mkAvailable (mkGoods 11 20002 100 true None 0 0) 11 20002 100 0 in
  affordable seed 250 [1; 2; 3] = Some [1; 2]
  /\ price seed * 2 <= Z.max 250 0.
Proof.
  intros seed.
  assert (Hprice : 0 < price seed) by (vm_compute; reflexivity).
  split; [vm_compute; reflexivity|].
  destruct (affordable_within_budget seed 250 [1; 2; 3] Hprice) as (_ & Hkept).
  destruct (Hkept [1; 2]) as (_ & Hcost & _); [vm_compute; reflexivity|].
  exact Hcost.
Defined.

Section LoopRuns.
Context {W : Type} `{Remote W}.

Lemma plantLoop_run (sId : Z) (n : nat) (landIds : list Z) (k : nat) (s : Sys W) :
  exists oks w,
    length oks = length landIds
    /\ plantLoop sId n landIds k s
       = ((k + countTrue oks)%nat, step_world w (awaitedEach (CPlant sId) landIds oks) s).
Proof.
  revert k s. induction landIds as [|landId rest IH]; intros k s.
  - exists [], (world s). split; [reflexivity|].
    simpl. unfold ret, awaitedEach, countTrue, step_world. simpl.
    rewrite app_nil_r, Nat.add_0_r. now destruct s.
  - simpl plantLoop. unfold bind, sendPlain.
    destruct (rpcPlain (CPlant sId landId) (world s)) as [ok w1].
    set (ev := [Issue (CPlant sId landId); Settle (CPlant sId landId) ok]).
    assert (Hpace : exists w2, snd ((if (1 <? n)%nat then doSleep 50 else ret tt)
                                      (step_world w1 ev s))
                               = step_world w2 ev s).
    { destruct (1 <? n)%nat; simpl.
      - eexists. rewrite step_world_twice, app_nil_r. reflexivity.
      - exists w1. reflexivity. }
    destruct Hpace as [w2 Hpace].
    destruct ((if (1 <? n)%nat then doSleep 50 else ret tt) (step_world w1 ev s))
      as [u s2].
    simpl in Hpace. subst s2.
    destruct (IH (if ok then S k else k) (step_world w2 ev s)) as (oks & w & Hlen & Hrun).
    exists (ok :: oks), w. split; [simpl; now rewrite Hlen|].
    cbv zeta. rewrite Hrun, step_world_twice. f_equal.
    unfold countTrue. destruct ok; simpl; lia.
Qed.

Lemma fertilizeLoop_run (fId : Z) (n : nat) (landIds : list Z) (k : nat) (s : Sys W) :
  exists j w,
    (j <= length landIds)%nat
    /\ fertilizeLoop fId n landIds k s
       = ((k + j)%nat,
          step_world w
            (awaitedEach (fun id => CFertilize id fId) (firstn j landIds) (repeat true j)
             ++ match landIds !! j with
                | Some id => [Issue (CFertilize id fId); Settle (CFertilize id fId) false]
                | None => []
                end) s).
Proof.
  revert k s. induction landIds as [|landId rest IH]; intros k s.
  - exists O, (world s). split; [reflexivity|].
    simpl. unfold ret, awaitedEach, step_world. simpl.
    rewrite app_nil_r, Nat.add_0_r. now destruct s.
  - simpl fertilizeLoop. unfold bind, sendPlain.
    destruct (rpcPlain (CFertilize landId fId) (world s)) as [ok w1].
    destruct ok.
    + set (ev := [Issue (CFertilize landId fId); Settle (CFertilize landId fId) true]).
      assert (Hpace : exists w2, snd ((if (1 <? n)%nat then doSleep 50 else ret tt)
                                        (step_world w1 ev s))
                                 = step_world w2 ev s).
      { destruct (1 <? n)%nat; simpl.
        - eexists. rewrite step_world_twice, app_nil_r. reflexivity.
        - exists w1. reflexivity. }
      destruct Hpace as [w2 Hpace].
      destruct ((if (1 <? n)%nat then doSleep 50 else ret tt) (step_world w1 ev s))
        as [u s2].
      simpl in Hpace. subst s2.
      destruct (IH (S k) (step_world w2 ev s)) as (j & w & Hj & Hrun).
      exists (S j), w. split; [simpl; lia|].
      rewrite Hrun, step_world_twice. f_equal; try lia; reflexivity.
    + exists O, w1. split; [simpl; lia|]. simpl. now rewrite Nat.add_0_r.
Qed.
End LoopRuns.

Lemma awaitedEach_Awaited (P : Call -> Prop) (mk : Z -> Call) (ids : list Z)
    (oks : list bool) :
  (forall id, P (mk id)) -> Awaited P (awaitedEach mk ids oks).
Proof.
  intros HP. unfold awaitedEach. revert oks.
  induction ids as [|id ids IH]; intros [|ok oks]; simpl; try constructor.
  - apply HP.
  - apply IH.
Qed.

Section PipelineRuns.
Context {W : Type} `{Remote W}.
Variable CONFIG : Config.
Variable getPlantingRecommendation : Z -> Z -> option (list Z).

(** X14. [plantSeeds] sends one plant request per plot of its list, in
    list order and with the given seed, and goes on after a rejected
    request; it returns the number of accepted requests and touches
    nothing but the server and the trace. *)
Theorem plantSeeds_requests_every_plot (sId : Z) (landIds : list Z) (s : Sys W) :
  exists oks w,
    length oks = length landIds
    /\ plantSeeds sId landIds s
       = (countTrue oks, step_world w (awaitedEach (CPlant sId) landIds oks) s).
Proof.
  unfold plantSeeds.
  destruct (plantLoop_run sId (length landIds) landIds O s) as (oks & w & Hlen & Hrun).
  exists oks, w. split; [exact Hlen|exact Hrun].
Qed.

(** X15. [fertilize] serves a prefix of its list: [j] accepted requests in
    list order, then either the end of the list or one rejected request,
    after which no further request is sent; it returns [j]. *)
Theorem fertilize_stops_at_first_rejection (landIds : list Z) (fertilizerId : Z)
    (s : Sys W) :
  exists j w,
    (j <= length landIds)%nat
    /\ fertilize landIds fertilizerId s
       = (j,
          step_world w
            (awaitedEach (fun id => CFertilize id fertilizerId)
                         (firstn j landIds) (repeat true j)
             ++ match landIds !! j with
                | Some id => [Issue (CFertilize id fertilizerId);
                              Settle (CFertilize id fertilizerId) false]
                | None => []
                end) s).
Proof.
  unfold fertilize.
  destruct (fertilizeLoop_run fertilizerId (length landIds) landIds O s)
    as (j & w & Hj & Hrun).
  exists j, w. split; [exact Hj|exact Hrun].
Qed.

Lemma firstn_length_firstn {A : Type} (n : nat) (l : list A) :
  firstn (length (firstn n l)) l = firstn n l.
Proof.
  destruct (Nat.le_gt_cases n (length l)) as [Hle|Hgt].
  - now rewrite firstn_length_le.
  - rewrite !(firstn_all2 (n := n)) by lia. apply firstn_all.
Qed.

Lemma affordable_nonempty (bestSeed : Available) (g : Z) (landsToPlant kept : list Z) :
  landsToPlant <> [] ->
  affordable bestSeed g landsToPlant = Some kept ->
  kept <> [] /\ kept = firstn (length kept) landsToPlant.
Proof.
  intros Hne. unfold affordable.
  destruct (_ >? _).
  - destruct (Z.leb_spec (g / price bestSeed) 0) as [|Hpos]; [discriminate|].
    intros [= <-]. split.
    + destruct landsToPlant as [|x l]; [congruence|].
      destruct (Z.to_nat (g / price bestSeed)) eqn:E; [lia|]. simpl. discriminate.
    + symmetry. apply firstn_length_firstn.
  - intros [= <-]. split; [exact Hne|now rewrite firstn_all].
Qed.

Lemma payCost_charged (receipt : BuyGoodsReply) (u : UserState) :
  payCost receipt u = mkUser (gid u) (level u) (gold u - chargedGold receipt).
Proof.
  unfold payCost, chargedGold, toNum.
  destruct (cost_items receipt) as [items|].
  - revert u. induction items as [|item items IH]; intros u; simpl.
    + destruct u. simpl. f_equal. lia.
    + rewrite IH. simpl. f_equal. lia.
  - destruct u. simpl. f_equal. lia.
Qed.

Lemma boughtSeedId_named (bestSeed : Available) (receipt : BuyGoodsReply) :
  boughtSeedId bestSeed receipt = seedNamedBy receipt (seedId bestSeed).
Proof.
  unfold boughtSeedId, seedNamedBy, toNum.
  destruct (get_items receipt) as [[|item items]|]; try reflexivity.
  now rewrite Z.gtb_ltb.
Qed.

(** A whole run of the replant pipeline, in closed form. *)
Lemma autoPlantEmptyLands_run (deadLandIds emptyLandIds : list Z)
    (unlockedLandCount : option Z) (s : Sys W) :
  let landsToPlant := emptyLandIds ++ deadLandIds in
  let remove := CRemovePlant deadLandIds in
  let rem := awaitedCalls (batched CRemovePlant deadLandIds)
               [fst (rpcPlain remove (world s))] in
  let w1 := if nonEmpty deadLandIds then snd (rpcPlain remove (world s)) else world s in
  let shopReply := fst (rpcShopInfo SEED_SHOP_ID w1) in
  let w2 := snd (rpcShopInfo SEED_SHOP_ID w1) in
  let shop := [Issue (CShopInfo SEED_SHOP_ID);
               Settle (CShopInfo SEED_SHOP_ID) (isOk shopReply)] in
  let res := autoPlantEmptyLands CONFIG getPlantingRecommendation
               deadLandIds emptyLandIds unlockedLandCount s in
  let stops := res = (tt, step_world w2 (rem ++ shop) s) in
  if nonEmpty landsToPlant then
    match shopReply with
    | None => stops
    | Some goods_list =>
        match findBestSeed CONFIG getPlantingRecommendation goods_list (userState s)
                unlockedLandCount with
        | None => stops
        | Some seed =>
            match affordable seed (gold (userState s)) landsToPlant with
            | None => stops
            | Some toPlant =>
                let num := Z.of_nat (length toPlant) in
                let buy := CBuyGoods (goodsId seed) num (price seed) in
                match rpcBuyGoods (goodsId seed) num (price seed) w2 with
                | (None, w3) =>
                    res = (tt, step_world w3
                                 (rem ++ shop ++ [Issue buy; Settle buy false]) s)
                | (Some receipt, _) =>
                    toPlant <> []
                    /\ toPlant = firstn (length toPlant) landsToPlant
                    /\ exists oks ferts w,
                         length oks = length toPlant
                         /\ Awaited (fertilizes (firstn (countTrue oks) toPlant)) ferts
                         /\ res
                            = (tt,
                               set_userState (payCost receipt (userState s))
                                 (step_world w
                                    (rem ++ shop ++ [Issue buy; Settle buy true]
                                     ++ awaitedEach (CPlant (boughtSeedId seed receipt))
                                          toPlant oks
                                     ++ ferts) s))
                end
            end
        end
    end
  else res = (tt, s).
Proof.
  intros landsToPlant remove rem w1 shopReply w2 shop res stops. subst remove.
  assert (Hrem : (if nonEmpty deadLandIds
                  then let* _ := sendPlain (CRemovePlant deadLandIds) in
                       ret (emptyLandIds ++ deadLandIds)
                  else ret emptyLandIds) s
                 = (landsToPlant, step_world w1 rem s)).
  { subst rem w1 landsToPlant. unfold batched.
    destruct deadLandIds as [|d ds].
    - simpl. unfold ret, awaitedCalls. simpl.
      rewrite app_nil_r, step_world_nil. reflexivity.
    - change (nonEmpty (d :: ds)) with true. cbv iota. unfold bind, sendPlain, ret.
      destruct (rpcPlain _ _) as [ok w]. reflexivity. }
  assert (Hempty : landsToPlant = [] -> step_world w1 rem s = s).
  { subst landsToPlant rem w1. intros Hnil. apply app_eq_nil in Hnil.
    destruct Hnil as [_ ->]. simpl. apply step_world_nil. }
  assert (Eres : res = autoPlantEmptyLands CONFIG getPlantingRecommendation
                         deadLandIds emptyLandIds unlockedLandCount s) by reflexivity.
  clearbody res. unfold autoPlantEmptyLands in Eres. unfold bind at 1 in Eres.
  cbv zeta in Eres. rewrite Hrem in Eres. clear Hrem.
  subst stops. clearbody landsToPlant.
  destruct landsToPlant as [|x L'].
  { simpl in Eres. unfold ret in Eres. rewrite Hempty in Eres by reflexivity. exact Eres. }
  clear Hempty.
  change (nonEmpty (x :: L')) with true. cbv iota.
  change (length (x :: L') =? 0)%nat with false in Eres. cbv iota in Eres.
  unfold bind at 1 in Eres. unfold findBestSeedM in Eres.
  unfold bind at 1 in Eres. unfold getShopInfo in Eres.
  change (world (step_world w1 rem s)) with w1 in Eres.
  subst shop shopReply w2.
  destruct (rpcShopInfo SEED_SHOP_ID w1) as [shopReply w2]. cbn [fst snd].
  set (shop := [Issue (CShopInfo SEED_SHOP_ID);
                Settle (CShopInfo SEED_SHOP_ID) (isOk shopReply)]) in *.
  rewrite step_world_twice in Eres.
  destruct shopReply as [goods_list|]; [|exact Eres].
  unfold bind at 1 in Eres. unfold gets at 1 in Eres. unfold ret at 1 in Eres.
  change (userState (step_world w2 (rem ++ shop) s)) with (userState s) in Eres.
  destruct (findBestSeed CONFIG getPlantingRecommendation goods_list (userState s)
              unlockedLandCount) as [seed|]; [|exact Eres].
  unfold bind at 1 in Eres. unfold gets at 1 in Eres.
  change (userState (step_world w2 (rem ++ shop) s)) with (userState s) in Eres.
  destruct (affordable seed (gold (userState s)) (x :: L')) as [toPlant|] eqn:Haff;
    [|exact Eres].
  destruct (affordable_nonempty seed _ (x :: L') toPlant ltac:(discriminate) Haff)
    as [Hne Hprefix].
  cbv zeta. unfold bind at 1 in Eres. unfold buyGoods in Eres.
  change (world (step_world w2 (rem ++ shop) s)) with w2 in Eres.
  destruct (rpcBuyGoods (goodsId seed) (Z.of_nat (length toPlant)) (price seed) w2)
    as [buyReply w3].
  set (buy := CBuyGoods (goodsId seed) (Z.of_nat (length toPlant)) (price seed)) in *.
  rewrite step_world_twice, <- app_assoc in Eres.
  destruct buyReply as [receipt|]; [|exact Eres].
  split; [exact Hne|]. split; [exact Hprefix|].
  unfold bind at 1 in Eres. unfold modify at 1 in Eres.
  set (s4 := set_userState _ _) in Eres.
  unfold bind at 1 in Eres. unfold plantSeeds in Eres.
  destruct (plantLoop_run (boughtSeedId seed receipt) (length toPlant) toPlant O s4)
    as (oks & w4 & Hlen & Hplant).
  rewrite Hplant in Eres. cbn [Nat.add] in Eres.
  set (plants := awaitedEach (CPlant (boughtSeedId seed receipt)) toPlant oks) in *.
  set (planted := firstn (countTrue oks) toPlant).
  assert (Hlands : (if (0 <? countTrue oks)%nat then firstn (countTrue oks) toPlant else [])
                   = planted).
  { subst planted. destruct (countTrue oks); reflexivity. }
  rewrite Hlands in Eres.
  assert (Hstate : forall w ferts,
            step_world w ferts (step_world w4 plants s4)
            = set_userState (payCost receipt (userState s))
                (step_world w (rem ++ shop ++ [Issue buy; Settle buy true]
                               ++ plants ++ ferts) s)).
  { intros w ferts. subst s4. unfold step_world, set_userState. simpl.
    rewrite <- !app_assoc. reflexivity. }
  destruct (nonEmpty planted) eqn:Hany.
  - unfold bind in Eres. unfold fertilize in Eres.
    destruct (fertilizeLoop_run NORMAL_FERTILIZER_ID (length planted) planted O
                (step_world w4 plants s4)) as (j & w5 & Hj & Hfert).
    rewrite Hfert in Eres. unfold ret in Eres.
    eexists oks, _, w5. split; [exact Hlen|].
    split; [|rewrite Eres, Hstate; reflexivity].
    apply Awaited_app.
    + pose proof (firstn_In j planted) as Hsub.
      clear -Hsub. revert Hsub. generalize (firstn j planted) as ids.
      intros ids Hsub. unfold awaitedEach.
      generalize (repeat true j) as outcomes.
      induction ids as [|id ids IH]; intros [|ok outcomes]; simpl; try constructor.
      * simpl. apply Hsub. now left.
      * apply IH. intros y Hy. apply Hsub. now right.
    + destruct (planted !! j) as [id|] eqn:Hid; [|constructor].
      apply Awaited_one. simpl. apply list_elem_of_In. eapply list_elem_of_lookup_2, Hid.
  - unfold ret in Eres. exists oks, [], w4. split; [exact Hlen|]. split; [constructor|].
    rewrite Eres, <- Hstate. rewrite step_world_twice, app_nil_r. reflexivity.
Qed.

(** X16. A run of the replant pipeline on a removal list and a seeding
    list, tied to the answers of the server.  With nothing to plant it
    does nothing.  Otherwise it sends the removal request when the removal
    list is not empty, then the shop query.  It stops there, gold
    untouched, when the query is rejected, when [findBestSeed] finds no
    seed in the catalog of the reply, or when the stored gold does not pay
    for one seed.  Otherwise it asks for as many seeds of the chosen entry
    as the gold pays for, one per plot of a prefix of the seeding list
    followed by the removal list.  When the purchase is rejected nothing
    is planted and the gold is untouched.  When it is accepted, each of
    these plots gets exactly one plant request, in order, with the seed
    the receipt of the server names (the chosen seed when it names none);
    fertilize requests to plots of the prefix follow; and the stored gold
    is lowered by the cost items of that receipt, once. *)
Theorem autoPlant_buys_what_it_plants (deadLandIds emptyLandIds : list Z)
    (unlockedLandCount : option Z) (s : Sys W) :
  let s' := snd (autoPlantEmptyLands CONFIG getPlantingRecommendation
                   deadLandIds emptyLandIds unlockedLandCount s) in
  let landsToPlant := emptyLandIds ++ deadLandIds in
  let remove := CRemovePlant deadLandIds in
  let rem := if nonEmpty deadLandIds
             then [Issue remove; Settle remove (fst (rpcPlain remove (world s)))]
             else [] in
  let w1 := if nonEmpty deadLandIds then snd (rpcPlain remove (world s)) else world s in
  let shopReply := fst (rpcShopInfo SEED_SHOP_ID w1) in
  let w2 := snd (rpcShopInfo SEED_SHOP_ID w1) in
  let shop := [Issue (CShopInfo SEED_SHOP_ID);
               Settle (CShopInfo SEED_SHOP_ID) (isOk shopReply)] in
  let stops := trace s' = trace s ++ rem ++ shop /\ userState s' = userState s in
  if nonEmpty landsToPlant then
    match shopReply with
    | None => stops
    | Some goods_list =>
        match findBestSeed CONFIG getPlantingRecommendation goods_list (userState s)
                unlockedLandCount with
        | None => stops
        | Some seed =>
            match affordable seed (gold (userState s)) landsToPlant with
            | None => stops
            | Some toPlant =>
                let num := Z.of_nat (length toPlant) in
                let buy := CBuyGoods (goodsId seed) num (price seed) in
                match fst (rpcBuyGoods (goodsId seed) num (price seed) w2) with
                | None =>
                    trace s' = trace s ++ rem ++ shop ++ [Issue buy; Settle buy false]
                    /\ userState s' = userState s
                | Some receipt =>
                    toPlant <> []
                    /\ toPlant = firstn (length toPlant) landsToPlant
                    /\ userState s'
                       = mkUser (gid (userState s)) (level (userState s))
                           (gold (userState s) - chargedGold receipt)
                    /\ exists oks ferts,
                         length oks = length toPlant
                         /\ trace s'
                            = trace s ++ rem ++ shop ++ [Issue buy; Settle buy true]
                                ++ awaitedEach
                                     (CPlant (seedNamedBy receipt (seedId seed)))
                                     toPlant oks
                                ++ ferts
                         /\ Awaited (fertilizes (firstn (countTrue oks) toPlant)) ferts
                end
            end
        end
    end
  else trace s' = trace s /\ userState s' = userState s.
Proof.
  intros s' landsToPlant remove rem w1 shopReply w2 shop stops.
  pose proof (autoPlantEmptyLands_run deadLandIds emptyLandIds unlockedLandCount s)
    as Hrun.
  cbv zeta in Hrun. fold landsToPlant remove w1 shopReply w2 in Hrun.
  assert (Erem : awaitedCalls (batched CRemovePlant deadLandIds)
                   [fst (rpcPlain remove (world s))] = rem).
  { subst rem remove. unfold batched. destruct (nonEmpty deadLandIds); reflexivity. }
  rewrite Erem in Hrun. fold shop in Hrun.
  destruct (nonEmpty landsToPlant).
  2:{ subst s'. rewrite Hrun. simpl. split; reflexivity. }
  assert (Hstop : autoPlantEmptyLands CONFIG getPlantingRecommendation
                    deadLandIds emptyLandIds unlockedLandCount s
                  = (tt, step_world w2 (rem ++ shop) s) -> stops).
  { intros E. subst stops s'. rewrite E. simpl. split; reflexivity. }
  destruct shopReply as [goods_list|]; [|exact (Hstop Hrun)].
  destruct (findBestSeed CONFIG getPlantingRecommendation goods_list (userState s)
              unlockedLandCount) as [seed|]; [|exact (Hstop Hrun)].
  destruct (affordable seed (gold (userState s)) landsToPlant) as [toPlant|];
    [|exact (Hstop Hrun)].
  cbv zeta.
  destruct (rpcBuyGoods (goodsId seed) (Z.of_nat (length toPlant)) (price seed) w2)
    as [[receipt|] w3]; cbn [fst].
  - destruct Hrun as (Hne & Hprefix & oks & ferts & w & Hlen & Hferts & Hres).
    split; [exact Hne|]. split; [exact Hprefix|].
    subst s'. rewrite Hres. split; [apply payCost_charged|].
    exists oks, ferts. split; [exact Hlen|].
    split; [rewrite <- boughtSeedId_named; reflexivity|exact Hferts].
  - subst s'. rewrite Hrun. simpl. split; reflexivity.
Qed.
End PipelineRuns.

(** ** Seed selector: the filtered catalog and the ranking *)

Lemma last_nonempty_default {A : Type} (x : A) (l : list A) (d d' : A) :
  List.last (x :: l) d = List.last (x :: l) d'.
Proof.
  revert x. induction l as [|y l IH]; intros x; [reflexivity|].
  change (List.last (y :: l) d = List.last (y :: l) d'). apply IH.
Qed.

Lemma checkConds_spec (lvl : Z) (cs : list Cond) (r0 : Z) :
  (fst (checkConds lvl cs r0) = true <-> Forall (fun gate => gate <= lvl) (levelGates cs))
  /\ (fst (checkConds lvl cs r0) = true ->
      snd (checkConds lvl cs r0) = List.last (levelGates cs) r0).
Proof.
  revert r0. induction cs as [|cond rest IH]; intros r0; simpl.
  - split; [split; [constructor|reflexivity]|reflexivity].
  - unfold levelGates, toNum in *. simpl.
    destruct (cond_type cond =? 1); simpl.
    + destruct (Z.ltb_spec lvl (cond_param cond)) as [Hlt|Hle]; simpl.
      * split; [split; [discriminate|]|discriminate].
        intros Hall. inversion Hall. lia.
      * destruct (IH (cond_param cond)) as [Hiff Hlast]. split.
        -- rewrite Hiff. split; [intros Hall; now constructor|].
           intros Hall. now inversion Hall.
        -- intros Hok. rewrite (Hlast Hok).
           destruct (map cond_param (List.filter (fun c => cond_type c =? 1) rest));
             [reflexivity|apply last_nonempty_default].
    + apply IH.
Qed.

(** X17. The filtered catalog holds exactly the purchasable entries of the
    shop, each with the fields of its shop entry and, as required level,
    the last level gate of the entry (0 when it has none). *)
Theorem filterAvailable_exact (lvl : Z) (goods_list : list Goods) (x : Available) :
  In x (filterAvailable lvl goods_list)
  <-> In (goods x) goods_list
      /\ purchasable lvl (goods x)
      /\ goodsId x = goods_id (goods x)
      /\ seedId x = item_id (goods x)
      /\ price x = goods_price (goods x)
      /\ requiredLevel x = List.last (levelGates (condsOf (goods x))) 0.
Proof.
  induction goods_list as [|g rest IH]; simpl.
  - split; [intros []|intros [[] _]].
  - assert (Hentry : forall y, availableEntry lvl g = Some y <->
              goods y = g /\ purchasable lvl g
              /\ goodsId y = goods_id g /\ seedId y = item_id g
              /\ price y = goods_price g
              /\ requiredLevel y = List.last (levelGates (condsOf g)) 0).
    { intros y. unfold availableEntry, purchasable, toNum. fold (condsOf g).
      destruct (checkConds_spec lvl (condsOf g) 0) as [Hiff Hlast].
      destruct (checkConds lvl (condsOf g) 0) as [meets r]. simpl in Hiff, Hlast.
      destruct (goods_unlocked g); simpl;
        [|split; [discriminate|intros (_ & (Hu & _) & _); discriminate]].
      destruct meets; simpl.
      2:{ split; [discriminate|]. intros (_ & (_ & Hall & _) & _).
          apply Hiff in Hall. discriminate. }
      specialize (Hlast eq_refl).
      destruct (Z.gtb_spec (limit_count g) 0) as [Hlim|Hnolim]; simpl.
      - destruct (Z.geb_spec (bought_num g) (limit_count g)) as [Hfull|Hroom].
        + split; [discriminate|]. intros (_ & (_ & _ & Hnot) & _). lia.
        + split.
          * intros [= <-]. simpl. repeat split; auto; [apply Hiff; reflexivity|lia].
          * intros (Hg & _ & Hi & Hs & Hp & Hr). destruct y; simpl in *. congruence.
      - split.
        + intros [= <-]. simpl. repeat split; auto; [apply Hiff; reflexivity|lia].
        + intros (Hg & _ & Hi & Hs & Hp & Hr). destruct y; simpl in *. congruence. }
    destruct (availableEntry lvl g) as [y|] eqn:Ey.
    + simpl. rewrite IH. split.
      * intros [<-|Hrest].
        -- destruct (proj1 (Hentry y) eq_refl) as (Hg & Hrestg). rewrite Hg.
           split; [now left|exact Hrestg].
        -- destruct Hrest as (Hin & Hrestx). split; [now right|exact Hrestx].
      * intros ([Hg|Hin] & Hp & Hi & Hs & Hpr & Hr).
        -- left. assert (Some y = Some x) as [= ->]; [|reflexivity].
           apply Hentry. rewrite Hg. auto 10.
        -- right. auto 10.
    + rewrite IH. split.
      * intros (Hin & Hrestx). split; [now right|exact Hrestx].
      * intros ([Hg|Hin] & Hp & Hi & Hs & Hpr & Hr); [|auto 10].
        exfalso. assert (@None Available = Some x) by (apply Hentry; rewrite Hg; auto 10).
        discriminate.
Qed.

Lemma firstRankedHit_first (available : list Available) (ranked : list Z) (x : Available) :
  firstRankedHit available ranked = Some x ->
  exists before after,
    ranked = before ++ seedId x :: after
    /\ findBySeedId available (seedId x) = Some x
    /\ forall sid, In sid before -> findBySeedId available sid = None.
Proof.
  induction ranked as [|sid rest IH]; simpl; [discriminate|].
  destruct (findBySeedId available sid) as [hit|] eqn:Hfind.
  - intros [= <-]. pose proof (findBySeedId_Some _ _ _ Hfind) as [_ Hid].
    exists [], rest. rewrite Hid. split; [reflexivity|]. split; [exact Hfind|intros ? []].
  - intros Hrest. destruct (IH Hrest) as (before & after & -> & Hx & Hnone).
    exists (sid :: before), after. split; [reflexivity|]. split; [exact Hx|].
    intros sid2 [<-|Hin]; [exact Hfind|now apply Hnone].
Qed.

Section RankingFacts.
Variable CONFIG : Config.
Variable getPlantingRecommendation : Z -> Z -> option (list Z).

(** X18. Without a pinned entry and without the force flag, when the
    recommendation service answers with a ranking one of whose seeds is
    available, [findBestSeed] returns the first available entry carrying
    the earliest ranked seed id that is available; the service is asked
    with the player level and with the plot count, 18 when none is given. *)
Theorem findBestSeed_follows_ranking (goods_list : list Goods) (state : UserState)
    (landsCount : option Z) (ranked : list Z) (x : Available) :
  let available := filterAvailable (level state) goods_list in
  pinnedSeed CONFIG available = None ->
  forceLowestLevelCrop CONFIG = false ->
  getPlantingRecommendation (level state)
    (match landsCount with None => 18 | Some n => n end) = Some ranked ->
  firstRankedHit available ranked = Some x ->
  findBestSeed CONFIG getPlantingRecommendation (Some goods_list) state landsCount = Some x
  /\ exists before after,
       ranked = before ++ seedId x :: after
       /\ findBySeedId available (seedId x) = Some x
       /\ forall sid y, In sid before -> In y available -> seedId y <> sid.
Proof.
  intros available Hpin Hforce Hrec Hhit.
  destruct (firstRankedHit_first available ranked x Hhit)
    as (before & after & Hsplit & Hx & Hnone).
  split.
  - unfold findBestSeed. fold available.
    pose proof (findBySeedId_Some _ _ _ Hx) as [Hin _].
    destruct goods_list as [|g gl]; [destruct Hin|].
    change (length (g :: gl) =? 0)%nat with false. cbv iota.
    destruct available as [|a av] eqn:Eav; [destruct Hin|].
    change (length (a :: av) =? 0)%nat with false. cbv iota.
    rewrite Hpin, Hforce. unfold rankedSeed. rewrite Hrec, Hhit. reflexivity.
  - exists before, after. split; [exact Hsplit|]. split; [exact Hx|].
    intros sid y Hsid Hy Heq. specialize (Hnone sid Hsid).
    unfold findBySeedId in Hnone.
    pose proof (find_none _ _ Hnone y Hy) as Hno. simpl in Hno.
    apply Z.eqb_neq in Hno. congruence.
Qed.
End RankingFacts.

Lemma findBestSeed_follows_ranking_witness :
  exists x,
    findBestSeed (sampleConfig false false) sampleRanking (Some sampleShop)
      sampleUser (Some 4) = Some x
    /\ seedId x = 20059.
Proof.
  exists (mkAvailable (mkGoods 12 20059 40 true (Some [mkCond 1 4]) 0 0) 12 20059 40 4).
  split; [|reflexivity].
  apply (findBestSeed_follows_ranking (sampleConfig false false) sampleRanking
           sampleShop sampleUser (Some 4) [20003; 20059; 20002]);
    vm_compute; reflexivity.
Defined.

(** ** Seed selector: the cascade over the shop catalog *)

(** One iteration of the filter loop keeps a shop entry exactly when it
    can be bought, and records its ids, its price and its last level
    gate. *)
Lemma availableEntry_Some (lvl : Z) (g : Goods) (y : Available) :
  availableEntry lvl g = Some y
  <-> goods y = g /\ purchasable lvl g
      /\ goodsId y = goods_id g /\ seedId y = item_id g
      /\ price y = goods_price g /\ requiredLevel y = levelRequirement g.
Proof.
  unfold availableEntry, purchasable, levelRequirement, toNum. fold (condsOf g).
  destruct (checkConds_spec lvl (condsOf g) 0) as [Hiff Hlast].
  destruct (checkConds lvl (condsOf g) 0) as [meets r]. simpl in Hiff, Hlast.
  destruct (goods_unlocked g); simpl;
    [|split; [discriminate|intros (_ & (Hu & _) & _); discriminate]].
  destruct meets; simpl.
  2:{ split; [discriminate|]. intros (_ & (_ & Hall & _) & _).
      apply Hiff in Hall. discriminate. }
  specialize (Hlast eq_refl).
  destruct (Z.gtb_spec (limit_count g) 0) as [Hlim|Hnolim]; simpl.
  - destruct (Z.geb_spec (bought_num g) (limit_count g)) as [Hfull|Hroom].
    + split; [discriminate|]. intros (_ & (_ & _ & Hnot) & _). lia.
    + split.
      * intros [= <-]. simpl. repeat split; auto; [apply Hiff; reflexivity|lia].
      * intros (Hg & _ & Hi & Hs & Hp & Hr). destruct y; simpl in *. congruence.
  - split.
    + intros [= <-]. simpl. repeat split; auto; [apply Hiff; reflexivity|lia].
    + intros (Hg & _ & Hi & Hs & Hp & Hr). destruct y; simpl in *. congruence.
Qed.

Lemma filterAvailable_In (lvl : Z) (goods_list : list Goods) (x : Available) :
  In x (filterAvailable lvl goods_list)
  <-> exists g, In g goods_list /\ availableEntry lvl g = Some x.
Proof.
  induction goods_list as [|g rest IH]; simpl.
  - split; [intros []|intros (g & [] & _)].
  - destruct (availableEntry lvl g) as [y|] eqn:Ey; simpl; rewrite IH; split.
    + intros [<-|(g' & Hin & Hg')]; [exists g; auto|exists g'; auto].
    + intros (g' & [<-|Hin] & Hg'); [left; congruence|right; exists g'; auto].
    + intros (g' & Hin & Hg'). exists g'. auto.
    + intros (g' & [<-|Hin] & Hg'); [congruence|exists g'; auto].
Qed.

(** The filtered list, entry by entry, in terms of the catalog. *)
Lemma available_offered (lvl : Z) (catalog : list Goods) (x : Available) :
  In x (filterAvailable lvl catalog) ->
  onOffer lvl catalog (goods x)
  /\ goodsId x = goods_id (goods x) /\ seedId x = item_id (goods x)
  /\ price x = goods_price (goods x) /\ requiredLevel x = levelRequirement (goods x).
Proof.
  intros Hin. apply filterAvailable_In in Hin. destruct Hin as (g & Hg & Hentry).
  apply availableEntry_Some in Hentry. destruct Hentry as (<- & Hp & Hrest).
  split; [split; assumption|exact Hrest].
Qed.

Lemma offered_available (lvl : Z) (catalog : list Goods) (g : Goods) :
  onOffer lvl catalog g ->
  exists y, In y (filterAvailable lvl catalog)
            /\ seedId y = item_id g /\ price y = goods_price g
            /\ requiredLevel y = levelRequirement g.
Proof.
  intros [Hin Hp].
  exists (mkAvailable g (goods_id g) (item_id g) (goods_price g) (levelRequirement g)).
  split; [|auto]. apply filterAvailable_In. exists g. split; [exact Hin|].
  apply availableEntry_Some. simpl. auto 10.
Qed.

Section Cascade.
Variable CONFIG : Config.
Variable getPlantingRecommendation : Z -> Z -> option (list Z).

(** C7, as the code has it.  Let the entries on offer be the entries of
    the catalog that are unlocked, whose level gates are all met at the
    player level and whose purchase limit is not used up, and let the
    level requirement of an entry be its last level gate.  [findBestSeed]
    returns null exactly when nothing is on offer, and otherwise an entry
    on offer with its ids, price and level requirement.  When a pinned
    seed id is configured and on offer, the result carries it.  Failing a
    pinned entry, with the force flag the result has the lowest level
    requirement and, among those, the lowest price.  Failing both, when
    the external ranking throws or names no seed on offer, the result has
    the lowest level requirement at the player levels other than 0 up to
    28, and the highest level requirement at level 0 and from level 29
    on. *)
Theorem findBestSeed_cascade (goods_list : option (list Goods)) (state : UserState)
    (landsCount : option Z) :
  let catalog := match goods_list with Some gl => gl | None => [] end in
  let lvl := level state in
  let offered := onOffer lvl catalog in
  let result := findBestSeed CONFIG getPlantingRecommendation goods_list state landsCount in
  let pinnedOffered :=
    preferredSeedId CONFIG <> 0
    /\ exists g, offered g /\ item_id g = preferredSeedId CONFIG in
  let rankingFails :=
    match getPlantingRecommendation lvl
            (match landsCount with None => 18 | Some n => n end) with
    | None => True
    | Some ranked => forall sid g, In sid ranked -> offered g -> item_id g <> sid
    end in
  (result = None <-> forall g, ~ offered g)
  /\ (forall x, result = Some x ->
        offered (goods x)
        /\ goodsId x = goods_id (goods x) /\ seedId x = item_id (goods x)
        /\ price x = goods_price (goods x)
        /\ requiredLevel x = levelRequirement (goods x))
  /\ (pinnedOffered -> exists x, result = Some x /\ seedId x = preferredSeedId CONFIG)
  /\ (~ pinnedOffered -> forceLowestLevelCrop CONFIG = true ->
      forall x g, result = Some x -> offered g ->
        requiredLevel x < levelRequirement g
        \/ (requiredLevel x = levelRequirement g /\ price x <= goods_price g))
  /\ (~ pinnedOffered -> forceLowestLevelCrop CONFIG = false -> rankingFails ->
      forall x g, result = Some x -> offered g ->
        (lvl <> 0 -> lvl <= 28 -> requiredLevel x <= levelRequirement g)
        /\ (lvl = 0 \/ 28 < lvl -> levelRequirement g <= requiredLevel x)).
Proof.
  intros catalog lvl offered result pinnedOffered rankingFails.
  pose proof (findBestSeed_on_available CONFIG getPlantingRecommendation
                goods_list state landsCount) as Hcode.
  cbv zeta in Hcode. fold catalog lvl result in Hcode.
  set (available := filterAvailable lvl catalog) in *.
  destruct Hcode as (Hnone & Hin & Hpin & Hforce & Hfall).
  assert (Hnopin : ~ pinnedOffered -> pinnedSeed CONFIG available = None).
  { intros Hno. unfold pinnedSeed.
    destruct (Z.eqb_spec (preferredSeedId CONFIG) 0) as [|Hcfg]; [reflexivity|].
    destruct (findBySeedId available (preferredSeedId CONFIG)) as [y|] eqn:Ey;
      [|reflexivity].
    exfalso. apply Hno. split; [exact Hcfg|].
    apply findBySeedId_Some in Ey. destruct Ey as [Hy Hid].
    destruct (available_offered lvl catalog y Hy) as (Hoff & _ & Hseed & _).
    exists (goods y). split; [exact Hoff|congruence]. }
  split; [|split; [|split; [|split]]].
  - rewrite Hnone. split.
    + intros Hempty g Hg. destruct (offered_available lvl catalog g Hg) as (y & Hy & _).
      fold available in Hy. rewrite Hempty in Hy. destruct Hy.
    + intros Hno. destruct available as [|y av] eqn:Eav; [reflexivity|].
      exfalso. apply (Hno (goods y)).
      apply (available_offered lvl catalog y). fold available. rewrite Eav. now left.
  - intros x Hx. apply (available_offered lvl catalog x), Hin, Hx.
  - intros [Hcfg (g & Hg & Hid)].
    destruct (offered_available lvl catalog g Hg) as (y & Hy & Hseed & _).
    destruct (Hpin Hcfg) as (x & Hx & _ & Hxid); [exists y; split; [exact Hy|congruence]|].
    exists x. auto.
  - intros Hno Hflag x g Hx Hg.
    destruct (Hforce (Hnopin Hno) Hflag x Hx) as [_ Hmin].
    destruct (offered_available lvl catalog g Hg) as (y & Hy & _ & Hprice & Hreq).
    specialize (Hmin y Hy). rewrite Hreq, Hprice in Hmin. exact Hmin.
  - intros Hno Hflag Hrank x g Hx Hg.
    assert (Hnorank : rankedSeed getPlantingRecommendation available lvl landsCount = None).
    { unfold rankedSeed. subst rankingFails.
      destruct (getPlantingRecommendation lvl _) as [ranked|]; [|reflexivity].
      destruct (firstRankedHit available ranked) as [hit|] eqn:Ehit; [|reflexivity].
      exfalso.
      destruct (firstRankedHit_first available ranked hit Ehit)
        as (before & after & Hsplit & Hfind & _).
      apply findBySeedId_Some in Hfind. destruct Hfind as [Hhit _].
      destruct (available_offered lvl catalog hit Hhit) as (Hoff & _ & Hseed & _).
      apply (Hrank (seedId hit) (goods hit)); [|exact Hoff|congruence].
      rewrite Hsplit. apply in_or_app. right. now left. }
    destruct (Hfall (Hnopin Hno) Hflag Hnorank x Hx) as [Hlow Hhigh].
    destruct (offered_available lvl catalog g Hg) as (y & Hy & _ & _ & Hreq).
    split.
    + intros Hnz Hle. destruct (Hlow Hnz Hle) as [_ Hmin].
      specialize (Hmin y Hy). lia.
    + intros Hcase. destruct (Hhigh Hcase) as [_ Hmax].
      specialize (Hmax y Hy). lia.
Qed.
End Cascade.

(** C7 as stated fails at player level 0, which is below the threshold.
    The shop has level gates -2, 0, 1 and 0; the entries with gates -2, 0
    and 0 are on offer, the ranking service is down, and the fallback
    returns an entry with gate 0, not the one with the lowest gate. *)
Lemma fallback_at_level_zero_takes_highest :
  let state := mkUser 1 0 1000 in
  let available := filterAvailable (level state) gatedShop in
  let low := mkAvailable (mkGoods 21 20101 10 true (Some [mkCond 1 (-2)]) 0 0)
               21 20101 10 (-2) in
  exists x,
    findBestSeed (sampleConfig false false) noRecommendation (Some gatedShop)
      state (Some 4) = Some x
    /\ level state <= 28
    /\ In low available
    /\ requiredLevel x = 0
    /\ requiredLevel low < requiredLevel x
    /\ ~ lowestLevel available x.
Proof.
  intros state available low.
  exists (mkAvailable (mkGoods 22 20102 10 true (Some [mkCond 1 0]) 0 0) 22 20102 10 0).
  split; [vm_compute; reflexivity|].
  split; [vm_compute; congruence|].
  assert (Hlow : In low available) by (vm_compute; left; reflexivity).
  split; [exact Hlow|]. split; [reflexivity|]. split; [vm_compute; reflexivity|].
  intros [_ Hmin]. specialize (Hmin low Hlow). vm_compute in Hmin. congruence.
Qed.

(** ** The cycle: early exits *)

Section CycleExits.
Context {W : Type} `{Remote W}.
Variable CONFIG : Config.
Variable PlantPhase : PlantPhaseEnum.
Variable getPlantingRecommendation : Z -> Z -> option (list Z).

(** X19. A cycle started with the guard free does nothing at all while
    the user is not logged in ([gid] is 0).  When the snapshot request is
    rejected, or the snapshot has no plot list or an empty one, the cycle
    consists of that one request and the login box callback with null:
    no other request is sent, the cooldown maps, the statistics and the
    user state are as before, and the guard is free again. *)
Theorem checkFarm_aborts_early (s : Sys W) :
  isCheckingFarm s = false ->
  (gid (userState s) = 0 ->
   checkFarm CONFIG PlantPhase getPlantingRecommendation s = (tt, s))
  /\ (gid (userState s) <> 0 ->
      forall reply,
        fst (rpcAllLands (world s)) = reply ->
        reply = None \/ reply = Some None \/ reply = Some (Some []) ->
        checkFarm CONFIG PlantPhase getPlantingRecommendation s
        = (tt, step_world (snd (rpcAllLands (world s)))
                 [Issue CAllLands; Settle CAllLands (isOk reply); LoginBox None] s)).
Proof.
  intros Hfree. unfold checkFarm, checkFarmEnter. rewrite Hfree. simpl orb. split.
  - intros ->. reflexivity.
  - intros Hgid reply Hreply Hcases.
    destruct (Z.eqb_spec (gid (userState s)) 0); [congruence|].
    unfold guardedCycle, bind, getAllLands. simpl world.
    destruct (rpcAllLands (world s)) as [r w]. simpl in Hreply. subst r.
    assert (Hdone : forall b,
              (let '(_, s0) :=
                 completeLoginBox None
                   (step_world w [Issue CAllLands; Settle CAllLands b]
                      (set_isCheckingFarm true s)) in
               (tt, set_isCheckingFarm false s0))
              = (tt, step_world w [Issue CAllLands; Settle CAllLands b; LoginBox None] s)).
    { intros b. simpl. unfold step_world, set_isCheckingFarm. simpl.
      rewrite <- app_assoc. simpl. destruct s; simpl in *. now subst. }
    destruct Hcases as [-> | [-> | ->]]; apply Hdone.
Qed.
End CycleExits.

Lemma checkFarm_aborts_early_witness :
  let s := freshSys (mkScript 1000000 None None None rejectNothing) sampleUser in
  trace (snd (checkFarm (sampleConfig true true) samplePhases noRecommendation s))
  = [Issue CAllLands; Settle CAllLands false; LoginBox None].
Proof.
  intros s.
  destruct (checkFarm_aborts_early (sampleConfig true true) samplePhases
              noRecommendation s eq_refl) as [_ Hrej].
  rewrite (Hrej ltac:(vm_compute; congruence) None eq_refl (or_introl eq_refl)).
  reflexivity.
Defined.

(** ** The whole cycle in closed form *)

Section CycleRuns.
Context {W : Type} `{Remote W}.
Variable CONFIG : Config.
Variable PlantPhase : PlantPhaseEnum.
Variable getPlantingRecommendation : Z -> Z -> option (list Z).

Lemma promiseAll_run (cs : list Call) (s : Sys W) :
  exists oks w,
    length oks = length cs
    /\ promiseAll cs s = (tt, step_world w (issuedTogether cs oks) s).
Proof.
  unfold promiseAll.
  destruct (answerAll_settles cs (world s)) as (oks & Hlen & Heq).
  destruct (answerAll cs (world s)) as [settles w]. simpl in Heq. subst settles.
  exists oks, w. split; [exact Hlen|reflexivity].
Qed.

Lemma maintenanceStep_run (status : Status) (s : Sys W) :
  let maintenance :=
    batched CWeedOut (needWeed status) ++ batched CInsecticide (needBug status)
    ++ batched CWaterLand (needWater status) in
  exists oks w,
    length oks = length maintenance
    /\ maintenanceStep status s = (tt, step_world w (issuedTogether maintenance oks) s).
Proof.
  intros maintenance. unfold maintenanceStep.
  assert (Ecs : batchOpsOf status = maintenance) by reflexivity.
  rewrite Ecs. clearbody maintenance.
  destruct maintenance as [|c cs].
  - exists [], (world s). split; [reflexivity|]. simpl. unfold ret.
    now rewrite step_world_nil.
  - change (nonEmpty (c :: cs)) with true. cbv iota. apply promiseAll_run.
Qed.

Lemma harvestStep_run (status : Status) (s : Sys W) :
  exists (okH : bool) w,
    let harvested := if okH then harvestable status else [] in
    harvestStep status s
    = (harvested,
       set_upgradeRetryCooldown (deleteAll harvested (upgradeRetryCooldown s))
         (step_world w (awaitedCalls (batched CHarvest (harvestable status)) [okH]) s)).
Proof.
  unfold harvestStep, batched.
  destruct (harvestable status) as [|h hs].
  - exists false, (world s). simpl. unfold ret. rewrite step_world_nil.
    now destruct s.
  - change (nonEmpty (h :: hs)) with true. cbv iota.
    unfold bind, sendPlain. destruct (rpcPlain _ _) as [ok w].
    exists ok, w. destruct ok; reflexivity.
Qed.

Lemma set_cooldownOf_same (k : Kind) (s : Sys W) : set_cooldownOf k (cooldownOf k s) s = s.
Proof. destruct k, s; reflexivity. Qed.

(** An expansion step in one closed form, switched on or off. *)
Lemma expandStep_closed (mk : Z -> Call) (k : Kind) (enabled : bool)
    (eligible : list Z) (s : Sys W) :
  exists now oks w m,
    let tried := if enabled
                 then List.filter (cooldownReady (cooldownOf k s) now) eligible
                 else [] in
    length oks = length tried
    /\ expandStep k enabled eligible (fun ids => expandLoop mk (length ids) ids [] []) s
       = (rejectedIds tried oks,
          set_cooldownOf k m (step_world w (awaitedEach mk tried oks) s)).
Proof.
  destruct (expandStep_run mk k enabled eligible s)
    as [(Hon & oks & w & Hlen & Hrun)|(Hoff & Hrun)].
  - exists (dateNow (world s)), oks, w. eexists. cbv zeta.
    destruct enabled; [|discriminate]. split; [exact Hlen|exact Hrun].
  - exists (dateNow (world s)), [], (world s), (cooldownOf k s). cbv zeta.
    assert (Hnone : (if enabled
                     then List.filter (cooldownReady (cooldownOf k s) (dateNow (world s)))
                            eligible
                     else []) = []).
    { destruct enabled; [|reflexivity]. cbn [andb] in Hoff.
      destruct eligible as [|e es]; [reflexivity|].
      change (nonEmpty (e :: es)) with true in Hoff. cbn [andb] in Hoff.
      destruct (List.filter _ (e :: es)); [reflexivity|discriminate]. }
    rewrite Hnone. split; [reflexivity|].
    rewrite Hrun. unfold rejectedIds, awaitedEach. simpl.
    now rewrite step_world_nil, set_cooldownOf_same.
Qed.

(** Everything of a cycle between the snapshot and the replant pipeline. *)
Lemma actOnLands_run (lands : list Land) (s : Sys W) :
  let status := analyzeLands PlantPhase (clock s) (dateNow (world s)) lands in
  let maintenance :=
    batched CWeedOut (needWeed status) ++ batched CInsecticide (needBug status)
    ++ batched CWaterLand (needWater status) in
  exists oksM (okH : bool) nowU oksU nowG oksG sR,
    let harvested := if okH then harvestable status else [] in
    let triedU :=
      if autoExpandLand CONFIG
      then List.filter (cooldownReady (unlockRetryCooldown s) nowU)
             (eligibleForUnlock status)
      else [] in
    let triedG :=
      if autoUpgradeRedLand CONFIG
      then List.filter
             (cooldownReady (deleteAll harvested (upgradeRetryCooldown s)) nowG)
             (eligibleForUpgrade status)
      else [] in
    length oksM = length maintenance
    /\ length oksU = length triedU
    /\ length oksG = length triedG
    /\ trace sR
       = trace s ++ [LoginBox (Some (getLandTypeCounts lands))]
           ++ issuedTogether maintenance oksM
           ++ awaitedCalls (batched CHarvest (harvestable status)) [okH]
           ++ awaitedEach CUnlockLand triedU oksU
           ++ awaitedEach CUpgradeLand triedG oksG
    /\ userState sR = userState s
    /\ isCheckingFarm sR = isCheckingFarm s
    /\ actOnLands CONFIG PlantPhase getPlantingRecommendation lands s
       = replantStep CONFIG getPlantingRecommendation status harvested
           (rejectedIds triedG oksG)
           (Some (Z.of_nat (length (List.filter unlocked lands)))) sR.
Proof.
  intros status maintenance.
  unfold actOnLands. unfold bind at 1. unfold modify at 1.
  unfold bind at 1. unfold completeLoginBox at 1. unfold modify at 1.
  unfold bind at 1. unfold gets at 1.
  set (s1 := step_world _ _ _).
  change (analyzeLands PlantPhase (clock s1) (dateNow (world s1)) lands) with status.
  unfold bind at 1.
  destruct (maintenanceStep_run status s1) as (oksM & wM & HlenM & HrunM).
  fold maintenance in HlenM, HrunM. rewrite HrunM.
  set (s2 := step_world wM _ s1).
  unfold bind at 1.
  destruct (harvestStep_run status s2) as (okH & wH & HrunH). cbv zeta in HrunH.
  rewrite HrunH.
  set (harvested := if okH then harvestable status else []) in *.
  set (s3 := set_upgradeRetryCooldown _ _).
  unfold bind at 1. unfold unlockStep. unfold bind at 1.
  destruct (expandStep_closed CUnlockLand KUnlock (autoExpandLand CONFIG)
              (eligibleForUnlock status) s3) as (nowU & oksU & wU & mU & HlenU & HrunU).
  change (fun ids => expandLoop CUnlockLand (length ids) ids [] []) with unlockLand in HrunU.
  change (cooldownOf KUnlock s3) with (unlockRetryCooldown s) in HlenU, HrunU.
  rewrite HrunU. unfold ret at 1.
  set (triedU := if autoExpandLand CONFIG then _ else []) in *.
  set (s4 := set_cooldownOf KUnlock mU _).
  unfold bind at 1. unfold upgradeStep.
  destruct (expandStep_closed CUpgradeLand KUpgrade (autoUpgradeRedLand CONFIG)
              (eligibleForUpgrade status) s4) as (nowG & oksG & wG & mG & HlenG & HrunG).
  change (fun ids => expandLoop CUpgradeLand (length ids) ids [] []) with upgradeLand in HrunG.
  change (cooldownOf KUpgrade s4)
    with (deleteAll harvested (upgradeRetryCooldown s)) in HlenG, HrunG.
  rewrite HrunG.
  set (triedG := if autoUpgradeRedLand CONFIG then _ else []) in *.
  exists oksM, okH, nowU, oksU, nowG, oksG. eexists. cbv zeta.
  fold harvested triedU triedG.
  split; [exact HlenM|]. split; [exact HlenU|]. split; [exact HlenG|].
  split; [|split; [|split; [|reflexivity]]].
  - subst s4 s3 s2 s1. simpl. rewrite <- !app_assoc. reflexivity.
  - reflexivity.
  - reflexivity.
Qed.
(** The replant step: what it sends, on the lists it is given. *)
Lemma replantStep_shape (status : Status) (harvested failed : list Z)
    (unlockedLandCount : option Z) (s : Sys W) :
  let removal :=
    dead status ++ List.filter (fun id => negb (setHas failed id)) harvested in
  let seeding :=
    List.filter (fun id => negb (setHas (eligibleForUpgrade status) id)) (empty_ status) in
  let s' := snd (replantStep CONFIG getPlantingRecommendation status harvested failed
                   unlockedLandCount s) in
  exists okR okS buy sid toPlant oksP ferts,
    trace s'
    = trace s
        ++ awaitedCalls (batched CRemovePlant removal) [okR]
        ++ (if nonEmpty (seeding ++ removal)
            then [Issue (CShopInfo SEED_SHOP_ID); Settle (CShopInfo SEED_SHOP_ID) okS]
            else [])
        ++ buy
        ++ awaitedEach (CPlant sid) toPlant oksP
        ++ ferts
    /\ length oksP = length toPlant
    /\ toPlant = firstn (length toPlant) (seeding ++ removal)
    /\ ((toPlant = [] /\ ferts = []
         /\ (buy = []
             \/ exists g n p,
                  buy = [Issue (CBuyGoods g n p); Settle (CBuyGoods g n p) false]))
        \/ (toPlant <> []
            /\ exists g p,
                 buy = [Issue (CBuyGoods g (Z.of_nat (length toPlant)) p);
                        Settle (CBuyGoods g (Z.of_nat (length toPlant)) p) true]))
    /\ Awaited (fertilizes toPlant) ferts
    /\ isCheckingFarm s' = isCheckingFarm s.
Proof.
  intros removal seeding s'. subst s'. unfold replantStep.
  change (allDeadLands status harvested failed) with removal.
  change (allEmptyLands status) with seeding.
  assert (Hsame : nonEmpty removal || nonEmpty seeding = nonEmpty (seeding ++ removal)).
  { destruct seeding, removal; reflexivity. }
  rewrite Hsame.
  pose proof (autoPlantEmptyLands_run CONFIG getPlantingRecommendation
                removal seeding unlockedLandCount s) as Hrun.
  cbv zeta in Hrun.
  set (okR := fst (rpcPlain (CRemovePlant removal) (world s))) in *.
  set (rem := awaitedCalls (batched CRemovePlant removal) [okR]) in *.
  destruct (nonEmpty (seeding ++ removal)) eqn:Hany.
  2:{ change (snd (ret tt s)) with s.
      assert (Hrem : removal = []).
      { destruct seeding, removal; try discriminate; reflexivity. }
      exists false, false, [], 0, [], [], []. rewrite Hrem. simpl.
      rewrite !app_nil_r.
      split; [reflexivity|]. split; [reflexivity|]. split; [reflexivity|].
      split; [left; auto|]. split; [constructor|reflexivity]. }
  assert (Hquiet : forall (okS0 : bool) (buy0 : list Event) (w : W),
            (buy0 = []
             \/ exists g n p,
                  buy0 = [Issue (CBuyGoods g n p); Settle (CBuyGoods g n p) false]) ->
            exists okR okS buy sid toPlant oksP ferts,
              trace (step_world w
                       (rem ++ [Issue (CShopInfo SEED_SHOP_ID);
                                Settle (CShopInfo SEED_SHOP_ID) okS0] ++ buy0) s)
              = trace s
                  ++ awaitedCalls (batched CRemovePlant removal) [okR]
                  ++ [Issue (CShopInfo SEED_SHOP_ID);
                      Settle (CShopInfo SEED_SHOP_ID) okS]
                  ++ buy
                  ++ awaitedEach (CPlant sid) toPlant oksP
                  ++ ferts
              /\ length oksP = length toPlant
              /\ toPlant = firstn (length toPlant) (seeding ++ removal)
              /\ ((toPlant = [] /\ ferts = []
                   /\ (buy = []
                       \/ exists g n p,
                            buy = [Issue (CBuyGoods g n p);
                                   Settle (CBuyGoods g n p) false]))
                  \/ (toPlant <> []
                      /\ exists g p,
                           buy = [Issue (CBuyGoods g (Z.of_nat (length toPlant)) p);
                                  Settle (CBuyGoods g (Z.of_nat (length toPlant)) p)
                                    true]))
              /\ Awaited (fertilizes toPlant) ferts
              /\ isCheckingFarm
                   (step_world w
                      (rem ++ [Issue (CShopInfo SEED_SHOP_ID);
                               Settle (CShopInfo SEED_SHOP_ID) okS0] ++ buy0) s)
                 = isCheckingFarm s).
  { intros okS0 buy0 w Hbuy.
    exists okR, okS0, buy0, 0, [], [], []. fold rem.
    split; [simpl; rewrite ?app_nil_r, <- ?app_assoc; reflexivity|].
    split; [reflexivity|]. split; [reflexivity|].
    split; [left; auto|]. split; [constructor|reflexivity]. }
  set (w1 := if nonEmpty removal then _ else world s) in *.
  destruct (rpcShopInfo SEED_SHOP_ID w1) as [shopReply w2]. cbn [fst snd] in Hrun.
  match goal with
  | |- ?G =>
      assert (Hstop : autoPlantEmptyLands CONFIG getPlantingRecommendation
                        removal seeding unlockedLandCount s
                      = (tt, step_world w2
                               (rem ++ [Issue (CShopInfo SEED_SHOP_ID);
                                        Settle (CShopInfo SEED_SHOP_ID)
                                          (isOk shopReply)]) s) -> G)
  end.
  { intros E. rewrite E. simpl snd.
    rewrite <- (app_nil_r [Issue (CShopInfo SEED_SHOP_ID);
                           Settle (CShopInfo SEED_SHOP_ID) (isOk shopReply)]).
    apply Hquiet. now left. }
  destruct shopReply as [goods_list|]; [|exact (Hstop Hrun)].
  destruct (findBestSeed CONFIG getPlantingRecommendation goods_list (userState s)
              unlockedLandCount) as [seed|]; [|exact (Hstop Hrun)].
  destruct (affordable seed (gold (userState s)) (seeding ++ removal)) as [toPlant|];
    [|exact (Hstop Hrun)].
  clear Hstop. cbv zeta in Hrun.
  destruct (rpcBuyGoods (goodsId seed) (Z.of_nat (length toPlant)) (price seed) w2)
    as [[receipt|] w3].
  - destruct Hrun as (Hne & Hprefix & oks & ferts & w & Hlen & Hferts & Hres).
    rewrite Hres. simpl snd.
    exists okR, true, [Issue (CBuyGoods (goodsId seed) (Z.of_nat (length toPlant)) (price seed));
                       Settle (CBuyGoods (goodsId seed) (Z.of_nat (length toPlant))
                                 (price seed)) true],
      (boughtSeedId seed receipt), toPlant, oks, ferts. fold rem.
    split; [simpl; rewrite <- ?app_assoc; reflexivity|].
    split; [exact Hlen|]. split; [exact Hprefix|].
    split; [right; split; [exact Hne|]; eexists _, _; reflexivity|].
    split; [|reflexivity].
    eapply Awaited_weaken; [|exact Hferts].
    intros [] Hc; try destruct Hc. simpl in *. eapply firstn_In, Hc.
  - rewrite Hrun. simpl snd. apply Hquiet.
    right. eexists _, _, _. reflexivity.
Qed.

(** A cycle whose snapshot request is accepted with a non-empty plot
    list goes on to act on the plots. *)
Lemma checkFarm_accepted (s : Sys W) (lands : list Land) :
  isCheckingFarm s = false -> gid (userState s) <> 0 ->
  fst (rpcAllLands (world s)) = Some (Some lands) -> lands <> [] ->
  checkFarm CONFIG PlantPhase getPlantingRecommendation s
  = (tt, set_isCheckingFarm false
           (snd (actOnLands CONFIG PlantPhase getPlantingRecommendation lands
                   (step_world (snd (rpcAllLands (world s)))
                      [Issue CAllLands; Settle CAllLands true]
                      (set_isCheckingFarm true s))))).
Proof.
  intros Hfree Hgid Hreply Hlands. unfold checkFarm, checkFarmEnter.
  rewrite Hfree. destruct (Z.eqb_spec (gid (userState s)) 0); [congruence|].
  simpl orb. cbv iota.
  unfold guardedCycle. unfold bind at 1. unfold getAllLands.
  change (world (set_isCheckingFarm true s)) with (world s).
  destruct (rpcAllLands (world s)) as [r w]. simpl in Hreply. subst r. simpl snd.
  destruct lands as [|l ls]; [congruence|].
  change (length (l :: ls) =? 0)%nat with false. cbv iota.
  destruct (actOnLands _ _ _ _ _) as [u s']. reflexivity.
Qed.

(** The trace of a whole cycle on an accepted snapshot, stretch by
    stretch. *)
Lemma checkFarm_run (s : Sys W) (lands : list Land) :
  isCheckingFarm s = false -> gid (userState s) <> 0 ->
  fst (rpcAllLands (world s)) = Some (Some lands) -> lands <> [] ->
  let status :=
    analyzeLands PlantPhase (clock s) (dateNow (snd (rpcAllLands (world s)))) lands in
  let maintenance :=
    batched CWeedOut (needWeed status) ++ batched CInsecticide (needBug status)
    ++ batched CWaterLand (needWater status) in
  let seeding :=
    List.filter (fun id => negb (setHas (eligibleForUpgrade status) id)) (empty_ status) in
  exists oksM (okH : bool) nowU oksU nowG oksG okR okS buy sid toPlant oksP ferts,
    let harvested := if okH then harvestable status else [] in
    let triedU :=
      if autoExpandLand CONFIG
      then List.filter (cooldownReady (unlockRetryCooldown s) nowU)
             (eligibleForUnlock status)
      else [] in
    let triedG :=
      if autoUpgradeRedLand CONFIG
      then List.filter
             (cooldownReady (deleteAll harvested (upgradeRetryCooldown s)) nowG)
             (eligibleForUpgrade status)
      else [] in
    let failed := rejectedIds triedG oksG in
    let removal :=
      dead status ++ List.filter (fun id => negb (setHas failed id)) harvested in
    trace (snd (checkFarm CONFIG PlantPhase getPlantingRecommendation s))
    = trace s
        ++ [Issue CAllLands; Settle CAllLands true;
            LoginBox (Some (getLandTypeCounts lands))]
        ++ issuedTogether maintenance oksM
        ++ awaitedCalls (batched CHarvest (harvestable status)) [okH]
        ++ awaitedEach CUnlockLand triedU oksU
        ++ awaitedEach CUpgradeLand triedG oksG
        ++ awaitedCalls (batched CRemovePlant removal) [okR]
        ++ (if nonEmpty (seeding ++ removal)
            then [Issue (CShopInfo SEED_SHOP_ID); Settle (CShopInfo SEED_SHOP_ID) okS]
            else [])
        ++ buy
        ++ awaitedEach (CPlant sid) toPlant oksP
        ++ ferts
    /\ length oksM = length maintenance
    /\ length oksU = length triedU
    /\ length oksG = length triedG
    /\ length oksP = length toPlant
    /\ toPlant = firstn (length toPlant) (seeding ++ removal)
    /\ ((toPlant = [] /\ ferts = []
         /\ (buy = []
             \/ exists g n p,
                  buy = [Issue (CBuyGoods g n p); Settle (CBuyGoods g n p) false]))
        \/ (toPlant <> []
            /\ exists g p,
                 buy = [Issue (CBuyGoods g (Z.of_nat (length toPlant)) p);
                        Settle (CBuyGoods g (Z.of_nat (length toPlant)) p) true]))
    /\ Awaited (fertilizes toPlant) ferts.
Proof.
  intros Hfree Hgid Hreply Hlands status maintenance seeding.
  rewrite (checkFarm_accepted s lands Hfree Hgid Hreply Hlands). simpl snd.
  set (s0 := step_world _ _ (set_isCheckingFarm true s)).
  destruct (actOnLands_run lands s0)
    as (oksM & okH & nowU & oksU & nowG & oksG & sR & HlenM & HlenU & HlenG
        & Htrace & _ & _ & Hact).
  cbv zeta in HlenM, HlenU, HlenG, Htrace, Hact.
  change (analyzeLands PlantPhase (clock s0) (dateNow (world s0)) lands) with status
    in HlenM, HlenU, HlenG, Htrace, Hact.
  fold maintenance in HlenM, Htrace.
  change (unlockRetryCooldown s0) with (unlockRetryCooldown s) in HlenU, Htrace.
  change (upgradeRetryCooldown s0) with (upgradeRetryCooldown s) in HlenG, Htrace, Hact.
  rewrite Hact.
  match type of Hact with
  | _ = replantStep _ _ _ ?h ?f ?n _ =>
      destruct (replantStep_shape status h f n sR)
        as (okR & okS & buy & sid & toPlant & oksP & ferts
            & Hrep & HlenP & Hprefix & Hbuy & Hferts & _)
  end.
  cbv zeta in Hrep, Hprefix. fold seeding in Hrep, Hprefix.
  exists oksM, okH, nowU, oksU, nowG, oksG, okR, okS, buy, sid, toPlant, oksP, ferts.
  cbv zeta.
  split; [|auto 10].
  change (trace (set_isCheckingFarm false ?x)) with (trace x).
  rewrite Hrep, Htrace. subst s0.
  unfold step_world, set_isCheckingFarm. cbn [trace].
  rewrite <- !app_assoc. reflexivity.
Qed.

End CycleRuns.

(** ** The patrol cycle: order of the requests, replant sets, guard *)

Section TraceReadings.
Context {A : Type}.
Variable g : Event -> list A.

Lemma flat_map_Awaited_nil (P : Call -> Prop) (t : list Event) :
  (forall c ok, P c -> g (Issue c) = [] /\ g (Settle c ok) = []) ->
  Awaited P t -> flat_map g t = [].
Proof.
  intros Hg. induction 1 as [|c ok t Hc _ IH]; simpl; [reflexivity|].
  destruct (Hg c ok Hc) as [-> ->]. exact IH.
Qed.

Lemma flat_map_issuedTogether_nil (P : Call -> Prop) (cs : list Call) (oks : list bool) :
  (forall c ok, P c -> g (Issue c) = [] /\ g (Settle c ok) = []) ->
  Forall P cs -> flat_map g (issuedTogether cs oks) = [].
Proof.
  intros Hg Hcs. unfold issuedTogether. rewrite flat_map_app.
  assert (H1 : flat_map g (map Issue cs) = []).
  { induction Hcs as [|c cs Hc _ IH]; simpl; [reflexivity|].
    destruct (Hg c true Hc) as [-> _]. exact IH. }
  assert (H2 : flat_map g (zip_with Settle cs oks) = []).
  { clear H1. revert oks. induction Hcs as [|c cs Hc _ IH]; intros [|ok oks]; simpl;
      try reflexivity.
    destruct (Hg c ok Hc) as [_ ->]. apply IH. }
  now rewrite H1, H2.
Qed.
End TraceReadings.

Lemma awaitedCalls_Awaited (P : Call -> Prop) (cs : list Call) (oks : list bool) :
  Forall P cs -> Awaited P (awaitedCalls cs oks).
Proof.
  intros Hcs. unfold awaitedCalls. revert oks.
  induction Hcs as [|c cs Hc _ IH]; intros [|ok oks]; simpl; try constructor.
  - exact Hc.
  - apply IH.
Qed.

Lemma batched_Forall (P : Call -> Prop) (mk : list Z -> Call) (ids : list Z) :
  P (mk ids) -> Forall P (batched mk ids).
Proof. intros Hp. unfold batched. destruct (nonEmpty ids); repeat constructor. exact Hp. Qed.

Lemma harvestedIn_harvest (ids : list Z) (okH : bool) :
  harvestedIn (awaitedCalls (batched CHarvest ids) [okH]) = if okH then ids else [].
Proof.
  unfold batched. destruct ids as [|x l]; [destruct okH; reflexivity|].
  change (nonEmpty (x :: l)) with true. cbv iota.
  unfold awaitedCalls, harvestedIn. simpl.
  destruct okH; [now rewrite app_nil_r|reflexivity].
Qed.

Lemma failedUpgradesIn_upgrades (ids : list Z) (oks : list bool) :
  failedUpgradesIn (awaitedEach CUpgradeLand ids oks) = rejectedIds ids oks.
Proof.
  unfold failedUpgradesIn, awaitedEach, rejectedIds. revert oks.
  induction ids as [|id ids IH]; intros [|ok oks]; simpl; try reflexivity.
  rewrite IH. destruct ok; reflexivity.
Qed.

Lemma removalRequestsIn_removal (ids : list Z) (okR : bool) :
  removalRequestsIn (awaitedCalls (batched CRemovePlant ids) [okR])
  = if nonEmpty ids then [ids] else [].
Proof. unfold batched. destruct (nonEmpty ids); reflexivity. Qed.

Lemma plantedIn_plants (sid : Z) (ids : list Z) (oks : list bool) :
  length oks = length ids -> plantedIn (awaitedEach (CPlant sid) ids oks) = ids.
Proof.
  unfold plantedIn, awaitedEach. revert oks.
  induction ids as [|id ids IH]; intros [|ok oks] Hlen; simpl; try discriminate;
    [reflexivity|].
  injection Hlen as Hlen. now rewrite IH.
Qed.

Ltac quiet_stretches :=
  repeat match goal with
         | Hq : Awaited ?P ?t |- context [flat_map ?g ?t] =>
             rewrite (flat_map_Awaited_nil g P t
                        ltac:(intros [] ? Hk; try destruct Hk; split; reflexivity) Hq)
         end.

Ltac quiet_batch :=
  match goal with
  | Hq : Forall ?P ?cs |- context [flat_map ?g (issuedTogether ?cs ?oks)] =>
      rewrite (flat_map_issuedTogether_nil g P cs oks
                 ltac:(intros [] ? Hk; try destruct Hk; split; reflexivity) Hq)
  end.

Section CycleClaims.
Context {W : Type} `{Remote W}.
Variable CONFIG : Config.
Variable PlantPhase : PlantPhaseEnum.
Variable getPlantingRecommendation : Z -> Z -> option (list Z).


(** C3, as the code has it.  In every cycle that gets a plot list, read
    off the trace of the cycle: the removal set holds exactly the dead
    plots, each of them whether or not its upgrade failed, together with
    the plots of the harvest request accepted in this cycle whose upgrade
    request was not rejected in this cycle; the direct-seeding set holds
    exactly the empty plots that are not upgrade candidates; one removal
    request is sent when the removal set is not empty, none otherwise,
    and it carries exactly the removal set; and the plant requests go, in
    order, to a prefix of the seeding set followed by the removal set, so
    a plot in neither set gets no removal and no plant request. *)
Theorem replant_sets (s : Sys W) (lands : list Land) :
  isCheckingFarm s = false -> gid (userState s) <> 0 ->
  fst (rpcAllLands (world s)) = Some (Some lands) -> lands <> [] ->
  let status :=
    analyzeLands PlantPhase (clock s) (dateNow (snd (rpcAllLands (world s)))) lands in
  exists t removal seeding,
    trace (snd (checkFarm CONFIG PlantPhase getPlantingRecommendation s)) = trace s ++ t
    /\ (forall id, In id removal
                   <-> In id (dead status)
                       \/ (In id (harvestedIn t) /\ ~ In id (failedUpgradesIn t)))
    /\ (forall id, In id seeding
                   <-> In id (empty_ status) /\ ~ In id (eligibleForUpgrade status))
    /\ removalRequestsIn t = (if nonEmpty removal then [removal] else [])
    /\ plantedIn t = firstn (length (plantedIn t)) (seeding ++ removal)
    /\ (harvestedIn t = harvestable status \/ harvestedIn t = [])
    /\ (forall id, In id (failedUpgradesIn t) -> In id (eligibleForUpgrade status)).
Proof.
  intros Hfree Hgid Hreply Hlands status.
  destruct (checkFarm_run CONFIG PlantPhase getPlantingRecommendation s lands
              Hfree Hgid Hreply Hlands)
    as (oksM & okH & nowU & oksU & nowG & oksG & okR & okS & buy & sid & toPlant
        & oksP & ferts & Htrace & HlenM & HlenU & HlenG & HlenP & Hprefix & Hbuy & Hferts).
  cbv zeta in Htrace, HlenM, HlenU, HlenG, Hprefix. fold status in Htrace, HlenM, HlenU, HlenG, Hprefix.
  set (harvested := if okH then harvestable status else []) in *.
  set (triedG := if autoUpgradeRedLand CONFIG then _ else []) in *.
  set (triedU := if autoExpandLand CONFIG then _ else []) in *.
  set (failed := rejectedIds triedG oksG) in *.
  set (removal := dead status ++ List.filter (fun id => negb (setHas failed id)) harvested)
    in *.
  set (seeding := List.filter (fun id => negb (setHas (eligibleForUpgrade status) id))
                    (empty_ status)) in *.
  set (maintenance := batched CWeedOut (needWeed status) ++ _) in *.
  assert (HM : Forall isMaintenance maintenance) by apply batchOpsOf_maintenance.
  assert (HHv : Awaited isHarvest
                  (awaitedCalls (batched CHarvest (harvestable status)) [okH])).
  { apply awaitedCalls_Awaited, batched_Forall. exact I. }
  assert (HU : Awaited isUnlock (awaitedEach CUnlockLand triedU oksU)).
  { apply awaitedEach_Awaited. intros id. exact I. }
  assert (HG : Awaited isUpgrade (awaitedEach CUpgradeLand triedG oksG)).
  { apply awaitedEach_Awaited. intros id. exact I. }
  assert (HR : Awaited isRemovePlant (awaitedCalls (batched CRemovePlant removal) [okR])).
  { apply awaitedCalls_Awaited, batched_Forall. exact I. }
  set (shop := if nonEmpty (seeding ++ removal) then _ else []) in *.
  assert (HS : Awaited isShopInfo shop).
  { subst shop. destruct (nonEmpty _); [apply Awaited_one; exact I|constructor]. }
  assert (HB : Awaited isBuyGoods buy).
  { destruct Hbuy as [(_ & _ & [->|(g & n & p & ->)])|(_ & g & p & ->)];
      try constructor; try exact I; constructor. }
  assert (HP : Awaited isPlant (awaitedEach (CPlant sid) toPlant oksP)).
  { apply awaitedEach_Awaited. intros id. exact I. }
  assert (HF : Awaited isFertilize ferts).
  { eapply Awaited_weaken; [|exact Hferts]. intros [] Hc; try destruct Hc; exact I. }
  clearbody shop.
  eexists. exists removal, seeding. split; [exact Htrace|].
  assert (Hh : forall rest,
            harvestedIn ([Issue CAllLands; Settle CAllLands true;
                          LoginBox (Some (getLandTypeCounts lands))] ++ rest)
            = harvestedIn rest) by reflexivity.
  assert (Hf : forall rest,
            failedUpgradesIn ([Issue CAllLands; Settle CAllLands true;
                               LoginBox (Some (getLandTypeCounts lands))] ++ rest)
            = failedUpgradesIn rest) by reflexivity.
  assert (Hr : forall rest,
            removalRequestsIn ([Issue CAllLands; Settle CAllLands true;
                                LoginBox (Some (getLandTypeCounts lands))] ++ rest)
            = removalRequestsIn rest) by reflexivity.
  assert (Hp : forall rest,
            plantedIn ([Issue CAllLands; Settle CAllLands true;
                        LoginBox (Some (getLandTypeCounts lands))] ++ rest)
            = plantedIn rest) by reflexivity.
  rewrite Hh, Hf, Hr, Hp. clear Hh Hf Hr Hp.
  assert (Eh : harvestedIn
                 (issuedTogether maintenance oksM
                  ++ awaitedCalls (batched CHarvest (harvestable status)) [okH]
                  ++ awaitedEach CUnlockLand triedU oksU
                  ++ awaitedEach CUpgradeLand triedG oksG
                  ++ awaitedCalls (batched CRemovePlant removal) [okR]
                  ++ shop ++ buy ++ awaitedEach (CPlant sid) toPlant oksP ++ ferts)
               = harvested).
  { unfold harvested. rewrite <- (harvestedIn_harvest (harvestable status) okH).
    unfold harvestedIn. rewrite !flat_map_app.
    quiet_batch.
    clear HHv. quiet_stretches. now rewrite !app_nil_r. }
  assert (Ef : failedUpgradesIn
                 (issuedTogether maintenance oksM
                  ++ awaitedCalls (batched CHarvest (harvestable status)) [okH]
                  ++ awaitedEach CUnlockLand triedU oksU
                  ++ awaitedEach CUpgradeLand triedG oksG
                  ++ awaitedCalls (batched CRemovePlant removal) [okR]
                  ++ shop ++ buy ++ awaitedEach (CPlant sid) toPlant oksP ++ ferts)
               = failed).
  { unfold failed. rewrite <- (failedUpgradesIn_upgrades triedG oksG).
    unfold failedUpgradesIn. rewrite !flat_map_app.
    quiet_batch.
    clear HG. quiet_stretches. now rewrite !app_nil_r. }
  assert (Er : removalRequestsIn
                 (issuedTogether maintenance oksM
                  ++ awaitedCalls (batched CHarvest (harvestable status)) [okH]
                  ++ awaitedEach CUnlockLand triedU oksU
                  ++ awaitedEach CUpgradeLand triedG oksG
                  ++ awaitedCalls (batched CRemovePlant removal) [okR]
                  ++ shop ++ buy ++ awaitedEach (CPlant sid) toPlant oksP ++ ferts)
               = if nonEmpty removal then [removal] else []).
  { rewrite <- (removalRequestsIn_removal removal okR).
    unfold removalRequestsIn. rewrite !flat_map_app.
    quiet_batch.
    clear HR. quiet_stretches. now rewrite !app_nil_r. }
  assert (Ep : plantedIn
                 (issuedTogether maintenance oksM
                  ++ awaitedCalls (batched CHarvest (harvestable status)) [okH]
                  ++ awaitedEach CUnlockLand triedU oksU
                  ++ awaitedEach CUpgradeLand triedG oksG
                  ++ awaitedCalls (batched CRemovePlant removal) [okR]
                  ++ shop ++ buy ++ awaitedEach (CPlant sid) toPlant oksP ++ ferts)
               = toPlant).
  { rewrite <- (plantedIn_plants sid toPlant oksP HlenP) at 2.
    unfold plantedIn. rewrite !flat_map_app.
    quiet_batch.
    clear HP. quiet_stretches. now rewrite !app_nil_r. }
  rewrite Eh, Ef, Er, Ep.
  split; [intros id; apply allDeadLands_In|].
  split; [intros id; apply allEmptyLands_In|].
  split; [reflexivity|]. split; [exact Hprefix|]. split.
  - subst harvested. destruct okH; auto.
  - intros id Hin. subst failed. apply rejectedIds_In in Hin. subst triedG.
    destruct (autoUpgradeRedLand CONFIG); [|destruct Hin].
    apply filter_In in Hin. apply Hin.
Qed.


















End CycleClaims.


(** The dead upgrade candidate whose upgrade is rejected: it is removed
    all the same. *)
Lemma replant_sets_witness :
  let s := freshSys (sampleServer deadUpgradable rejectUpgrade1) sampleUser in
  exists t removal,
    trace (snd (checkFarm (sampleConfig false true) samplePhases noRecommendation s)) = t
    /\ removalRequestsIn t = (if nonEmpty removal then [removal] else []).
Proof.
  intros s.
  destruct (replant_sets (sampleConfig false true) samplePhases noRecommendation
              s deadUpgradable eq_refl ltac:(vm_compute; congruence) eq_refl
              ltac:(discriminate))
    as (t & removal & seeding & Htrace & _ & _ & Hrem & _).
  exists t, removal. split; [exact Htrace|exact Hrem].
Defined.

(** ** Loop control *)

(** The state a sequence of start and stop calls leads to. *)
Lemma runLoopCommands_invariant (cmds : list LoopCommand) (lc : LoopControl) :
  (listeners lc = if farmLoopRunning lc then 1 else 0)%nat ->
  (isOk (farmCheckTimer lc) = farmLoopRunning lc) ->
  (isOk (landStatsTimer lc) = farmLoopRunning lc) ->
  let lc' := fold_left runLoopCommand cmds lc in
  (listeners lc' = if farmLoopRunning lc' then 1 else 0)%nat
  /\ isOk (farmCheckTimer lc') = farmLoopRunning lc'
  /\ isOk (landStatsTimer lc') = farmLoopRunning lc'.
Proof.
  revert lc. induction cmds as [|cmd cmds IH]; intros lc Hl Hf Hs; simpl.
  - auto.
  - destruct (farmLoopRunning lc) eqn:Hrun;
      apply IH; destruct cmd; simpl;
      unfold startFarmCheckLoop, stopFarmCheckLoop; rewrite ?Hrun; simpl;
      rewrite ?Hl; try assumption; reflexivity.
Qed.

(** X20. Whatever sequence of [startFarmCheckLoop] and
    [stopFarmCheckLoop] calls is made from the initial state, the push
    handler is registered exactly once while the loop runs and not at all
    while it is stopped, and the two timers are set exactly while it runs:
    a second start registers no second handler, and a stop without a start
    removes nothing. *)
Theorem loop_control_invariant (cmds : list LoopCommand) :
  let lc := fold_left runLoopCommand cmds initialLoopControl in
  (listeners lc = if farmLoopRunning lc then 1 else 0)%nat
  /\ isOk (farmCheckTimer lc) = farmLoopRunning lc
  /\ isOk (landStatsTimer lc) = farmLoopRunning lc
  /\ farmLoopRunning lc
     = match List.last cmds CmdStop with CmdStart => true | CmdStop => false end.
Proof.
  intros lc.
  destruct (runLoopCommands_invariant cmds initialLoopControl eq_refl eq_refl eq_refl)
    as (Hl & Hf & Hs).
  split; [exact Hl|]. split; [exact Hf|]. split; [exact Hs|].
  subst lc. clear Hl Hf Hs.
  assert (Hlast : forall lc0,
            farmLoopRunning (fold_left runLoopCommand cmds lc0)
            = match List.last cmds (if farmLoopRunning lc0 then CmdStart else CmdStop) with
              | CmdStart => true | CmdStop => false end).
  { induction cmds as [|cmd cmds IH]; intros lc0.
    - simpl. destruct (farmLoopRunning lc0); reflexivity.
    - simpl fold_left. rewrite IH.
      destruct cmds as [|cmd2 cmds2].
      + simpl. destruct cmd; simpl; unfold startFarmCheckLoop;
          destruct (farmLoopRunning lc0) eqn:E; simpl; rewrite ?E; reflexivity.
      + change (List.last (cmd :: cmd2 :: cmds2) ?d) with (List.last (cmd2 :: cmds2) d).
        rewrite (last_nonempty_default cmd2 cmds2 _
                   (if farmLoopRunning lc0 then CmdStart else CmdStop)).
        reflexivity. }
  rewrite Hlast. reflexivity.
Qed.

(** ** client.js: reconnect backoff *)

(** X21. The reconnect delay is at least one minute and at most five
    minutes, never shrinks as the attempt number grows, is one minute for
    every attempt number up to 1 and five minutes from attempt 4 on. *)
Theorem calcBackoffDelayMs_bounds (attempt attempt' : Z) :
  60000 <= calcBackoffDelayMs attempt <= 300000
  /\ (attempt <= attempt' -> calcBackoffDelayMs attempt <= calcBackoffDelayMs attempt')
  /\ (attempt <= 1 -> calcBackoffDelayMs attempt = 60000)
  /\ (4 <= attempt -> calcBackoffDelayMs attempt = 300000).
Proof.
  assert (Hpow : forall a, 1 <= a -> 1 <= 2 ^ (a - 1)).
  { intros a Ha. change 1 with (2 ^ 0) at 1. apply Z.pow_le_mono_r; lia. }
  assert (Hclamp : forall a, 1 <= (if a <? 1 then 1 else a)).
  { intros a. destruct (Z.ltb_spec a 1); lia. }
  unfold calcBackoffDelayMs. cbv zeta.
  split; [|split; [|split]].
  - pose proof (Hpow _ (Hclamp attempt)). lia.
  - intros Hle. apply Z.min_le_compat_r. apply Z.mul_le_mono_nonneg_l; [lia|].
    apply Z.pow_le_mono_r; [lia|].
    destruct (Z.ltb_spec attempt 1), (Z.ltb_spec attempt' 1); lia.
  - intros Hle. destruct (Z.ltb_spec attempt 1) as [Hlt|Hge].
    + reflexivity.
    + assert (attempt = 1) by lia. subst attempt. reflexivity.
  - intros Hge. destruct (Z.ltb_spec attempt 1); [lia|].
    assert (8 <= 2 ^ (attempt - 1)).
    { change 8 with (2 ^ 3). apply Z.pow_le_mono_r; lia. }
    lia.
Qed.

Lemma calcBackoffDelayMs_first (attempt : Z) :
  attempt <= 1 -> calcBackoffDelayMs attempt = 60000.
Proof.
  intros Hle. unfold calcBackoffDelayMs. cbv zeta.
  destruct (Z.ltb_spec attempt 1) as [Hlt|Hge]; [reflexivity|].
  assert (attempt = 1) by lia. subst attempt. reflexivity.
Qed.

(** ** client.js: the disconnect handler *)

(** X22. What [handleDisconnect] decides.  While a reconnect is under way
    the event is ignored: no effect, no state change.  Otherwise the loops
    are stopped first and the handler ends in exactly one of two ways: it
    exits the process, or, on the QQ platform with no reconnect attempt
    used since the last successful login and fewer than three login
    timeouts in a row, it sleeps 60 seconds and restarts the bot by QR
    login, having counted the attempt and released the reconnect flag.  A
    third login timeout in a row always exits. *)
Theorem handleDisconnect_outcomes (platform : Platform) (longWait : Z)
    (reason : string) (st : Supervisor) :
  let st' := fst (handleDisconnect platform longWait reason st) in
  let effects := snd (handleDisconnect platform longWait reason st) in
  (isReconnecting st = true -> st' = st /\ effects = [])
  /\ (isReconnecting st = false ->
      exists stopped,
        (effects = StopAllLoops :: stopped ++ [ExitProcess 1]
         \/ effects = StopAllLoops :: stopped ++ [SleepMs longWait; ExitProcess 1]
         \/ (effects = StopAllLoops :: stopped ++ [SleepMs 60000; StartBotByQr]
             /\ platform = PlatformQQ
             /\ reconnectAttempts st < 1
             /\ reconnectAttempts st' = reconnectAttempts st + 1
             /\ isReconnecting st' = false
             /\ ~ (reason = "login_timeout"%string /\ 2 <= loginTimeoutAttempts st)))
        /\ Forall (fun e => e = ClearProgressTimer \/ e = CloseSocket) stopped
        /\ progressInterval st' = None).
Proof.
  intros st' effects. subst st' effects. unfold handleDisconnect.
  destruct (isReconnecting st); split; try discriminate.
  - intros _. split; reflexivity.
  - intros _.
    exists ((if isOk (progressInterval st) then [ClearProgressTimer] else [])
            ++ [CloseSocket]).
    assert (Hstopped : Forall (fun e => e = ClearProgressTimer \/ e = CloseSocket)
                         ((if isOk (progressInterval st) then [ClearProgressTimer] else [])
                          ++ [CloseSocket])).
    { destruct (isOk (progressInterval st)); simpl;
        repeat (constructor; [auto|]); constructor. }
    destruct platform.
    + destruct (String.eqb_spec reason "login_timeout") as [Hr|Hr]; simpl andb.
      * destruct (Z.geb_spec (loginTimeoutAttempts st + 1) MAX_LOGIN_TIMEOUT_ATTEMPTS)
          as [Hmax|Hless].
        -- simpl. split; [left; now rewrite <- app_assoc|]. split; [exact Hstopped|reflexivity].
        -- destruct (Z.ltb_spec (reconnectAttempts st) MAX_RECONNECT_ATTEMPTS) as [Hlt|Hge].
           ++ simpl. split; [|split; [exact Hstopped|reflexivity]].
              right. right. unfold MAX_RECONNECT_ATTEMPTS, MAX_LOGIN_TIMEOUT_ATTEMPTS in *.
              rewrite (calcBackoffDelayMs_first (reconnectAttempts st + 1)) by lia.
              split; [now rewrite <- app_assoc|].
              repeat split; try lia.
           ++ simpl. split; [right; left; now rewrite <- app_assoc|].
              split; [exact Hstopped|reflexivity].
      * destruct (Z.ltb_spec (reconnectAttempts st) MAX_RECONNECT_ATTEMPTS) as [Hlt|Hge].
        -- simpl. split; [|split; [exact Hstopped|reflexivity]].
           right. right. unfold MAX_RECONNECT_ATTEMPTS in *.
           rewrite (calcBackoffDelayMs_first (reconnectAttempts st + 1)) by lia.
           split; [now rewrite <- app_assoc|].
           repeat split; try lia; try (intros [Hreason _]; contradiction).
        -- simpl. split; [right; left; now rewrite <- app_assoc|].
           split; [exact Hstopped|reflexivity].
    + simpl. split; [left; now rewrite <- app_assoc|]. split; [exact Hstopped|reflexivity].
Qed.

(** ** client.js: arguments injected from the environment *)

Lemma sanitizeExtra_clean_upto (n : nat) (rawExtra : list string) (tok : string) :
  (length rawExtra <= n)%nat ->
  In tok (sanitizeExtra rawExtra) ->
  In tok rawExtra /\ tok <> "--code"%string /\ String.prefix "--code=" tok = false.
Proof.
  revert rawExtra. induction n as [|n IH]; intros rawExtra Hlen.
  - destruct rawExtra; [intros []|simpl in Hlen; lia].
  - destruct rawExtra as [|t rest]; [intros []|]. simpl in Hlen. simpl sanitizeExtra.
    destruct (String.eqb_spec t "--code") as [Ht|Ht].
    + destruct rest as [|v rest']; [intros []|]. simpl in Hlen.
      intros Hin. destruct (IH rest' ltac:(lia) Hin) as (Hin' & Hclean).
      split; [right; right; exact Hin'|exact Hclean].
    + destruct (String.prefix "--code=" t) eqn:Hp.
      * intros Hin. destruct (IH rest ltac:(lia) Hin) as (Hin' & Hclean).
        split; [right; exact Hin'|exact Hclean].
      * intros [<-|Hin].
        -- split; [now left|]. split; assumption.
        -- destruct (IH rest ltac:(lia) Hin) as (Hin' & Hclean).
           split; [right; exact Hin'|exact Hclean].
Qed.

Lemma includes_In (argv : list string) (t : string) :
  includes argv t = true <-> In t argv.
Proof.
  unfold includes. rewrite existsb_exists. split.
  - intros (x & Hin & Heq). apply String.eqb_eq in Heq. now subst.
  - intros Hin. exists t. split; [exact Hin|apply String.eqb_refl].
Qed.

Lemma includes_app (l1 l2 : list string) (t : string) :
  includes (l1 ++ l2) t = includes l1 t || includes l2 t.
Proof. unfold includes. apply existsb_app. Qed.

(** X23. The tokens kept from HEROKU_EXTRA_ARGS are tokens of it, none of
    them is [--code] and none starts with [--code=]: the extra arguments
    cannot carry a login code of their own. *)
Theorem sanitizeExtra_drops_code (rawExtra : list string) (tok : string) :
  In tok (sanitizeExtra rawExtra) ->
  In tok rawExtra /\ tok <> "--code"%string /\ String.prefix "--code=" tok = false.
Proof. apply (sanitizeExtra_clean_upto (length rawExtra)). lia. Qed.

Lemma sanitizeExtra_drops_code_witness :
  sanitizeExtra ["--wx"; "--code"; "abc"; "--code=xyz"; "--interval"; "5"]%string
  = ["--wx"; "--interval"; "5"]%string
  /\ "--interval"%string <> "--code"%string.
Proof.
  split; [reflexivity|].
  apply (sanitizeExtra_drops_code
           ["--wx"; "--code"; "abc"; "--code=xyz"; "--interval"; "5"]%string
           "--interval"%string).
  simpl. right. left. reflexivity.
Defined.

(** X24. The argument injection at start-up.  A command line that already
    has [--code] is left as it is.  Otherwise the program and script
    entries stay in front, the original arguments stay at the end in their
    order, every token put in between is [--code], the login code of the
    environment, or a token of the extra arguments that was not on the
    command line already and is not a [--code=] token; and the new
    command line has a [--code] option exactly when LOGIN_CODE is set and
    not empty. *)
Theorem injectArgs_code (node script : string) (args : list string)
    (envCode : option string) (rawExtra : list string) :
  let argv := node :: script :: args in
  let result := injectArgs node script args envCode rawExtra in
  (includes argv "--code" = true -> result = argv)
  /\ (includes argv "--code" = false ->
      includes result "--code" = truthy envCode
      /\ exists added,
           result = node :: script :: added ++ args
           /\ (truthy envCode = true ->
               exists c rest, envCode = Some c /\ added = "--code"%string :: c :: rest)
           /\ forall t, In t added ->
                t = "--code"%string \/ envCode = Some t
                \/ (In t rawExtra /\ includes argv t = false
                    /\ String.prefix "--code=" t = false)).
Proof.
  intros argv result. subst result. unfold injectArgs. fold argv.
  split; [intros ->; reflexivity|]. intros Hno. rewrite Hno. cbn [negb]. cbv iota zeta.
  set (toAdd := List.filter (fun t => negb (includes argv t)) (sanitizeExtra rawExtra)).
  assert (Hadd : forall t, In t toAdd ->
            In t rawExtra /\ includes argv t = false
            /\ String.prefix "--code=" t = false /\ t <> "--code"%string).
  { intros t Hin. apply filter_In in Hin. destruct Hin as [Hin Hnot].
    apply negb_true_iff in Hnot.
    destruct (sanitizeExtra_clean_upto (length rawExtra) rawExtra t (le_n _) Hin)
      as (Hraw & Hne & Hpre). auto. }
  assert (HaddNo : includes toAdd "--code" = false).
  { destruct (includes toAdd "--code") eqn:E; [|reflexivity].
    apply includes_In in E. destruct (Hadd _ E) as (_ & _ & _ & Hne). congruence. }
  assert (HargsNo : includes args "--code" = false /\ node <> "--code"%string
                    /\ script <> "--code"%string).
  { unfold argv, includes in Hno. cbn [existsb] in Hno. fold (includes args "--code") in Hno.
    apply orb_false_iff in Hno. destruct Hno as [Hn Hno].
    apply orb_false_iff in Hno. destruct Hno as [Hs Hno].
    rewrite String.eqb_sym in Hn. rewrite String.eqb_sym in Hs.
    apply String.eqb_neq in Hn. apply String.eqb_neq in Hs. auto. }
  destruct HargsNo as (HargsNo & Hnode & Hscript).
  assert (Hfront : forall l, includes (node :: script :: l) "--code" = includes l "--code").
  { intros l. unfold includes. cbn [existsb].
    destruct (String.eqb_spec "--code" node); [congruence|].
    destruct (String.eqb_spec "--code" script); [congruence|]. reflexivity. }
  clearbody toAdd.
  destruct envCode as [c|]; cbn [truthy].
  - destruct (String.eqb_spec c "") as [Hc|Hc]; cbn [negb orb].
    + destruct (nonEmpty toAdd) eqn:Hne.
      * split.
        -- change (([node; script] ++ []) ++ toAdd ++ args)
             with (node :: script :: toAdd ++ args).
           now rewrite Hfront, includes_app, HaddNo, HargsNo.
        -- exists toAdd. split; [reflexivity|]. split; [discriminate|].
           intros t Hin. right. right. destruct (Hadd t Hin) as (? & ? & ? & _). auto.
      * split; [exact Hno|]. exists []. split; [reflexivity|].
        split; [discriminate|intros t []].
    + split.
      * change (([node; script] ++ ["--code"%string; c]) ++ toAdd ++ args)
          with (node :: script :: ("--code"%string :: c :: toAdd) ++ args).
        rewrite Hfront, includes_app. unfold includes at 1. cbn [existsb].
        now rewrite String.eqb_refl.
      * exists ("--code"%string :: c :: toAdd). split; [reflexivity|].
        split; [intros _; exists c, toAdd; auto|].
        intros t [<-|[<-|Hin]]; [now left|right; now left|].
        right. right. destruct (Hadd t Hin) as (? & ? & ? & _). auto.
  - cbn [orb]. destruct (nonEmpty toAdd) eqn:Hne.
    + split.
      * change (([node; script] ++ []) ++ toAdd ++ args)
          with (node :: script :: toAdd ++ args).
        now rewrite Hfront, includes_app, HaddNo, HargsNo.
      * exists toAdd. split; [reflexivity|]. split; [discriminate|].
        intros t Hin. right. right. destruct (Hadd t Hin) as (? & ? & ? & _). auto.
    + split; [exact Hno|]. exists []. split; [reflexivity|].
      split; [discriminate|intros t []].
Qed.
